(** * RAG chatbot API: ingestion, retrieval and source bookkeeping

    A shallow embedding of [main.py]: the module globals [collection] and
    [added_sources], the route handlers [get_sources], [clear_all_sources],
    [delete_source], [chat] and the helper [add_texts_to_chroma].

    The Chroma collection, the sentence-transformer model, the text splitter,
    [uuid.uuid4] and the Ollama endpoint are libraries and services outside
    the module; they enter as the fields of the classes [Chroma] and
    [Runtime], and what the proofs use of Chroma is stated once, in
    [ChromaContract]. *)

From Stdlib Require Import String Ascii List Bool Arith Lia.
From Stdlib Require Import DecimalString.
From Stdlib Require Import DecimalNat.
Import ListNotations.
Open Scope string_scope.
Open Scope list_scope.

(** ** Python strings

    A [str] is modelled as a [string] whose characters are the code points
    below 256. *)

Module PyStr.

(** [str.isspace] on one character: TAB..CR, FS..US, SPACE, NEL and NBSP. *)
Definition isspace (c : ascii) : bool :=
  let n := nat_of_ascii c in
  (((9 <=? n) && (n <=? 13)) || ((28 <=? n) && (n <=? 31))
   || (n =? 32) || (n =? 133) || (n =? 160))%nat.

Fixpoint lstrip (s : string) : string :=
  match s with
  | EmptyString => EmptyString
  | String c r => if isspace c then lstrip r else s
  end.

Fixpoint rstrip (s : string) : string :=
  match s with
  | EmptyString => EmptyString
  | String c r =>
      match rstrip r with
      | EmptyString => if isspace c then EmptyString else String c EmptyString
      | r' => String c r'
      end
  end.

(** [s.strip()] *)
Definition strip (s : string) : string := rstrip (lstrip s).

(** Truth value of a [str]: false exactly for the empty string. *)
Definition truthy (s : string) : bool :=
  match s with EmptyString => false | String _ _ => true end.

(** Every character of [s] is white space. *)
Fixpoint all_space (s : string) : bool :=
  match s with
  | EmptyString => true
  | String c r => isspace c && all_space r
  end.

(** [sep.join(l)] *)
Definition join (sep : string) (l : list string) : string := String.concat sep l.

(** [str(n)] for a non-negative integer. *)
Definition of_nat (n : nat) : string := NilEmpty.string_of_uint (Nat.to_uint n).

Definition LF : string := String "010"%char EmptyString.

End PyStr.

(** ** Data *)

(** An element of [added_sources]: the dict built at the end of
    [add_texts_to_chroma], with its three keys. *)
Record Source := mkSource {
  src_id : string;
  src_name : string;
  src_type : string }.

(** The dict literal itself, as key/value pairs in the order they are written. *)
Definition as_dict (s : Source) : list (string * string) :=
  [("id", src_id s); ("name", src_name s); ("type", src_type s)].

(** [d.get(k)] on such a dict. *)
Fixpoint dict_get (k : string) (d : list (string * string)) : option string :=
  match d with
  | [] => None
  | (k', v) :: rest => if k' =? k then Some v else dict_get k rest
  end.

(** Chunk metadata: [{"source": source_name, "type": source_type}]. *)
Record Metadata := mkMetadata {
  md_source : string;
  md_type : string }.

(** One record of the Chroma collection. *)
Record Row (E : Type) := mkRow {
  row_id : string;
  row_embedding : E;
  row_document : string;
  row_metadata : Metadata }.

Arguments mkRow {E} _ _ _ _.
Arguments row_id {E} _.
Arguments row_embedding {E} _.
Arguments row_document {E} _.
Arguments row_metadata {E} _.

(** What [chat] reads of a Chroma query result: the value under
    ["documents"], one list of documents per query embedding. [None] stands
    for a result that is empty, lacks the key or holds [None] there; the test
    of [chat] sends all three the same way. *)
Record QueryResult := mkQueryResult {
  documents : option (list (list string)) }.

Record ChatMessage := mkChatMessage {
  role : string;
  content : string }.

Record ChatRequest := mkChatRequest {
  message : string;
  history : list ChatMessage }.

(** The [{"status": ..., "message": ...}] bodies of the delete routes. *)
Record StatusBody := mkStatusBody {
  status : string;
  status_message : string }.

(** Exceptions. [Exception] is any exception other than the two named ones,
    carried by its [str]. *)
Inductive exn :=
| HTTPException (status_code : nat) (detail : string)
| RequestException (msg : string)
| Exception (msg : string).

(** [str(e)] *)
Definition str_exn (e : exn) : string :=
  match e with
  | HTTPException code detail => PyStr.of_nat code ++ ": " ++ detail
  | RequestException msg => msg
  | Exception msg => msg
  end.

(** Outcome of the POST to Ollama followed by [raise_for_status] and
    [response.json()]: a [requests] exception, another exception, or the
    decoded body, of which only [data.get("response")] is read. *)
Inductive OllamaReply :=
| OllamaRequestError (msg : string)
| OllamaOtherError (msg : string)
| OllamaJson (response : option string).

(** ** The outside world *)

(** The methods of a Chroma collection that the module calls, over a
    collection state [C]. A call returns the exception it raised, if any, and
    the state of the collection after the call. [coll_get] is
    [collection.get()], every record of the collection. *)
Class Chroma (E C : Type) := {
  coll_get : C -> list (Row E);
  coll_add : list string -> list E -> list string -> list Metadata -> C ->
             option string * C;
  coll_delete : string -> C -> option string * C;
  coll_query : list E -> nat -> C -> string + QueryResult }.

Class Runtime := {
  Embedding : Type;
  Coll : Type;
  chroma :: Chroma Embedding Coll;
  (** [text_splitter.split_text], chunk_size 1000 and chunk_overlap 100 *)
  split_text : string -> list string;
  (** [embedding_model.encode(...).tolist()] *)
  encode : list string -> list Embedding;
  (** [str(uuid.uuid4())], by the number of identifiers drawn before *)
  uuid4 : nat -> string;
  (** the Ollama endpoint, by the number of requests made before *)
  ollama_generate : nat -> string -> OllamaReply }.

(** The module's state: the two globals, the identifiers drawn so far and
    the prompts posted to Ollama so far, oldest first. *)
Record World `{Runtime} := mkWorld {
  collection : option Coll;
  added_sources : list Source;
  uuid_drawn : nat;
  ollama_prompts : list string }.

(** ** Computations: state that survives an exception *)

Section Monad.
Context `{RT : Runtime}.

Definition M (A : Type) : Type := World -> (exn + A) * World.

Definition ret {A} (a : A) : M A := fun w => (inr a, w).

Definition bind {A B} (m : M A) (k : A -> M B) : M B :=
  fun w => match m w with
           | (inr a, w') => k a w'
           | (inl e, w') => (inl e, w')
           end.

Definition raise {A} (e : exn) : M A := fun w => (inl e, w).

(** [try: m  except Exception as e: handler(e)] *)
Definition try_except {A} (m : M A) (handler : exn -> M A) : M A :=
  fun w => match m w with
           | (inr a, w') => (inr a, w')
           | (inl e, w') => handler e w'
           end.

Definition gets {A} (f : World -> A) : M A := fun w => (inr (f w), w).

Definition set_added_sources (l : list Source) : M unit :=
  fun w => (inr tt, {| collection := collection w; added_sources := l;
                       uuid_drawn := uuid_drawn w;
                       ollama_prompts := ollama_prompts w |}).

Definition set_collection (c : Coll) (w : World) : World :=
  {| collection := Some c; added_sources := added_sources w;
     uuid_drawn := uuid_drawn w; ollama_prompts := ollama_prompts w |}.

End Monad.

Declare Scope py_scope.
Delimit Scope py_scope with py.
Notation "x <- m ;; k" := (bind m (fun x => k))
  (at level 61, m at next level, right associativity) : py_scope.
Notation "m ;;; k" := (bind m (fun _ => k))
  (at level 61, right associativity) : py_scope.
Open Scope py_scope.

(** ** Calls out of the module *)

Section Effects.
Context `{RT : Runtime}.

(** A method call on [collection] when it is [None] raises AttributeError. *)
Definition none_has_no (attr : string) : exn :=
  Exception ("'NoneType' object has no attribute '" ++ attr ++ "'").

(** [collection.delete(where={"source": name})] *)
Definition collection_delete (name : string) : M unit :=
  fun w => match collection w with
           | None => (inl (none_has_no "delete"), w)
           | Some c =>
               match coll_delete name c with
               | (Some e, c') => (inl (Exception e), set_collection c' w)
               | (None, c') => (inr tt, set_collection c' w)
               end
           end.

(** [collection.add(ids=, embeddings=, documents=, metadatas=)] *)
Definition collection_add (ids : list string) (embeddings : list Embedding)
    (docs : list string) (metadatas : list Metadata) : M unit :=
  fun w => match collection w with
           | None => (inl (none_has_no "add"), w)
           | Some c =>
               match coll_add ids embeddings docs metadatas c with
               | (Some e, c') => (inl (Exception e), set_collection c' w)
               | (None, c') => (inr tt, set_collection c' w)
               end
           end.

(** [collection.query(query_embeddings=, n_results=)] *)
Definition collection_query (query_embeddings : list Embedding) (n_results : nat)
    : M QueryResult :=
  fun w => match collection w with
           | None => (inl (none_has_no "query"), w)
           | Some c =>
               match coll_query query_embeddings n_results c with
               | inl e => (inl (Exception e), w)
               | inr results => (inr results, w)
               end
           end.

(** [str(uuid.uuid4())] *)
Definition uuid4_str : M string :=
  fun w => (inr (uuid4 (uuid_drawn w)),
            {| collection := collection w; added_sources := added_sources w;
               uuid_drawn := S (uuid_drawn w);
               ollama_prompts := ollama_prompts w |}).

(** [requests.post(ollama_url, json=payload, timeout=120)], then
    [raise_for_status()] and [response.json()]; the value is
    [data.get("response")]. The payload's model and stream fields are
    constants; its prompt is recorded. *)
Definition requests_post (prompt : string) : M (option string) :=
  fun w =>
    let w' := {| collection := collection w; added_sources := added_sources w;
                 uuid_drawn := uuid_drawn w;
                 ollama_prompts := ollama_prompts w ++ [prompt] |} in
    match ollama_generate (length (ollama_prompts w)) prompt with
    | OllamaRequestError e => (inl (RequestException e), w')
    | OllamaOtherError e => (inl (Exception e), w')
    | OllamaJson r => (inr r, w')
    end.

(** [for x in l: body(x)] *)
Fixpoint for_each {A} (l : list A) (body : A -> M unit) : M unit :=
  match l with
  | [] => ret tt
  | x :: rest => body x ;;; for_each rest body
  end.

(** [[f(x) for x in l]] *)
Fixpoint list_comp {A B} (f : A -> M B) (l : list A) : M (list B) :=
  match l with
  | [] => ret []
  | x :: rest => y <- f x ;; ys <- list_comp f rest ;; ret (y :: ys)
  end.

(** Truth value of [collection]: [None] is false, a collection object true. *)
Definition truthy_collection (c : option Coll) : bool :=
  match c with Some _ => true | None => false end.

End Effects.

(** ** The module *)

Section Main.
Context `{RT : Runtime}.

Definition not_initialized : exn :=
  HTTPException 500 "Chroma DB collection is not initialized.".

(** [GET /api/sources]: the value under ["sources"]. *)
Definition get_sources : M (list Source) := gets added_sources.

(** [DELETE /api/sources] *)
Definition clear_all_sources : M StatusBody :=
  c <- gets collection ;;
  (if truthy_collection c then
     try_except
       (sources <- gets added_sources ;;
        for_each sources (fun source => collection_delete (src_name source)))
       (fun e => raise (HTTPException 500
                          ("Failed to clear vector db: " ++ str_exn e)))
   else ret tt) ;;;
  set_added_sources [] ;;;
  ret {| status := "success";
         status_message := "Successfully cleared all sources" |}.

(** [DELETE /api/sources/{source_id}] *)
Definition delete_source (source_id : string) : M StatusBody :=
  sources <- gets added_sources ;;
  match find (fun s => src_id s =? source_id) sources with
  | None => raise (HTTPException 404 "Source not found.")
  | Some source_to_delete =>
      let source_name := src_name source_to_delete in
      c <- gets collection ;;
      (if truthy_collection c then
         try_except
           (collection_delete source_name)
           (fun e => raise (HTTPException 500
                              ("Failed to delete from vector db: " ++ str_exn e)))
       else ret tt) ;;;
      sources <- gets added_sources ;;
      set_added_sources
        (filter (fun s => negb (src_id s =? source_id)) sources) ;;;
      ret {| status := "success";
             status_message := "Successfully deleted " ++ source_name |}
  end.

(** Helper that chunks a text and adds the chunks to Chroma. *)
Definition add_texts_to_chroma (text source_name source_type : string) : M nat :=
  c <- gets collection ;;
  if negb (truthy_collection c) then raise not_initialized
  else if negb (PyStr.truthy (PyStr.strip text)) then
    raise (HTTPException 400 "No extractable text found.")
  else
    let splits := split_text text in
    match splits with
    | [] => raise (HTTPException 400 "Text couldn't be chunked.")
    | _ :: _ =>
        let embeddings := encode splits in
        ids <- list_comp (fun _ => uuid4_str) splits ;;
        let metadatas :=
          map (fun _ => {| md_source := source_name; md_type := source_type |})
              splits in
        collection_add ids embeddings splits metadatas ;;;
        new_id <- uuid4_str ;;
        sources <- gets added_sources ;;
        set_added_sources
          (sources ++ [{| src_id := new_id; src_name := source_name;
                          src_type := source_type |}]) ;;;
        ret (length splits)
    end.

Definition separator : string :=
  PyStr.LF ++ PyStr.LF ++ "---" ++ PyStr.LF ++ PyStr.LF.

(** The documents retrieved for the one query embedding. *)
Definition doc_list_of (results : QueryResult) : list string :=
  match documents results with
  | Some (doc_list :: _) => doc_list
  | _ => []
  end.

(** [context_text] after the test on [results] in [chat]. *)
Definition context_text_of (results : QueryResult) : string :=
  match documents results with
  | Some (doc_list :: _) => PyStr.join separator doc_list
  | _ => ""
  end.

(** The f-string of [chat]. *)
Definition prompt_of (context_text message : string) : string :=
  "You are an intelligent assistant. Use the following context documents to answer the user's question. If the context does not contain the answer, say you don't know based on the provided documents."
  ++ PyStr.LF ++ PyStr.LF ++ "Context:" ++ PyStr.LF ++ context_text
  ++ PyStr.LF ++ PyStr.LF ++ "User Question: " ++ message
  ++ PyStr.LF ++ PyStr.LF ++ "Answer:".

(** [POST /api/chat]: the value under ["response"]. *)
Definition chat (req : ChatRequest) : M string :=
  c <- gets collection ;;
  if negb (truthy_collection c) then raise not_initialized
  else
    try_except
      (let query_embedding := encode [message req] in
       results <- collection_query query_embedding 5 ;;
       let context_text := context_text_of results in
       let prompt := prompt_of context_text (message req) in
       data <- requests_post prompt ;;
       ret (match data with
            | Some r => r
            | None => "No response generated"
            end))
      (fun e =>
         match e with
         | RequestException msg =>
             raise (HTTPException 503
                      ("Failed to connect to local Ollama (ensure it is running on port 11434): "
                       ++ msg))
         | _ => raise (HTTPException 500 (str_exn e))
         end).

(** The records of the vector store; none when there is no collection. *)
Definition store_rows (w : World) : list (Row Embedding) :=
  match collection w with
  | Some c => coll_get c
  | None => []
  end.

Definition row_source (r : Row Embedding) : string := md_source (row_metadata r).

End Main.

(** ** What is assumed of Chroma *)

(** The records that one [add] call describes, position by position. *)
Fixpoint rows_of {E} (ids : list string) (embeddings : list E)
    (docs : list string) (metadatas : list Metadata) : list (Row E) :=
  match ids, embeddings, docs, metadatas with
  | i :: ids', e :: es', d :: ds', m :: ms' =>
      mkRow i e d m :: rows_of ids' es' ds' ms'
  | _, _, _, _ => []
  end.

Fixpoint nodupb (l : list string) : bool :=
  match l with
  | [] => true
  | x :: rest => negb (existsb (String.eqb x) rest) && nodupb rest
  end.

(** The identifiers are pairwise different and none is in use in [rows]. *)
Definition fresh_ids {E} (ids : list string) (rows : list (Row E)) : bool :=
  nodupb ids
  && forallb (fun i => negb (existsb (fun r => row_id r =? i) rows)) ids.

(** The next [n] identifiers that [uuid4] gives in world [w]. *)
Definition next_ids `{Runtime} (w : World) (n : nat) : list string :=
  map uuid4 (seq (uuid_drawn w) n).

(** A call that returns has done what Chroma documents: [add] checks that its
    four sequences are equally long and appends one record per position when
    the identifiers are unused; [delete] removes exactly the records whose
    metadata has the given source; [query] hands back documents of records of
    the collection. Of a call that raises only this is assumed: [add] leaves
    no record behind that was neither there nor among the ones it was given,
    and [delete] leaves none behind that was not there. *)
Class ChromaContract `{RT : Runtime} : Prop := {
  add_within : forall ids es ds ms c raised c' r,
    coll_add ids es ds ms c = (raised, c') ->
    In r (coll_get c') ->
    In r (coll_get c) \/ In r (rows_of ids es ds ms);
  delete_within : forall name c raised c' r,
    coll_delete name c = (raised, c') ->
    In r (coll_get c') ->
    In r (coll_get c);
  add_lengths : forall ids es ds ms c c',
    coll_add ids es ds ms c = (None, c') ->
    length es = length ids /\ length ds = length ids /\ length ms = length ids;
  add_rows : forall ids es ds ms c c',
    fresh_ids ids (coll_get c) = true ->
    coll_add ids es ds ms c = (None, c') ->
    coll_get c' = coll_get c ++ rows_of ids es ds ms;
  delete_rows : forall name c c',
    coll_delete name c = (None, c') ->
    coll_get c' = filter (fun r => negb (row_source r =? name)) (coll_get c);
  query_rows : forall qs k c results docs d,
    coll_query qs k c = inr results ->
    documents results = Some docs ->
    In d (concat docs) ->
    exists r, In r (coll_get c) /\ row_document r = d }.

(** The state of the module once it is loaded: [collection] is the Chroma
    collection or [None], [added_sources] is empty. *)
Definition loaded `{Runtime} (c : option Coll) : World :=
  {| collection := c; added_sources := []; uuid_drawn := 0;
     ollama_prompts := [] |}.

(** The metadata written for each chunk of one call. *)
Definition metadatas_of (source_name source_type : string) (splits : list string)
    : list Metadata :=
  map (fun _ => {| md_source := source_name; md_type := source_type |}) splits.

(** The part of the world that a call to Chroma leaves alone. *)
Definition same_registry `{Runtime} (w w' : World) : Prop :=
  added_sources w' = added_sources w
  /\ uuid_drawn w' = uuid_drawn w
  /\ ollama_prompts w' = ollama_prompts w
  /\ truthy_collection (collection w') = truthy_collection (collection w).

(** No record of the vector store has the source name [name]. *)
Definition no_rows_of `{Runtime} (name : string) (w : World) : Prop :=
  forall r, In r (store_rows w) -> row_source r <> name.

(** The bodies and errors the handlers produce. *)
Definition not_found : exn := HTTPException 404 "Source not found.".

Definition empty_content : exn := HTTPException 400 "No extractable text found.".

Definition cleared : StatusBody :=
  {| status := "success"; status_message := "Successfully cleared all sources" |}.

Definition deleted (source_name : string) : StatusBody :=
  {| status := "success";
     status_message := "Successfully deleted " ++ source_name |}.

(** ** Sequences of requests *)

Inductive Call :=
| Ingest (text source_name source_type : string)
| Chat (req : ChatRequest)
| DeleteSource (source_id : string)
| ClearAllSources
| GetSources.

(** The world after one request, whatever its outcome. *)
Definition after `{Runtime} (c : Call) (w : World) : World :=
  match c with
  | Ingest text source_name source_type =>
      snd (add_texts_to_chroma text source_name source_type w)
  | Chat req => snd (chat req w)
  | DeleteSource source_id => snd (delete_source source_id w)
  | ClearAllSources => snd (clear_all_sources w)
  | GetSources => snd (get_sources w)
  end.

Definition after_all `{Runtime} (cs : list Call) (w : World) : World :=
  fold_left (fun w c => after c w) cs w.

(** The request ingests a text under the source name [name]. *)
Definition ingests (name : string) (c : Call) : bool :=
  match c with
  | Ingest _ source_name _ => source_name =? name
  | _ => false
  end.

(** ** A runtime to run the module on

    An in-memory collection that keeps its records in insertion order and
    never raises but for sequences of unequal length; embeddings are numbers
    and the distance of two of them is their difference. *)

Module Demo.

Definition dist (a b : nat) : nat := (a - b) + (b - a).

Fixpoint insert_near (q : nat) (r : Row nat) (l : list (Row nat)) : list (Row nat) :=
  match l with
  | [] => [r]
  | r' :: rest =>
      if dist q (row_embedding r) <=? dist q (row_embedding r')
      then r :: l
      else r' :: insert_near q r rest
  end%nat.

(** The [k] records nearest to [q], nearest first. *)
Definition nearest (q k : nat) (rows : list (Row nat)) : list (Row nat) :=
  firstn k (fold_right (insert_near q) [] rows).

Definition add (ids : list string) (es : list nat) (ds : list string)
    (ms : list Metadata) (c : list (Row nat)) : option string * list (Row nat) :=
  if ((length es =? length ids) && (length ds =? length ids)
      && (length ms =? length ids))%nat
  then (None, c ++ rows_of ids es ds ms)
  else (Some "Unequal lengths for fields", c).

Definition delete (name : string) (c : list (Row nat)) : option string * list (Row nat) :=
  (None, filter (fun r => negb (md_source (row_metadata r) =? name)) c).

Definition query (qs : list nat) (k : nat) (c : list (Row nat)) : string + QueryResult :=
  inr {| documents := Some (map (fun q => map row_document (nearest q k c)) qs) |}.

#[local] Instance collection_ops : Chroma nat (list (Row nat)) := {
  coll_get := fun c => c;
  coll_add := add;
  coll_delete := delete;
  coll_query := query }.

(** Windows of [size] characters, each starting [step] after the one before. *)
Fixpoint windows (fuel size step : nat) (s : string) : list string :=
  match fuel with
  | 0 => []
  | S fuel' =>
      if (String.length s =? 0)%nat then []
      else if (String.length s <=? size)%nat then [s]
      else substring 0 size s
           :: windows fuel' size step (substring step (String.length s - step) s)
  end.

Definition splitter (size overlap : nat) (text : string) : list string :=
  let s := PyStr.strip text in
  windows (String.length s) size (size - overlap) s.

(** Chunks of at most 8 characters that overlap by 2. *)
#[local] Instance runtime : Runtime := {
  Embedding := nat;
  Coll := list (Row nat);
  chroma := collection_ops;
  split_text := splitter 8 2;
  encode := map String.length;
  uuid4 := fun n => ("uuid-" ++ PyStr.of_nat n)%string;
  ollama_generate := fun _ _ => OllamaJson (Some "I don't know.") }.

(** A collection whose every [delete] raises. *)
#[local] Instance unreachable_ops : Chroma nat (list (Row nat)) := {
  coll_get := fun c => c;
  coll_add := add;
  coll_delete := fun _ c => (Some "connection refused", c);
  coll_query := query }.

#[local] Instance unreachable : Runtime := {
  Embedding := nat;
  Coll := list (Row nat);
  chroma := unreachable_ops;
  split_text := splitter 8 2;
  encode := map String.length;
  uuid4 := fun n => ("uuid-" ++ PyStr.of_nat n)%string;
  ollama_generate := fun _ _ => OllamaJson (Some "I don't know.") }.

(** Worlds of the first runtime: with no collection, with an empty one, and
    after some ingestions into the empty one. *)
Definition no_store : @World runtime := @loaded runtime None.

Definition empty_store : @World runtime := @loaded runtime (Some []).

Definition hello_doc : @World runtime :=
  @after runtime (Ingest "hello" "doc.txt" "file") empty_store.

Definition one_doc : @World runtime :=
  @after runtime (Ingest "hello world, this is a test" "doc.txt" "file")
    empty_store.

Definition two_names : @World runtime :=
  @after_all runtime
    [Ingest "hello world, this is a test" "doc.txt" "file";
     Ingest "other text" "notes.md" "file"]
    empty_store.

Definition same_name_twice : @World runtime :=
  @after_all runtime
    [Ingest "first version" "doc.txt" "file";
     Ingest "second" "doc.txt" "file"]
    empty_store.

(** A world of the second runtime, with one source and its record. *)
Definition cut_off : @World unreachable :=
  {| collection :=
       Some [mkRow "uuid-0" 5 "hello"
               {| md_source := "doc.txt"; md_type := "file" |}];
     added_sources := [mkSource "uuid-1" "doc.txt" "file"];
     uuid_drawn := 2;
     ollama_prompts := [] |}.

End Demo.

(** ** More of Python's strings, and [os.path.splitext] *)

Module PyText.

(** The characters at which [str.splitlines] ends a line: LF, VT, FF, CR,
    FS, GS, RS and NEL. *)
Definition is_linebreak (c : ascii) : bool :=
  let n := nat_of_ascii c in
  (((10 <=? n) && (n <=? 13)) || ((28 <=? n) && (n <=? 30)) || (n =? 133))%nat.

Definition is_cr (c : ascii) : bool := (nat_of_ascii c =? 13)%nat.

Definition is_lf (c : ascii) : bool := (nat_of_ascii c =? 10)%nat.

(** [c] put in front of the first string of [l]. *)
Definition push (c : ascii) (l : list string) : list string :=
  match l with
  | [] => [String c EmptyString]
  | x :: rest => String c x :: rest
  end.

(** [s.splitlines()]: CR LF ends a line once, and a line break at the very
    end opens no further line. *)
Fixpoint splitlines (s : string) : list string :=
  match s with
  | EmptyString => []
  | String c r =>
      if is_linebreak c then
        match r with
        | String c2 r2 =>
            if is_cr c && is_lf c2 then EmptyString :: splitlines r2
            else EmptyString :: splitlines r
        | EmptyString => [EmptyString]
        end
      else push c (splitlines r)
  end.

Definition is_space (c : ascii) : bool := (nat_of_ascii c =? 32)%nat.

(** [s.split("  ")]: cut at each pair of spaces, from the left. *)
Fixpoint split_double_space (s : string) : list string :=
  match s with
  | EmptyString => [EmptyString]
  | String c r =>
      match r with
      | String c2 r2 =>
          if is_space c && is_space c2
          then EmptyString :: split_double_space r2
          else push c (split_double_space r)
      | EmptyString => [String c EmptyString]
      end
  end.

(** [c.lower()] on the code points below 256: A..Z and the capital letters
    of Latin-1 but the multiplication sign. *)
Definition lower_char (c : ascii) : ascii :=
  let n := nat_of_ascii c in
  if (((65 <=? n) && (n <=? 90))
      || ((192 <=? n) && (n <=? 222) && negb (n =? 215)))%nat
  then ascii_of_nat (n + 32)
  else c.

Fixpoint lower (s : string) : string :=
  match s with
  | EmptyString => EmptyString
  | String c r => String (lower_char c) (lower r)
  end.

End PyText.

Module PosixPath.

(** [p.rfind(c)], with [None] for -1. *)
Fixpoint rfind_from (c : ascii) (p : string) (i : nat) : option nat :=
  match p with
  | EmptyString => None
  | String a r =>
      match rfind_from c r (S i) with
      | Some j => Some j
      | None => if Ascii.eqb a c then Some i else None
      end
  end.

Definition rfind (c : ascii) (p : string) : option nat := rfind_from c p 0.

(** Some character of [p] at a position from [lo] up to, not including,
    [hi] is not a dot. *)
Definition other_than_dot (p : string) (lo hi : nat) : bool :=
  existsb (fun i => match String.get i p with
                    | Some a => negb (Ascii.eqb a "."%char)
                    | None => true
                    end)
          (seq lo (hi - lo)).

(** [os.path.splitext(p)] of [posixpath]: the extension starts at the last
    dot of the last component, unless only dots come before it there. *)
Definition splitext (p : string) : string * string :=
  match rfind "."%char p with
  | None => (p, EmptyString)
  | Some dotIndex =>
      let filenameIndex :=
        match rfind "/"%char p with Some sepIndex => S sepIndex | None => 0 end in
      if (filenameIndex <=? dotIndex)%nat
         && other_than_dot p filenameIndex dotIndex
      then (substring 0 dotIndex p,
            substring dotIndex (String.length p - dotIndex) p)
      else (p, EmptyString)
  end.

End PosixPath.

(** ** The two ingestion routes and the start of the module *)

(** What lies behind the two routes: the page fetch ([requests.get] and
    [raise_for_status], giving [response.text]), BeautifulSoup without its
    script and style elements ([get_text] with the line feed as separator),
    the page texts of a PDF, the paragraph texts of a Word file, UTF-8
    decoding with replacement, and the rows of a CSV text. A call that
    raises gives the [str] of its exception on the left. File contents are
    byte strings. *)
Class Extractors := {
  http_get : string -> string + string;
  soup_text : string -> string;
  pdf_pages : string -> string + list string;
  docx_paragraphs : string -> string + list string;
  decode_utf8 : string -> string;
  csv_rows : string -> string + list (list string) }.

(** The chunks that [scrape_url] joins into [clean_text]. *)
Definition clean_chunks (text : string) : list string :=
  let lines := map PyStr.strip (PyText.splitlines text) in
  let chunks :=
    flat_map (fun line => map PyStr.strip (PyText.split_double_space line))
             lines in
  filter PyStr.truthy chunks.

Definition clean_text_of (text : string) : string :=
  PyStr.join PyStr.LF (clean_chunks text).

(** The loops of [upload_file] that build [text]. *)
Definition pdf_text (pages : list string) : string :=
  fold_left (fun text extracted =>
               if PyStr.truthy extracted
               then (text ++ extracted ++ PyStr.LF)%string else text)
            pages EmptyString.

Definition docx_text (paragraphs : list string) : string :=
  fold_left (fun text para => (text ++ para ++ PyStr.LF)%string)
            paragraphs EmptyString.

Definition csv_text (rows : list (list string)) : string :=
  fold_left (fun text row => (text ++ PyStr.join " " row ++ PyStr.LF)%string)
            rows EmptyString.

Section Routes.
Context `{RT : Runtime} {EX : Extractors}.

(** An outside call that raises [Exception(e)] or returns. *)
Definition outside {A} (r : string + A) : M A :=
  match r with
  | inl e => raise (Exception e)
  | inr a => ret a
  end.

(** [POST /api/scrape] *)
Definition scrape_url (url : string) : M StatusBody :=
  try_except
    (response_text <- outside (http_get url) ;;
     let text := soup_text response_text in
     let clean_text := clean_text_of text in
     num_chunks <- add_texts_to_chroma clean_text url "url" ;;
     ret {| status := "success";
            status_message :=
              "Successfully scraped " ++ url ++ " into "
              ++ PyStr.of_nat num_chunks ++ " chunks." |})
    (fun e =>
       match e with
       | HTTPException _ _ => raise e
       | _ => raise (HTTPException 500 ("Failed to scrape URL: " ++ str_exn e))
       end).

(** [POST /api/upload] *)
Definition upload_file (filename content : string) : M StatusBody :=
  let ext := PyText.lower (snd (PosixPath.splitext filename)) in
  try_except
    (text <-
       (if ext =? ".pdf" then
          pages <- outside (pdf_pages content) ;; ret (pdf_text pages)
        else if ext =? ".docx" then
          paragraphs <- outside (docx_paragraphs content) ;;
          ret (docx_text paragraphs)
        else if ext =? ".csv" then
          rows <- outside (csv_rows (decode_utf8 content)) ;;
          ret (csv_text rows)
        else if (ext =? ".txt") || (ext =? ".md") then
          ret (decode_utf8 content)
        else
          raise (HTTPException 400 ("Unsupported file type: " ++ ext))) ;;
     num_chunks <- add_texts_to_chroma text filename "file" ;;
     ret {| status := "success";
            status_message :=
              "Processed " ++ filename ++ " into "
              ++ PyStr.of_nat num_chunks ++ " chunks." |})
    (fun e =>
       match e with
       | HTTPException _ _ => raise e
       | _ => raise (HTTPException 500 ("Failed to process file: " ++ str_exn e))
       end).

End Routes.

(** The start of the module: [collection] from the three environment
    variables. [cloud] stands for [chromadb.CloudClient] followed by
    [get_or_create_collection] under the given name. The result is the value
    of [collection] and the lines printed. *)
Definition startup {C} (cloud : string -> string -> string -> string -> string + C)
    (CHROMA_TENANT CHROMA_DATABASE CHROMA_API_KEY : string)
    : option C * list string :=
  if PyStr.truthy CHROMA_TENANT && PyStr.truthy CHROMA_DATABASE
     && PyStr.truthy CHROMA_API_KEY
  then
    match cloud CHROMA_TENANT CHROMA_DATABASE CHROMA_API_KEY "rag_collection_v2" with
    | inr c => (Some c, [])
    | inl e =>
        (None, [("Failed to initialize Chroma Cloud Client: " ++ e)%string])
    end
  else
    (None,
     ["WARNING: ChromaDB environment variables missing. Vector database not initialized."]).

(** What the two [except] clauses of a route make of an exception: an
    HTTPException goes on as it is, anything else becomes a 500 whose detail
    starts with the route's words. *)
Definition rerouted (prefix : string) (e : exn) : exn :=
  match e with
  | HTTPException _ _ => e
  | _ => HTTPException 500 (prefix ++ str_exn e)
  end.

Section RouteParts.
Context `{RT : Runtime} {EX : Extractors}.

(** [add_texts_to_chroma] inside the [try] of a route: its count becomes the
    body of the answer, its exception goes through the [except] clauses. *)
Definition routed (prefix : string) (body : nat -> StatusBody)
    (text source_name source_type : string) (w : World)
    : (exn + StatusBody) * World :=
  match add_texts_to_chroma text source_name source_type w with
  | (inr n, w') => (inr (body n), w')
  | (inl e, w') => (inl (rerouted prefix e), w')
  end.

(** The bodies the two routes return. *)
Definition scraped (url : string) (n : nat) : StatusBody :=
  {| status := "success";
     status_message :=
       "Successfully scraped " ++ url ++ " into " ++ PyStr.of_nat n ++ " chunks." |}.

Definition processed (filename : string) (n : nat) : StatusBody :=
  {| status := "success";
     status_message :=
       "Processed " ++ filename ++ " into " ++ PyStr.of_nat n ++ " chunks." |}.

(** The branch of [upload_file] on the extension: the text of the file, or
    the exception raised on the way to it. *)
Definition extracted (ext content : string) : exn + string :=
  if ext =? ".pdf" then
    match pdf_pages content with
    | inl e => inl (Exception e)
    | inr pages => inr (pdf_text pages)
    end
  else if ext =? ".docx" then
    match docx_paragraphs content with
    | inl e => inl (Exception e)
    | inr paragraphs => inr (docx_text paragraphs)
    end
  else if ext =? ".csv" then
    match csv_rows (decode_utf8 content) with
    | inl e => inl (Exception e)
    | inr rows => inr (csv_text rows)
    end
  else if (ext =? ".txt") || (ext =? ".md") then inr (decode_utf8 content)
  else inl (HTTPException 400 ("Unsupported file type: " ++ ext)).

(** The extension that [upload_file] goes by. *)
Definition extension (filename : string) : string :=
  PyText.lower (snd (PosixPath.splitext filename)).

End RouteParts.

(** ** [view_chroma_db.py] *)

(** What the viewer reads of [collection.get(include=...)]: the lists under
    ["ids"], ["documents"] and ["metadatas"], the metadata as [print] shows
    them. *)
Record GetResult := mkGetResult {
  got_ids : list string;
  got_documents : list string;
  got_metadatas : list string }.

(** The two ways to the records: [CloudClient(tenant, database, api_key)]
    and [PersistentClient(path)], each followed by [get_collection(name)]
    and [get]. A call that raises gives the [str] of its exception. *)
Class Viewer := {
  cloud_get : string -> string -> string -> string -> string + GetResult;
  local_get : string -> string -> string + GetResult }.

Definition rule : string := "========================================".

Definition index_error : string := "list index out of range".

(** The six [print] calls for document [i] out of [n]: the lines printed,
    and the exception that ended them, if one did. *)
Definition document_lines (i n : nat) (results : GetResult)
    : list string * option string :=
  let head :=
    [rule;
     ("Document " ++ PyStr.of_nat (i + 1) ++ " of " ++ PyStr.of_nat n)%string;
     rule] in
  match nth_error (got_ids results) i with
  | None => (head, Some index_error)
  | Some id =>
      let upto_id := head ++ [("ID:       " ++ id)%string] in
      match nth_error (got_metadatas results) i with
      | None => (upto_id, Some index_error)
      | Some metadata =>
          let upto_metadata :=
            upto_id ++ [("Metadata: " ++ metadata)%string] in
          match nth_error (got_documents results) i with
          | None => (upto_metadata, Some index_error)
          | Some document =>
              (upto_metadata
               ++ [("Document: " ++ PyStr.LF ++ document ++ PyStr.LF)%string],
               None)
          end
      end
  end.

(** [for i in range(len(ids)): ...] over the indices [indices]. *)
Fixpoint documents_lines (indices : list nat) (n : nat) (results : GetResult)
    : list string * option string :=
  match indices with
  | [] => ([], None)
  | i :: rest =>
      match document_lines i n results with
      | (lines, Some e) => (lines, Some e)
      | (lines, None) =>
          let (more, raised) := documents_lines rest n results in
          (lines ++ more, raised)
      end
  end.

Definition error_line (e : string) : string :=
  "Error accessing Chroma database: " ++ e.

(** What is printed once the client is chosen: [first] is the line that says
    which, [fetched] what the way to the records gave. *)
Definition report (first : string) (fetched : string + GetResult) : list string :=
  match fetched with
  | inl e => [first; error_line e]
  | inr results =>
      let n := length (got_ids results) in
      let (lines, raised) := documents_lines (seq 0 n) n results in
      [first;
       (PyStr.LF ++ "Total documents found: " ++ PyStr.of_nat n ++ PyStr.LF)%string]
      ++ lines
      ++ match raised with
         | Some e => [error_line e]
         | None => []
         end
  end.

(** [view_chroma_contents()]: the lines it prints, one per [print] call,
    read as Python 3.12 reads the script (a quoted string inside an
    f-string). *)
Definition view_chroma_contents `{Viewer}
    (CHROMA_TENANT CHROMA_DATABASE CHROMA_API_KEY : string) : list string :=
  let CHROMA_TENANT := PyStr.strip CHROMA_TENANT in
  let CHROMA_DATABASE := PyStr.strip CHROMA_DATABASE in
  let CHROMA_API_KEY := PyStr.strip CHROMA_API_KEY in
  if PyStr.truthy CHROMA_TENANT && PyStr.truthy CHROMA_DATABASE
     && PyStr.truthy CHROMA_API_KEY
  then
    report "Connecting to Chroma Cloud Database (as per main.py)..."
      (cloud_get CHROMA_TENANT CHROMA_DATABASE CHROMA_API_KEY
         "rag_collection_v2")
  else
    report "Connecting to local Persistent Chroma DB ('chroma_db')..."
      (local_get "chroma_db" "default").

(** The six lines of one document. *)
Definition document_block (n : nat) (i : nat) (id metadata document : string)
    : list string :=
  [rule;
   ("Document " ++ PyStr.of_nat (i + 1) ++ " of " ++ PyStr.of_nat n)%string;
   rule;
   ("ID:       " ++ id)%string;
   ("Metadata: " ++ metadata)%string;
   ("Document: " ++ PyStr.LF ++ document ++ PyStr.LF)%string].

(** The blocks of the documents from index [i] on. *)
Fixpoint blocks_from (n i : nat) (ids metadatas docs : list string)
    : list string :=
  match ids, metadatas, docs with
  | id :: ids', metadata :: metadatas', document :: docs' =>
      document_block n i id metadata document
      ++ blocks_from n (S i) ids' metadatas' docs'
  | _, _, _ => []
  end.

(** ** Requests as they reach the routes *)

Inductive Request :=
| PostScrape (url : string)
| PostUpload (filename content : string)
| PostChat (req : ChatRequest)
| DeleteOne (source_id : string)
| DeleteAll
| ListSources.

(** The world after one request; the outside world of the request is [EX]. *)
Definition served `{Runtime} (EX : Extractors) (r : Request) (w : World) : World :=
  match r with
  | PostScrape url => snd (scrape_url url w)
  | PostUpload filename content => snd (upload_file filename content w)
  | PostChat req => snd (chat req w)
  | DeleteOne source_id => snd (delete_source source_id w)
  | DeleteAll => snd (clear_all_sources w)
  | ListSources => snd (get_sources w)
  end.

(** The world after a sequence of requests, each with the outside world it
    met. *)
Definition served_all `{Runtime} (rs : list (Extractors * Request)) (w : World)
    : World :=
  fold_left (fun w xr => served (fst xr) (snd xr) w) rs w.

(** The source of the record is none of the names. *)
Definition of_no_source `{Runtime} (names : list string) (r : Row Embedding)
    : bool :=
  negb (existsb (String.eqb (row_source r)) names).

(** The identifiers of the registry are pairwise different and were all drawn
    before. *)
Definition ids_drawn `{Runtime} (w : World) : Prop :=
  NoDup (map src_id (added_sources w))
  /\ forall s, In s (added_sources w) ->
       exists k, k < uuid_drawn w /\ src_id s = uuid4 k.

(** Every character of [s] passes the test [P]. *)
Fixpoint every (P : ascii -> bool) (s : string) : bool :=
  match s with
  | EmptyString => true
  | String c r => P c && every P r
  end.

(** What one request can do to the registry and to the identifier counter. *)
Definition registry_step `{Runtime} (w w' : World) : Prop :=
  uuid_drawn w <= uuid_drawn w'
  /\ (added_sources w' = added_sources w
      \/ added_sources w' = []
      \/ (exists source_id,
            uuid_drawn w' = uuid_drawn w
            /\ added_sources w' =
                 filter (fun s => negb (src_id s =? source_id)) (added_sources w))
      \/ exists k source_name source_type,
           uuid_drawn w <= k < uuid_drawn w'
           /\ (source_type = "url" \/ source_type = "file")
           /\ added_sources w' =
                added_sources w
                ++ [{| src_id := uuid4 k; src_name := source_name;
                       src_type := source_type |}]).

(** A string without white space at either end. *)
Definition stripped (s : string) : Prop := PyStr.strip s = s.

Fixpoint no_linebreak (s : string) : bool :=
  match s with
  | EmptyString => true
  | String c r => negb (PyText.is_linebreak c) && no_linebreak r
  end.

Fixpoint no_double_space (s : string) : bool :=
  match s with
  | EmptyString => true
  | String c r =>
      match r with
      | String c2 _ => negb (PyText.is_space c && PyText.is_space c2)
      | EmptyString => true
      end && no_double_space r
  end.

(** A chunk as [scrape_url] keeps it: not empty, no white space at either
    end, no line break and no pair of spaces inside. *)
Definition clean_chunk (s : string) : Prop :=
  PyStr.truthy s = true /\ stripped s
  /\ no_linebreak s = true /\ no_double_space s = true.

(** A runtime whose collection takes no writes: [add] and [delete] raise. *)
Module DemoFaults.

#[local] Instance read_only_ops : Chroma nat (list (Row nat)) := {
  coll_get := fun c => c;
  coll_add := fun _ _ _ _ c => (Some "Quota exceeded", c);
  coll_delete := fun _ c => (Some "Quota exceeded", c);
  coll_query := Demo.query }.

#[local] Instance read_only : Runtime := {
  Embedding := nat;
  Coll := list (Row nat);
  chroma := read_only_ops;
  split_text := Demo.splitter 8 2;
  encode := map String.length;
  uuid4 := fun n => ("uuid-" ++ PyStr.of_nat n)%string;
  ollama_generate := fun _ _ => OllamaRequestError "Connection refused" }.

(** One source and its record, from before the collection stopped taking
    writes. *)
Definition frozen : @World read_only :=
  {| collection :=
       Some [mkRow "uuid-0" 5 "hello"
               {| md_source := "doc.txt"; md_type := "file" |}];
     added_sources := [mkSource "uuid-1" "doc.txt" "file"];
     uuid_drawn := 2;
     ollama_prompts := [] |}.

End DemoFaults.

(** An in-memory outside world for the routes. *)
Module DemoRoutes.

#[local] Instance extractors : Extractors := {
  http_get := fun url =>
    if url =? "http://example.org/"
    then inr ("  Example  Domain " ++ PyStr.LF ++ PyStr.LF ++ " more ")%string
    else if url =? "http://example.org/blank"
    then inr ("   " ++ PyStr.LF ++ " ")%string
    else inl "404 Client Error: Not Found for url";
  soup_text := fun html => html;
  pdf_pages := fun content =>
    if content =? "%PDF" then inr [""; ""] else inl "EOF marker not found";
  docx_paragraphs := fun content => inr [content];
  decode_utf8 := fun content => content;
  csv_rows := fun decoded => inr [[decoded; "x"]] }.

#[local] Instance viewer : Viewer := {
  cloud_get := fun tenant database api_key name =>
    if (tenant =? "acme") && (name =? "rag_collection_v2")
    then inr {| got_ids := ["uuid-0"; "uuid-1"];
                got_documents := ["hello wo"; "world"];
                got_metadatas := ["{'source': 'doc.txt', 'type': 'file'}";
                                  "{'source': 'doc.txt', 'type': 'file'}"] |}
    else inl "Unauthorized";
  local_get := fun path name => inl "Collection default does not exist." }.

End DemoRoutes.

(** A scrape, an upload and the deletion of the page. *)
Definition three_requests : list (Extractors * Request) :=
  [(DemoRoutes.extractors, PostScrape "http://example.org/");
   (DemoRoutes.extractors, PostUpload "A.TXT" "hello");
   (DemoRoutes.extractors, DeleteOne "uuid-3")].

(** * Properties *)

(** ** Strings *)

Lemma rstrip_all_space (s : string) :
  PyStr.all_space s = true -> PyStr.rstrip s = "".
Proof.
  induction s as [|c r IH]; simpl; [reflexivity|].
  intros H. apply andb_prop in H. destruct H as [Hc Hr].
  rewrite (IH Hr), Hc. reflexivity.
Qed.

Lemma rstrip_empty (s : string) :
  PyStr.rstrip s = "" -> PyStr.all_space s = true.
Proof.
  induction s as [|c r IH]; simpl; [reflexivity|].
  destruct (PyStr.rstrip r) eqn:E; [|discriminate].
  destruct (PyStr.isspace c); [|discriminate].
  intros _. simpl. apply IH. reflexivity.
Qed.

Lemma lstrip_all_space (s : string) :
  PyStr.all_space (PyStr.lstrip s) = PyStr.all_space s.
Proof.
  induction s as [|c r IH]; simpl; [reflexivity|].
  destruct (PyStr.isspace c) eqn:E; simpl; [exact IH|].
  rewrite E. reflexivity.
Qed.

(** [text.strip()] is empty exactly when [text] holds white space only. *)
Lemma strip_empty_iff (s : string) :
  PyStr.strip s = "" <-> PyStr.all_space s = true.
Proof.
  unfold PyStr.strip. split; intros H.
  - rewrite <- lstrip_all_space. apply rstrip_empty. exact H.
  - apply rstrip_all_space. rewrite lstrip_all_space. exact H.
Qed.

Lemma strip_falsy_iff (s : string) :
  PyStr.truthy (PyStr.strip s) = false <-> PyStr.all_space s = true.
Proof.
  rewrite <- strip_empty_iff.
  destruct (PyStr.strip s); simpl; split; intros; congruence.
Qed.

Lemma join_nil (sep : string) : PyStr.join sep [] = "".
Proof. reflexivity. Qed.

Lemma join_one (sep d : string) : PyStr.join sep [d] = d.
Proof. reflexivity. Qed.

Lemma join_cons (sep d d' : string) (l : list string) :
  PyStr.join sep (d :: d' :: l) = (d ++ sep ++ PyStr.join sep (d' :: l))%string.
Proof. reflexivity. Qed.

(** ** Lists *)

Lemma find_absent {A} (f : A -> bool) (l : list A) :
  (forall x, In x l -> f x = false) -> find f l = None.
Proof.
  induction l as [|a l IH]; simpl; intros H; [reflexivity|].
  rewrite (H a (or_introl eq_refl)). apply IH. intros x Hx. apply H. right. exact Hx.
Qed.

Lemma rows_of_metadata {E} (ids : list string) (es : list E) (ds : list string)
    (ms : list Metadata) (r : Row E) :
  In r (rows_of ids es ds ms) -> In (row_metadata r) ms.
Proof.
  revert es ds ms.
  induction ids as [|i ids IH]; intros [|e es] [|d ds] [|m ms]; simpl;
    try contradiction.
  intros [H|H]; [left; subst r; reflexivity | right; eapply IH; exact H].
Qed.

Lemma rows_of_length {E} (ids : list string) (es : list E) (ds : list string)
    (ms : list Metadata) :
  length es = length ids -> length ds = length ids -> length ms = length ids ->
  length (rows_of ids es ds ms) = length ids.
Proof.
  revert es ds ms.
  induction ids as [|i ids IH]; intros [|e es] [|d ds] [|m ms]; simpl;
    try discriminate; try reflexivity.
  intros H1 H2 H3. f_equal. apply IH; congruence.
Qed.

Lemma rows_of_documents {E} (ids : list string) (es : list E) (ds : list string)
    (ms : list Metadata) :
  length es = length ids -> length ds = length ids -> length ms = length ids ->
  map row_document (rows_of ids es ds ms) = ds.
Proof.
  revert es ds ms.
  induction ids as [|i ids IH]; intros [|e es] [|d ds] [|m ms]; simpl;
    try discriminate; try reflexivity.
  intros H1 H2 H3. f_equal. apply IH; congruence.
Qed.

(** ** The in-memory collection meets the contract *)

Lemma insert_near_in (q : nat) (x r : Row nat) (l : list (Row nat)) :
  In r (Demo.insert_near q x l) -> r = x \/ In r l.
Proof.
  induction l as [|y l IH]; simpl.
  - intros [H|[]]. left. symmetry. exact H.
  - destruct (Demo.dist q (row_embedding x) <=? Demo.dist q (row_embedding y))%nat.
    + intros [H|H]; [left; symmetry; exact H | right; exact H].
    + intros [H|H]; [right; left; exact H|].
      destruct (IH H) as [H1|H1]; [left; exact H1 | right; right; exact H1].
Qed.

Lemma firstn_in {A} (n : nat) (l : list A) (x : A) :
  In x (firstn n l) -> In x l.
Proof.
  revert l. induction n as [|n IH]; intros [|a l]; simpl; try contradiction.
  intros [H|H]; [left; exact H | right; apply IH; exact H].
Qed.

Lemma nearest_in (q k : nat) (rows : list (Row nat)) (r : Row nat) :
  In r (Demo.nearest q k rows) -> In r rows.
Proof.
  unfold Demo.nearest. intros H. apply firstn_in in H.
  induction rows as [|x rows IH]; simpl in H; [exact H|].
  apply insert_near_in in H. destruct H as [H|H]; [left; symmetry; exact H|].
  right. apply IH. exact H.
Qed.

Lemma demo_query_rows (qs : list nat) (k : nat) (c : list (Row nat)) (d : string) :
  In d (concat (map (fun q => map row_document (Demo.nearest q k c)) qs)) ->
  exists r, In r c /\ row_document r = d.
Proof.
  intros H. apply in_concat in H. destruct H as [l [Hl Hd]].
  apply in_map_iff in Hl. destruct Hl as [q [Hq _]]. subst l.
  apply in_map_iff in Hd. destruct Hd as [r [Hr Hin]].
  exists r. split; [eapply nearest_in; exact Hin | exact Hr].
Qed.

Lemma demo_add_cases (ids : list string) (es : list nat) (ds : list string)
    (ms : list Metadata) (c : list (Row nat)) :
  (Demo.add ids es ds ms c = (None, c ++ rows_of ids es ds ms)
   /\ length es = length ids /\ length ds = length ids /\ length ms = length ids)
  \/ Demo.add ids es ds ms c = (Some "Unequal lengths for fields", c).
Proof.
  unfold Demo.add.
  destruct (length es =? length ids)%nat eqn:E1; simpl; [|right; reflexivity].
  destruct (length ds =? length ids)%nat eqn:E2; simpl; [|right; reflexivity].
  destruct (length ms =? length ids)%nat eqn:E3; simpl; [|right; reflexivity].
  left. apply Nat.eqb_eq in E1, E2, E3. auto.
Qed.

#[local] Instance demo_contract : @ChromaContract Demo.runtime.
Proof.
  constructor; simpl.
  - intros ids es ds ms c raised c' r H Hin.
    destruct (demo_add_cases ids es ds ms c) as [[Ha _]|Ha];
      rewrite Ha in H; inversion H; subst.
    + apply in_app_or. exact Hin.
    + left. exact Hin.
  - intros name c raised c' r H Hin. unfold Demo.delete in H.
    inversion H; subst. apply filter_In in Hin. tauto.
  - intros ids es ds ms c c' H.
    destruct (demo_add_cases ids es ds ms c) as [[Ha Hl]|Ha];
      rewrite Ha in H; [exact Hl | discriminate].
  - intros ids es ds ms c c' _ H.
    destruct (demo_add_cases ids es ds ms c) as [[Ha Hl]|Ha];
      rewrite Ha in H; [congruence | discriminate].
  - intros name c c' H. unfold Demo.delete in H. inversion H. reflexivity.
  - intros qs k c results docs d H Hdocs Hd. unfold Demo.query in H.
    inversion H; subst results. simpl in Hdocs. inversion Hdocs; subst docs.
    eapply demo_query_rows. exact Hd.
Qed.

(** ** The handlers *)

Ltac run_py :=
  unfold get_sources in *;
  unfold bind, ret, raise, gets, try_except, set_added_sources in *;
  simpl in *.

Section Handlers.
Context `{RT : Runtime}.

Lemma same_registry_refl (w : World) : same_registry w w.
Proof. repeat split. Qed.

Lemma same_registry_trans (w1 w2 w3 : World) :
  same_registry w1 w2 -> same_registry w2 w3 -> same_registry w1 w3.
Proof.
  unfold same_registry. intros (A1 & B1 & C1 & D1) (A2 & B2 & C2 & D2).
  repeat split; congruence.
Qed.

Lemma collection_delete_frame (name : string) (w : World) :
  same_registry w (snd (collection_delete name w)).
Proof.
  unfold collection_delete.
  destruct (collection w) as [c|] eqn:Ec; simpl.
  - destruct (coll_delete name c) as [[e|] c']; simpl;
      repeat split; simpl; rewrite Ec; reflexivity.
  - apply same_registry_refl.
Qed.

Lemma for_each_delete_frame (l : list Source) (w : World) :
  same_registry w
    (snd (for_each l (fun source => collection_delete (src_name source)) w)).
Proof.
  revert w. induction l as [|s l IH]; intros w; simpl.
  - apply same_registry_refl.
  - unfold bind.
    pose proof (collection_delete_frame (src_name s) w) as H.
    destruct (collection_delete (src_name s) w) as [[e|[]] w1]; simpl in *.
    + exact H.
    + eapply same_registry_trans; [exact H | apply IH].
Qed.

Lemma world_eta (w : World) :
  {| collection := collection w; added_sources := added_sources w;
     uuid_drawn := uuid_drawn w; ollama_prompts := ollama_prompts w |} = w.
Proof. destruct w. reflexivity. Qed.

(** [delete_source] fails in two ways only, and with 404 exactly when no
    source has the identifier; the world is then as it was. *)
Lemma delete_source_failures (source_id : string) (w : World) (e : exn) (w' : World) :
  delete_source source_id w = (inl e, w') ->
  (e = HTTPException 404 "Source not found." /\ w' = w
   /\ forall s, In s (added_sources w) -> src_id s <> source_id)
  \/ ((exists msg, e = HTTPException 500 ("Failed to delete from vector db: " ++ msg))
      /\ exists s, In s (added_sources w) /\ src_id s = source_id).
Proof.
  unfold delete_source. run_py.
  destruct (find (fun s => src_id s =? source_id) (added_sources w)) as [s|] eqn:Ef.
  - intros H. right. split.
    + destruct (collection w) as [c|] eqn:Ec; simpl in H; [|discriminate].
      unfold collection_delete in H. rewrite Ec in H.
      destruct (coll_delete (src_name s) c) as [[msg|] c']; simpl in H;
        [|discriminate].
      inversion H. exists msg. reflexivity.
    + apply find_some in Ef. destruct Ef as [Hin Heq].
      exists s. split; [exact Hin | apply String.eqb_eq; exact Heq].
  - intros H. inversion H; subst. left. repeat split.
    intros s Hin Heq.
    pose proof (find_none _ _ Ef s Hin) as Hf. simpl in Hf.
    apply String.eqb_neq in Hf. contradiction.
Qed.

(** C7. [delete_source] on an identifier that no source of the registry has
    raises 404 "Source not found." and leaves the whole world, registry and
    vector store, as it was. Every other failure of [delete_source] is the
    500 of a Chroma call that raised, and happens only for an identifier
    that is in the registry. *)
Theorem delete_source_unknown_id (source_id : string) (w : World) :
  (forall s, In s (added_sources w) -> src_id s <> source_id) ->
  delete_source source_id w = (inl (HTTPException 404 "Source not found."), w)
  /\ added_sources (snd (delete_source source_id w)) = added_sources w
  /\ store_rows (snd (delete_source source_id w)) = store_rows w
  /\ forall id' w0 e w1,
       delete_source id' w0 = (inl e, w1) ->
       e <> HTTPException 404 "Source not found." ->
       (exists msg,
          e = HTTPException 500 ("Failed to delete from vector db: " ++ msg))
       /\ exists s, In s (added_sources w0) /\ src_id s = id'.
Proof.
  intros Habsent.
  assert (E : delete_source source_id w
              = (inl (HTTPException 404 "Source not found."), w)).
  { unfold delete_source. run_py.
    rewrite find_absent; [reflexivity|].
    intros s Hin. apply String.eqb_neq. apply Habsent. exact Hin. }
  rewrite E. simpl. do 3 (split; [reflexivity|]).
  intros id' w0 e w1 H Hne.
  destruct (delete_source_failures _ _ _ _ H) as [[He _]|Hb];
    [contradiction | exact Hb].
Qed.

(** The loop of [clear_all_sources], call by call. *)
Lemma for_each_delete_cons (s : Source) (l : list Source) (w : World) :
  for_each (s :: l) (fun source => collection_delete (src_name source)) w =
    match collection_delete (src_name s) w with
    | (inr _, w1) =>
        for_each l (fun source => collection_delete (src_name source)) w1
    | (inl e, w1) => (inl e, w1)
    end.
Proof.
  cbn [for_each]. unfold bind.
  destruct (collection_delete (src_name s) w) as [[e|[]] w1]; reflexivity.
Qed.

(** The loop raises only what a Chroma [delete] raised, and only when it has
    something to delete. *)
Lemma for_each_delete_raises (l : list Source) (w : World) (e : exn) (w' : World) :
  collection w <> None ->
  for_each l (fun source => collection_delete (src_name source)) w = (inl e, w') ->
  l <> [] /\ exists msg, e = Exception msg.
Proof.
  revert w. induction l as [|s l IH]; intros w Hc H.
  - discriminate.
  - split; [discriminate|].
    rewrite for_each_delete_cons in H.
    pose proof (collection_delete_frame (src_name s) w) as (_ & _ & _ & Ht).
    unfold collection_delete in *.
    destruct (collection w) as [c|] eqn:Ec; [|contradiction].
    destruct (coll_delete (src_name s) c) as [[msg|] c'].
    + inversion H. exists msg. reflexivity.
    + apply (IH (set_collection c' w)); [discriminate | exact H].
Qed.


End Handlers.

(** ** Without a collection, and with blank text *)

Section Guards.
Context `{RT : Runtime}.

(** C2, as the code has it. With [collection] at [None],
    [add_texts_to_chroma] and [chat] raise the 500 "Chroma DB collection is
    not initialized." before anything else and leave the world as it was.
    [delete_source] and [clear_all_sources] do not look for the collection
    first: they skip the Chroma call and work on the registry alone.
    [delete_source] raises 404 for an unknown identifier and otherwise drops
    the entries with that identifier and reports success;
    [clear_all_sources] empties the registry and reports success. *)
Theorem handlers_without_collection (w : World)
    (text source_name source_type source_id : string) (req : ChatRequest) :
  collection w = None ->
  add_texts_to_chroma text source_name source_type w = (inl not_initialized, w)
  /\ chat req w = (inl not_initialized, w)
  /\ delete_source source_id w =
       match find (fun s => src_id s =? source_id) (added_sources w) with
       | None => (inl not_found, w)
       | Some s =>
           (inr (deleted (src_name s)),
            {| collection := None;
               added_sources :=
                 filter (fun s => negb (src_id s =? source_id)) (added_sources w);
               uuid_drawn := uuid_drawn w;
               ollama_prompts := ollama_prompts w |})
       end
  /\ clear_all_sources w =
       (inr cleared,
        {| collection := None; added_sources := [];
           uuid_drawn := uuid_drawn w; ollama_prompts := ollama_prompts w |}).
Proof.
  intros Hc.
  unfold add_texts_to_chroma, chat, delete_source, clear_all_sources.
  run_py. rewrite Hc. simpl.
  split; [reflexivity|]. split; [reflexivity|]. split.
  - destruct (find (fun s => src_id s =? source_id) (added_sources w));
      simpl; rewrite ?Hc; simpl; rewrite ?Hc; reflexivity.
  - rewrite Hc. reflexivity.
Qed.

(** C3, as the code has it. A text that is empty, or white space only, is
    turned down by [add_texts_to_chroma] with the 400 "No extractable text
    found." when there is a collection, and with the 500 of the missing
    collection when there is none; in both cases the world, registry and
    vector store, is as it was. *)
Theorem add_texts_to_chroma_blank (text source_name source_type : string)
    (w : World) :
  PyStr.strip text = "" ->
  add_texts_to_chroma text source_name source_type w =
    (inl (if truthy_collection (collection w)
          then empty_content else not_initialized), w).
Proof.
  intros Hs. unfold add_texts_to_chroma. run_py.
  destruct (truthy_collection (collection w)); simpl; [|reflexivity].
  rewrite Hs. reflexivity.
Qed.

(** A text with something in it that the splitter turns into no chunk is
    turned down as well, and nothing is recorded. *)
Lemma add_texts_to_chroma_unchunkable (text source_name source_type : string)
    (w : World) (c : Coll) :
  collection w = Some c ->
  PyStr.all_space text = false ->
  split_text text = [] ->
  add_texts_to_chroma text source_name source_type w =
    (inl (HTTPException 400 "Text couldn't be chunked."), w).
Proof.
  intros Hc Hs Hsplit. unfold add_texts_to_chroma. run_py.
  rewrite Hc. simpl.
  destruct (PyStr.truthy (PyStr.strip text)) eqn:Et; simpl.
  - rewrite Hsplit. reflexivity.
  - apply strip_falsy_iff in Et. congruence.
Qed.

End Guards.

(** ** Retrieval and the prompt *)

Section Chat.
Context `{RT : Runtime}.

Lemma context_text_join (results : QueryResult) :
  context_text_of results = PyStr.join separator (doc_list_of results).
Proof.
  unfold context_text_of, doc_list_of.
  destruct (documents results) as [[|doc_list rest]|]; reflexivity.
Qed.

(** [chat] changes nothing but the list of prompts posted. *)
Lemma chat_frame (req : ChatRequest) (w : World) :
  collection (snd (chat req w)) = collection w
  /\ added_sources (snd (chat req w)) = added_sources w
  /\ uuid_drawn (snd (chat req w)) = uuid_drawn w.
Proof.
  unfold chat. run_py.
  destruct (collection w) as [c|] eqn:Ec; simpl; [|rewrite Ec; auto].
  unfold collection_query. rewrite Ec.
  destruct (coll_query (encode [message req]) 5 c) as [e|results]; simpl;
    [rewrite Ec; auto|].
  unfold requests_post.
  destruct (ollama_generate _ _) as [e|e|[r|]]; simpl; rewrite Ec; auto.
Qed.

(** With a collection whose query returns, [chat] is one post to Ollama. *)
Lemma chat_run (req : ChatRequest) (w : World) (c : Coll) (results : QueryResult) :
  collection w = Some c ->
  coll_query (encode [message req]) 5 c = inr results ->
  let prompt :=
    prompt_of (PyStr.join separator (doc_list_of results)) (message req) in
  chat req w =
    (match ollama_generate (length (ollama_prompts w)) prompt with
     | OllamaJson (Some r) => inr r
     | OllamaJson None => inr "No response generated"
     | OllamaRequestError msg =>
         inl (HTTPException 503
                ("Failed to connect to local Ollama (ensure it is running on port 11434): "
                 ++ msg))
     | OllamaOtherError msg => inl (HTTPException 500 msg)
     end,
     {| collection := collection w; added_sources := added_sources w;
        uuid_drawn := uuid_drawn w;
        ollama_prompts := ollama_prompts w ++ [prompt] |}).
Proof.
  intros Hc Hq prompt.
  unfold chat, bind, gets, try_except, raise, ret.
  rewrite Hc. cbn [truthy_collection negb].
  unfold collection_query. rewrite Hc, Hq.
  unfold requests_post. rewrite context_text_join. fold prompt.
  destruct (ollama_generate (length (ollama_prompts w)) prompt)
    as [e|e|[r|]]; cbn; rewrite ?Hc; reflexivity.
Qed.

(** With no collection, or with a query that raises, nothing is posted. *)
Lemma chat_posts_nothing (req : ChatRequest) (w : World) :
  match collection w with
  | None => True
  | Some c => exists e, coll_query (encode [message req]) 5 c = inl e
  end ->
  ollama_prompts (snd (chat req w)) = ollama_prompts w.
Proof.
  unfold chat, bind, gets, try_except, raise, collection_query.
  destruct (collection w) as [c|] eqn:Ec; cbn; [|reflexivity].
  intros [e He]. rewrite Ec, He. reflexivity.
Qed.

(** C6. With a collection whose query returns, [chat] posts exactly one
    prompt, and the prompt is this text: the instruction sentences, an empty
    line, "Context:", on the next line the context, an empty line, "User
    Question: " and the message, an empty line, "Answer:". The context is
    the documents of the first list of the result, in the order the store
    returned them, each two set apart by the separator - an empty line, a
    line of three dashes, an empty line. With no document in the result the
    context is empty and the same text is posted around it; nothing fails
    before the post. What [chat] then returns or raises is decided by the
    generator's reply alone. *)
Theorem chat_posts_grounded_prompt (req : ChatRequest) (w : World) (c : Coll)
    (results : QueryResult) :
  collection w = Some c ->
  coll_query (encode [message req]) 5 c = inr results ->
  let nl := String "010"%char EmptyString in
  let sep := (nl ++ nl ++ "---" ++ nl ++ nl)%string in
  let doc_list :=
    match documents results with
    | Some (doc_list :: _) => doc_list
    | _ => []
    end in
  let context_text := String.concat sep doc_list in
  let prompt :=
    ("You are an intelligent assistant. Use the following context documents to answer the user's question. If the context does not contain the answer, say you don't know based on the provided documents."
     ++ nl ++ nl ++ "Context:" ++ nl ++ context_text
     ++ nl ++ nl ++ "User Question: " ++ message req
     ++ nl ++ nl ++ "Answer:")%string in
  ollama_prompts (snd (chat req w)) = ollama_prompts w ++ [prompt]
  /\ (forall d d' rest, doc_list = d :: d' :: rest ->
        context_text = (d ++ sep ++ String.concat sep (d' :: rest))%string)
  /\ (forall d, doc_list = [d] -> context_text = d)
  /\ (doc_list = [] ->
      context_text = ""
      /\ prompt =
           ("You are an intelligent assistant. Use the following context documents to answer the user's question. If the context does not contain the answer, say you don't know based on the provided documents."
            ++ nl ++ nl ++ "Context:" ++ nl
            ++ nl ++ nl ++ "User Question: " ++ message req
            ++ nl ++ nl ++ "Answer:")%string)
  /\ doc_list_of results = doc_list
  /\ context_text_of results = context_text
  /\ separator = sep
  /\ prompt_of context_text (message req) = prompt
  /\ fst (chat req w) =
       match ollama_generate (length (ollama_prompts w)) prompt with
       | OllamaJson (Some r) => inr r
       | OllamaJson None => inr "No response generated"
       | OllamaRequestError msg =>
           inl (HTTPException 503
                  ("Failed to connect to local Ollama (ensure it is running on port 11434): "
                   ++ msg))
       | OllamaOtherError msg => inl (HTTPException 500 msg)
       end.
Proof.
  intros Hc Hq nl sep doc_list context_text prompt.
  pose proof (chat_run req w c results Hc Hq) as Hchat. cbv zeta in Hchat.
  change (prompt_of (PyStr.join separator (doc_list_of results)) (message req))
    with prompt in Hchat.
  rewrite Hchat. cbn [fst snd ollama_prompts].
  split; [reflexivity|].
  split; [intros d d' rest E; unfold context_text; rewrite E; reflexivity|].
  split; [intros d E; unfold context_text; rewrite E; reflexivity|].
  split.
  { intros E. unfold prompt, context_text. rewrite E. split; reflexivity. }
  split; [reflexivity|].
  split; [apply context_text_join|].
  split; [reflexivity|]. split; reflexivity.
Qed.

(** C10. Two chat requests with the same message, served in the same world,
    have the same outcome and leave the same world: the same query goes to
    the store and the same prompt is posted, whatever their histories. *)
Theorem chat_ignores_history (r1 r2 : ChatRequest) (w : World) :
  message r1 = message r2 ->
  chat r1 w = chat r2 w
  /\ collection_query (encode [message r1]) 5 w
     = collection_query (encode [message r2]) 5 w
  /\ ollama_prompts (snd (chat r1 w)) = ollama_prompts (snd (chat r2 w)).
Proof.
  intros Hm.
  assert (H : chat r1 w = chat r2 w).
  { unfold chat. rewrite Hm. reflexivity. }
  rewrite H, Hm. repeat split.
Qed.

End Chat.

(** ** Ingestion *)

Section Ingestion.
Context `{RT : Runtime}.

Lemma list_comp_uuid4 {A} (l : list A) (w : World) :
  list_comp (fun _ => uuid4_str) l w =
    (inr (map uuid4 (seq (uuid_drawn w) (length l))),
     {| collection := collection w; added_sources := added_sources w;
        uuid_drawn := uuid_drawn w + length l;
        ollama_prompts := ollama_prompts w |}).
Proof.
  revert w. induction l as [|x l IH]; intros w.
  - simpl. unfold ret. rewrite Nat.add_0_r, world_eta. reflexivity.
  - cbn [list_comp length]. unfold bind at 1. unfold uuid4_str at 1.
    unfold bind at 1. rewrite IH. unfold ret. cbn.
    rewrite Nat.add_succ_r. reflexivity.
Qed.

(** Past its three tests, [add_texts_to_chroma] is one [add] on the
    collection, and the registry entry if that call returns. *)
Lemma add_texts_to_chroma_run (text source_name source_type : string)
    (w : World) (c : Coll) :
  collection w = Some c ->
  PyStr.truthy (PyStr.strip text) = true ->
  split_text text <> [] ->
  let splits := split_text text in
  let n := length splits in
  add_texts_to_chroma text source_name source_type w =
    match coll_add (next_ids w n) (encode splits) splits
            (metadatas_of source_name source_type splits) c with
    | (Some e, c') =>
        (inl (Exception e),
         {| collection := Some c'; added_sources := added_sources w;
            uuid_drawn := uuid_drawn w + n;
            ollama_prompts := ollama_prompts w |})
    | (None, c') =>
        (inr n,
         {| collection := Some c';
            added_sources :=
              added_sources w
              ++ [{| src_id := uuid4 (uuid_drawn w + n);
                     src_name := source_name; src_type := source_type |}];
            uuid_drawn := S (uuid_drawn w + n);
            ollama_prompts := ollama_prompts w |})
    end.
Proof.
  intros Hc Ht Hsplit splits n. subst splits n.
  unfold add_texts_to_chroma, bind, gets.
  rewrite Hc. cbn [truthy_collection negb]. rewrite Ht. cbn [negb].
  unfold next_ids, metadatas_of.
  destruct (split_text text) as [|s0 rest] eqn:Es; [contradiction|].
  rewrite list_comp_uuid4.
  unfold collection_add. cbn [collection]. rewrite Hc.
  destruct (coll_add _ _ _ _ c) as [[e|] c']; reflexivity.
Qed.

(** Every way [add_texts_to_chroma] can go: turned down by one of its tests
    with the world untouched, or through to the [add] call. *)
Lemma add_texts_to_chroma_cases (text source_name source_type : string)
    (w : World) :
  (exists e, add_texts_to_chroma text source_name source_type w = (inl e, w))
  \/ (exists c, collection w = Some c
        /\ PyStr.truthy (PyStr.strip text) = true
        /\ split_text text <> []).
Proof.
  destruct (collection w) as [c|] eqn:Hc.
  - destruct (PyStr.truthy (PyStr.strip text)) eqn:Ht.
    + destruct (split_text text) as [|s0 rest] eqn:Es.
      * left. eexists. apply add_texts_to_chroma_unchunkable with (c := c);
          [exact Hc | | exact Es].
        destruct (PyStr.all_space text) eqn:Ea; [|reflexivity].
        apply strip_falsy_iff in Ea. congruence.
      * right. exists c. repeat split. discriminate.
    + left. eexists. unfold add_texts_to_chroma. run_py.
      rewrite Hc. simpl. rewrite Ht. reflexivity.
  - left. eexists. unfold add_texts_to_chroma. run_py.
    rewrite Hc. reflexivity.
Qed.

Lemma metadatas_of_length (source_name source_type : string) (splits : list string) :
  length (metadatas_of source_name source_type splits) = length splits.
Proof. unfold metadatas_of. apply length_map. Qed.

Lemma metadatas_of_in (source_name source_type : string) (splits : list string)
    (m : Metadata) :
  In m (metadatas_of source_name source_type splits) ->
  m = {| md_source := source_name; md_type := source_type |}.
Proof.
  unfold metadatas_of. intros H. apply in_map_iff in H.
  destruct H as [x [Hx _]]. symmetry. exact Hx.
Qed.

(** The registry and the count after an ingestion that returns. *)
Lemma add_texts_to_chroma_registry (text source_name source_type : string)
    (w : World) (n : nat) (w' : World) :
  add_texts_to_chroma text source_name source_type w = (inr n, w') ->
  n = length (split_text text)
  /\ split_text text <> []
  /\ added_sources w' =
       added_sources w
       ++ [{| src_id := uuid4 (uuid_drawn w + n);
              src_name := source_name; src_type := source_type |}]
  /\ exists c c',
       collection w = Some c /\ collection w' = Some c'
       /\ coll_add (next_ids w n) (encode (split_text text)) (split_text text)
            (metadatas_of source_name source_type (split_text text)) c
          = (None, c').
Proof.
  intros H.
  destruct (add_texts_to_chroma_cases text source_name source_type w)
    as [[e He]|[c (Hc & Ht & Hsplit)]]; [congruence|].
  rewrite (add_texts_to_chroma_run _ _ _ _ _ Hc Ht Hsplit) in H.
  cbv zeta in H.
  destruct (coll_add _ _ _ _ c) as [[e|] c'] eqn:Eadd; [discriminate|].
  inversion H; subst n w'; clear H.
  split; [reflexivity|]. split; [exact Hsplit|]. split; [reflexivity|].
  exists c, c'. split; [exact Hc|]. split; [reflexivity|exact Eadd].
Qed.

Context {HC : ChromaContract}.

(** C4. When [add_texts_to_chroma] returns, the number it returns is the
    number of chunks the splitter made of the text, it is at least 1, and
    the registry has grown at its end by one entry with the given name and
    type, under the identifier drawn last. When the identifiers drawn for the
    chunks were unused, that number is also the number of records the vector
    store has gained: one per chunk, in order, each with the given name and
    type as metadata. *)
Theorem add_texts_to_chroma_returns (text source_name source_type : string)
    (w : World) (n : nat) (w' : World) :
  add_texts_to_chroma text source_name source_type w = (inr n, w') ->
  n = length (split_text text)
  /\ 1 <= n
  /\ added_sources w' =
       added_sources w
       ++ [{| src_id := uuid4 (uuid_drawn w + n);
              src_name := source_name; src_type := source_type |}]
  /\ (fresh_ids (next_ids w n) (store_rows w) = true ->
      exists rows,
        store_rows w' = store_rows w ++ rows
        /\ length rows = n
        /\ map row_document rows = split_text text
        /\ Forall (fun r => row_metadata r
                            = {| md_source := source_name;
                                 md_type := source_type |}) rows).
Proof.
  intros H.
  destruct (add_texts_to_chroma_registry _ _ _ _ _ _ H)
    as (Hn & Hsplit & Hreg & c & c' & Hc & Hc' & Eadd).
  split; [exact Hn|]. split.
  { rewrite Hn. destruct (split_text text); [contradiction | simpl; lia]. }
  split; [exact Hreg|].
  intros Hfresh. unfold store_rows in *. rewrite Hc in Hfresh. rewrite Hc, Hc'.
  destruct (add_lengths _ _ _ _ _ _ Eadd) as (L1 & L2 & L3).
  assert (Lid : length (next_ids w n) = n).
  { unfold next_ids. rewrite length_map, length_seq. reflexivity. }
  exists (rows_of (next_ids w n) (encode (split_text text)) (split_text text)
            (metadatas_of source_name source_type (split_text text))).
  split; [apply (add_rows _ _ _ _ _ _ Hfresh Eadd)|].
  split; [rewrite rows_of_length; congruence|].
  split; [apply rows_of_documents; congruence|].
  apply Forall_forall. intros r Hr.
  apply rows_of_metadata in Hr. apply metadatas_of_in in Hr. exact Hr.
Qed.

(** C5, as the code has it. After [add_texts_to_chroma] has returned for the
    source "doc.txt" of type "file" in a world with an empty registry,
    [get_sources] gives exactly one entry; its dict has the three keys id,
    name and type, with "doc.txt" and "file" under the last two, and no
    chunk count. The number of chunks is what the call returned, the length
    of the splitter's result. *)
Theorem get_sources_after_ingest (text : string) (w : World) (n : nat)
    (w' : World) :
  added_sources w = [] ->
  add_texts_to_chroma text "doc.txt" "file" w = (inr n, w') ->
  exists entry,
    get_sources w' = (inr [entry], w')
    /\ as_dict entry = [("id", uuid4 (uuid_drawn w + n));
                        ("name", "doc.txt"); ("type", "file")]
    /\ dict_get "chunk_count" (as_dict entry) = None
    /\ n = length (split_text text).
Proof.
  intros Hempty H.
  destruct (add_texts_to_chroma_registry _ _ _ _ _ _ H) as (Hn & _ & Hreg & _).
  rewrite Hempty in Hreg. simpl in Hreg.
  eexists. unfold get_sources, gets. rewrite Hreg.
  split; [reflexivity|]. split; [reflexivity|]. split; [reflexivity|exact Hn].
Qed.

End Ingestion.

(** ** Deletion *)

Section Deletion.
Context `{RT : Runtime}.

(** What a [delete_source] that returns has done. *)
Lemma delete_source_returns (source_id : string) (w : World)
    (body : StatusBody) (w' : World) :
  delete_source source_id w = (inr body, w') ->
  exists s,
    find (fun s => src_id s =? source_id) (added_sources w) = Some s
    /\ body = deleted (src_name s)
    /\ added_sources w' =
         filter (fun s => negb (src_id s =? source_id)) (added_sources w)
    /\ uuid_drawn w' = uuid_drawn w
    /\ ollama_prompts w' = ollama_prompts w
    /\ match collection w with
       | None => collection w' = None
       | Some c =>
           exists c', coll_delete (src_name s) c = (None, c')
                      /\ collection w' = Some c'
       end.
Proof.
  unfold delete_source, bind, gets.
  destruct (find (fun s => src_id s =? source_id) (added_sources w)) as [s|];
    [|discriminate].
  intros H. exists s. split; [reflexivity|].
  destruct (collection w) as [c|] eqn:Ec; cbn [truthy_collection] in H.
  - unfold try_except, collection_delete in H. rewrite Ec in H.
    destruct (coll_delete (src_name s) c) as [[e|] c'] eqn:Ed;
      [discriminate|].
    cbn in H. inversion H; subst body w'. cbn.
    repeat split. exists c'. split; reflexivity.
  - cbn in H. inversion H; subst body w'. cbn. rewrite Ec.
    repeat split.
Qed.

Lemma filter_not_id (source_id : string) (l : list Source) (s : Source) :
  In s (filter (fun s => negb (src_id s =? source_id)) l) ->
  src_id s <> source_id.
Proof.
  intros H. apply filter_In in H. destruct H as [_ H].
  apply negb_true_iff in H. apply String.eqb_neq. exact H.
Qed.

Lemma filter_keeps_other_id (source_id : string) (l : list Source) (s : Source) :
  In s l -> src_id s <> source_id ->
  In s (filter (fun s => negb (src_id s =? source_id)) l).
Proof.
  intros Hin Hne. apply filter_In. split; [exact Hin|].
  apply negb_true_iff. apply String.eqb_neq. exact Hne.
Qed.

(** In a registry whose identifiers are pairwise different, an identifier
    resolves to the one entry that has it. *)
Lemma find_unique_id (l : list Source) (s : Source) :
  NoDup (map src_id l) -> In s l ->
  find (fun s' => src_id s' =? src_id s) l = Some s.
Proof.
  induction l as [|a l IH]; simpl; [contradiction|].
  intros Hnd [Heq|Hin].
  - subst a. rewrite String.eqb_refl. reflexivity.
  - inversion Hnd as [|x xs Hnotin Hnd']; subst.
    destruct (src_id a =? src_id s) eqn:E.
    + apply String.eqb_eq in E. exfalso. apply Hnotin. rewrite E.
      apply in_map. exact Hin.
    + apply IH; assumption.
Qed.

Context {HC : ChromaContract}.

(** A [delete_source] that returns leaves in the store exactly the records
    whose source is not the name of the deleted source. *)
Lemma delete_source_store (source_id : string) (w : World)
    (body : StatusBody) (w' : World) (s : Source) :
  delete_source source_id w = (inr body, w') ->
  find (fun s => src_id s =? source_id) (added_sources w) = Some s ->
  store_rows w' =
    filter (fun r => negb (row_source r =? src_name s)) (store_rows w).
Proof.
  intros H Hf.
  destruct (delete_source_returns _ _ _ _ H) as (s' & Hf' & _ & _ & _ & _ & Hc).
  rewrite Hf in Hf'. inversion Hf'; subst s'. unfold store_rows.
  destruct (collection w) as [c|].
  - destruct Hc as (c' & Hd & Hc'). rewrite Hc'.
    apply (delete_rows _ _ _ Hd).
  - rewrite Hc. reflexivity.
Qed.

Lemma filter_no_rows_of (name : string) (rows : list (Row Embedding))
    (r : Row Embedding) :
  In r (filter (fun r => negb (row_source r =? name)) rows) ->
  row_source r <> name.
Proof.
  intros H. apply filter_In in H. destruct H as [_ H].
  apply negb_true_iff in H. apply String.eqb_neq. exact H.
Qed.

(** *** No request but an ingestion brings records of a name into the store *)

Lemma collection_delete_within (name : string) (w : World) (r : Row Embedding) :
  In r (store_rows (snd (collection_delete name w))) -> In r (store_rows w).
Proof.
  unfold collection_delete, store_rows.
  destruct (collection w) as [c|] eqn:Ec; cbn; [|rewrite Ec; trivial].
  destruct (coll_delete name c) as [[e|] c'] eqn:Ed; cbn;
    apply (delete_within _ _ _ _ _ Ed).
Qed.

Lemma for_each_delete_within (l : list Source) (w : World) (r : Row Embedding) :
  In r (store_rows
          (snd (for_each l (fun source => collection_delete (src_name source)) w))) ->
  In r (store_rows w).
Proof.
  revert w. induction l as [|s l IH]; intros w; cbn; [trivial|].
  unfold bind.
  pose proof (collection_delete_within (src_name s) w r) as H.
  destruct (collection_delete (src_name s) w) as [[e|[]] w1]; cbn in *.
  - exact H.
  - intros Hin. apply H. apply IH. exact Hin.
Qed.

Lemma delete_source_within (source_id : string) (w : World) (r : Row Embedding) :
  In r (store_rows (snd (delete_source source_id w))) -> In r (store_rows w).
Proof.
  unfold delete_source, bind, gets, raise.
  destruct (find (fun s => src_id s =? source_id) (added_sources w)) as [s|];
    cbn; [|trivial].
  destruct (truthy_collection (collection w)); cbn; [|trivial].
  unfold try_except.
  pose proof (collection_delete_within (src_name s) w r) as H.
  destruct (collection_delete (src_name s) w) as [[e|[]] w1]; cbn in *;
    exact H.
Qed.

Lemma clear_all_sources_within (w : World) (r : Row Embedding) :
  In r (store_rows (snd (clear_all_sources w))) -> In r (store_rows w).
Proof.
  unfold clear_all_sources, bind, gets, raise.
  destruct (truthy_collection (collection w)); cbn; [|trivial].
  unfold try_except, bind.
  pose proof (for_each_delete_within (added_sources w) w r) as H.
  destruct (for_each (added_sources w)
              (fun source => collection_delete (src_name source)) w)
    as [[e|[]] w1]; cbn in *; exact H.
Qed.

Lemma add_texts_to_chroma_within (text source_name source_type : string)
    (w : World) (r : Row Embedding) :
  In r (store_rows (snd (add_texts_to_chroma text source_name source_type w))) ->
  In r (store_rows w) \/ row_source r = source_name.
Proof.
  destruct (add_texts_to_chroma_cases text source_name source_type w)
    as [[e He]|[c (Hc & Ht & Hsplit)]].
  - rewrite He. cbn. auto.
  - rewrite (add_texts_to_chroma_run _ _ _ _ _ Hc Ht Hsplit). cbv zeta.
    unfold store_rows at 2. rewrite Hc.
    destruct (coll_add _ _ _ _ c) as [[e|] c'] eqn:Eadd; cbn; intros Hin;
      (destruct (add_within _ _ _ _ _ _ _ _ Eadd Hin) as [Hold|Hnew];
       [left; exact Hold|right]);
      apply rows_of_metadata in Hnew; apply metadatas_of_in in Hnew;
      unfold row_source; rewrite Hnew; reflexivity.
Qed.

Lemma after_no_rows_of (name : string) (c : Call) (w : World) :
  ingests name c = false ->
  no_rows_of name w -> no_rows_of name (after c w).
Proof.
  unfold no_rows_of. intros Hc Hw r Hin.
  destruct c as [text source_name source_type|req|source_id| |];
    cbn [after ingests] in *.
  - apply add_texts_to_chroma_within in Hin. destruct Hin as [Hin|Hin].
    + apply Hw. exact Hin.
    + rewrite Hin. apply String.eqb_neq. exact Hc.
  - apply Hw. unfold store_rows in *.
    destruct (chat_frame req w) as [E _]. rewrite E in Hin. exact Hin.
  - apply Hw. eapply delete_source_within. exact Hin.
  - apply Hw. apply clear_all_sources_within. exact Hin.
  - apply Hw. exact Hin.
Qed.

Lemma after_all_no_rows_of (name : string) (calls : list Call) (w : World) :
  forallb (fun c => negb (ingests name c)) calls = true ->
  no_rows_of name w -> no_rows_of name (after_all calls w).
Proof.
  revert w. induction calls as [|c calls IH]; intros w Hcalls Hw; cbn.
  - exact Hw.
  - cbn in Hcalls. apply andb_prop in Hcalls. destruct Hcalls as [Hc Hrest].
    apply IH; [exact Hrest|]. apply after_no_rows_of; [|exact Hw].
    apply negb_true_iff. exact Hc.
Qed.

(** A prompt that [chat] posts is the template around documents of records
    of the store. *)
Lemma chat_prompt_documents (req : ChatRequest) (w : World) (prompt : string) :
  ollama_prompts (snd (chat req w)) = ollama_prompts w ++ [prompt] ->
  exists docs,
    prompt = prompt_of (PyStr.join separator docs) (message req)
    /\ forall d, In d docs ->
         exists r, In r (store_rows w) /\ row_document r = d.
Proof.
  assert (Hoff : forall l : list string, l <> l ++ [prompt]).
  { intros l E. apply (f_equal (@length string)) in E.
    rewrite length_app in E. cbn in E. lia. }
  destruct (collection w) as [c|] eqn:Ec.
  - destruct (coll_query (encode [message req]) 5 c) as [e|results] eqn:Eq.
    + rewrite chat_posts_nothing; [|rewrite Ec; exists e; exact Eq].
      intros E. exfalso. exact (Hoff _ E).
    + rewrite (chat_run req w c results Ec Eq). cbn [snd ollama_prompts].
      intros E. apply app_inj_tail in E. destruct E as [_ E]. subst prompt.
      exists (doc_list_of results). split; [reflexivity|].
      intros d Hd. unfold store_rows. rewrite Ec.
      unfold doc_list_of in Hd.
      destruct (documents results) as [[|doc_list rest]|] eqn:Edocs;
        try contradiction.
      apply (query_rows _ _ _ _ _ d Eq Edocs).
      cbn. apply in_or_app. left. exact Hd.
  - rewrite chat_posts_nothing; [|rewrite Ec; exact I].
    intros E. exfalso. exact (Hoff _ E).
Qed.

End Deletion.

Section DeletionClaims.
Context `{RT : Runtime} {HC : ChromaContract}.

(** C1. When [delete_source] returns for an identifier, that identifier
    named a source of the registry; after the call [get_sources] lists no
    entry with the identifier, and the store holds exactly the records whose
    source is not the name of that source. From then on, through any
    requests that do not ingest under that name again, every prompt that
    [chat] posts has a context made of documents of records of the store
    whose source is another name. *)
Theorem delete_source_consistency (source_id : string) (w : World)
    (body : StatusBody) (w' : World) :
  delete_source source_id w = (inr body, w') ->
  exists s,
    find (fun s => src_id s =? source_id) (added_sources w) = Some s
    /\ In s (added_sources w)
    /\ (exists l, get_sources w' = (inr l, w')
                  /\ forall s', In s' l -> src_id s' <> source_id)
    /\ store_rows w' =
         filter (fun r => negb (row_source r =? src_name s)) (store_rows w)
    /\ forall calls req prompt,
         forallb (fun c => negb (ingests (src_name s) c)) calls = true ->
         ollama_prompts (snd (chat req (after_all calls w')))
           = ollama_prompts (after_all calls w') ++ [prompt] ->
         exists docs,
           prompt = prompt_of (PyStr.join separator docs) (message req)
           /\ forall d, In d docs ->
                exists r, In r (store_rows (after_all calls w'))
                          /\ row_document r = d
                          /\ row_source r <> src_name s.
Proof.
  intros H.
  destruct (delete_source_returns _ _ _ _ H) as (s & Hf & _ & Hreg & _).
  exists s. split; [exact Hf|].
  split; [apply (find_some _ _ Hf)|].
  split.
  { exists (added_sources w'). split; [reflexivity|].
    intros s' Hin. rewrite Hreg in Hin. eapply filter_not_id. exact Hin. }
  pose proof (delete_source_store _ _ _ _ _ H Hf) as Hstore.
  split; [exact Hstore|].
  intros calls req prompt Hcalls Hpost.
  assert (Hinv : no_rows_of (src_name s) (after_all calls w')).
  { apply after_all_no_rows_of; [exact Hcalls|].
    intros r Hin. rewrite Hstore in Hin. eapply filter_no_rows_of. exact Hin. }
  destruct (chat_prompt_documents _ _ _ Hpost) as (docs & Hp & Hdocs).
  exists docs. split; [exact Hp|].
  intros d Hd. destruct (Hdocs d Hd) as (r & Hr & Hdoc).
  exists r. split; [exact Hr|]. split; [exact Hdoc|]. apply Hinv. exact Hr.
Qed.


End DeletionClaims.

(** ** The theorems at work on the in-memory runtime *)

(** Deleting "doc.txt" from a store that also holds "notes.md": the registry
    loses the entry, the store the five records, and the prompt of a chat
    that follows is made of the two documents of "notes.md". *)
Lemma delete_source_consistency_run :
  delete_source "uuid-5" Demo.two_names
    = (inr (deleted "doc.txt"), snd (delete_source "uuid-5" Demo.two_names))
  /\ exists s,
       find (fun s => src_id s =? "uuid-5") (added_sources Demo.two_names) = Some s
       /\ store_rows (snd (delete_source "uuid-5" Demo.two_names))
          = filter (fun r => negb (row_source r =? src_name s))
              (store_rows Demo.two_names)
       /\ exists docs,
            prompt_of (PyStr.join separator ["text"; "other te"]) "hello"
              = prompt_of (PyStr.join separator docs) "hello"
            /\ forall d, In d docs ->
                 exists r,
                   In r (store_rows (snd (delete_source "uuid-5" Demo.two_names)))
                   /\ row_document r = d /\ row_source r <> src_name s.
Proof.
  assert (Hrun : delete_source "uuid-5" Demo.two_names
                 = (inr (deleted "doc.txt"),
                    snd (delete_source "uuid-5" Demo.two_names))).
  { vm_compute. reflexivity. }
  split; [exact Hrun|].
  destruct (@delete_source_consistency Demo.runtime demo_contract
              "uuid-5" Demo.two_names (deleted "doc.txt")
              (snd (delete_source "uuid-5" Demo.two_names)) Hrun)
    as (s & Hf & _ & _ & Hstore & Hchat).
  exists s. split; [exact Hf|]. split; [exact Hstore|].
  apply (Hchat [] (mkChatRequest "hello" [])).
  - reflexivity.
  - vm_compute. reflexivity.
Defined.

(** Nothing but the registry is looked at when there is no collection. *)
Lemma handlers_without_collection_run :
  collection Demo.no_store = None
  /\ add_texts_to_chroma "hello" "doc.txt" "file" Demo.no_store
     = (inl not_initialized, Demo.no_store)
  /\ chat (mkChatRequest "hello" []) Demo.no_store
     = (inl not_initialized, Demo.no_store)
  /\ clear_all_sources Demo.no_store = (inr cleared, Demo.no_store).
Proof.
  split; [reflexivity|].
  destruct (@handlers_without_collection Demo.runtime Demo.no_store
              "hello" "doc.txt" "file" "uuid-0" (mkChatRequest "hello" [])
              eq_refl) as (Hadd & Hchat & _ & Hclear).
  split; [exact Hadd|]. split; [exact Hchat|]. exact Hclear.
Defined.

(** C2 fails for the two delete routes: with no collection,
    [clear_all_sources] reports success and [delete_source] reports that the
    source is not found; neither raises the error of the missing
    collection. *)
Lemma delete_routes_without_collection :
  clear_all_sources Demo.no_store = (inr cleared, Demo.no_store)
  /\ fst (clear_all_sources Demo.no_store) <> inl not_initialized
  /\ delete_source "uuid-0" Demo.no_store = (inl not_found, Demo.no_store)
  /\ fst (delete_source "uuid-0" Demo.no_store) <> inl not_initialized.
Proof.
  split; [reflexivity|]. split; [discriminate|].
  split; [reflexivity|]. discriminate.
Qed.

(** The empty text on an empty collection. *)
Lemma add_texts_to_chroma_blank_run :
  PyStr.strip "" = ""
  /\ add_texts_to_chroma "" "empty.txt" "file" Demo.empty_store
     = (inl empty_content, Demo.empty_store).
Proof.
  split; [reflexivity|].
  exact (@add_texts_to_chroma_blank Demo.runtime "" "empty.txt" "file"
           Demo.empty_store eq_refl).
Defined.

(** C3 fails when there is no collection: the empty text is then turned down
    with the error of the missing collection, not with the one for empty
    content. *)
Lemma empty_text_without_collection :
  add_texts_to_chroma "" "empty.txt" "file" Demo.no_store
    = (inl not_initialized, Demo.no_store)
  /\ fst (add_texts_to_chroma "" "empty.txt" "file" Demo.no_store)
     <> inl empty_content.
Proof. split; [reflexivity | discriminate]. Qed.

(** Five chunks of eight characters at most. *)
Lemma add_texts_to_chroma_returns_run :
  add_texts_to_chroma "hello world, this is a test" "doc.txt" "file"
    Demo.empty_store = (inr 5, Demo.one_doc)
  /\ 1 <= 5
  /\ added_sources Demo.one_doc = [mkSource "uuid-5" "doc.txt" "file"]
  /\ exists rows,
       store_rows Demo.one_doc = store_rows Demo.empty_store ++ rows
       /\ length rows = 5
       /\ map row_document rows
          = ["hello wo"; "world, t"; " this is"; "is a tes"; "est"].
Proof.
  assert (Hrun : add_texts_to_chroma "hello world, this is a test" "doc.txt"
                   "file" Demo.empty_store = (inr 5, Demo.one_doc)).
  { vm_compute. reflexivity. }
  split; [exact Hrun|].
  destruct (@add_texts_to_chroma_returns Demo.runtime demo_contract
              _ _ _ _ _ _ Hrun) as (_ & Hpos & Hreg & Hrows).
  split; [exact Hpos|]. split; [exact Hreg|].
  destruct (Hrows eq_refl) as (rows & R1 & R2 & R3 & _).
  exists rows. split; [exact R1|]. split; [exact R2|exact R3].
Defined.

(** One short text, one entry. *)
Lemma get_sources_after_ingest_run :
  added_sources Demo.empty_store = []
  /\ add_texts_to_chroma "hello" "doc.txt" "file" Demo.empty_store
     = (inr 1, Demo.hello_doc)
  /\ exists entry,
       get_sources Demo.hello_doc = (inr [entry], Demo.hello_doc)
       /\ as_dict entry
          = [("id", "uuid-1"); ("name", "doc.txt"); ("type", "file")].
Proof.
  assert (Hrun : add_texts_to_chroma "hello" "doc.txt" "file" Demo.empty_store
                 = (inr 1, Demo.hello_doc)).
  { vm_compute. reflexivity. }
  split; [reflexivity|]. split; [exact Hrun|].
  destruct (@get_sources_after_ingest Demo.runtime "hello" Demo.empty_store
              1 Demo.hello_doc eq_refl Hrun) as (entry & Hl & Hd & _).
  exists entry. split; [exact Hl | exact Hd].
Defined.

(** C5 fails on the chunk count: the one entry listed after ingesting
    "doc.txt" has no such key. *)
Lemma listing_has_no_chunk_count :
  add_texts_to_chroma "hello" "doc.txt" "file" Demo.empty_store
    = (inr 1, Demo.hello_doc)
  /\ get_sources Demo.hello_doc
     = (inr [mkSource "uuid-1" "doc.txt" "file"], Demo.hello_doc)
  /\ dict_get "chunk_count" (as_dict (mkSource "uuid-1" "doc.txt" "file"))
     = None
  /\ ~ exists entry count,
         In entry (added_sources Demo.hello_doc)
         /\ dict_get "chunk_count" (as_dict entry) = Some count.
Proof.
  split; [vm_compute; reflexivity|]. split; [reflexivity|].
  split; [reflexivity|].
  intros (entry & count & [Hin|[]] & Hget). subst entry. discriminate.
Qed.

(** A chat over the five chunks of "doc.txt": the nearest five, nearest
    first, with the separator between them. *)
Lemma chat_posts_grounded_prompt_run :
  collection Demo.one_doc = Some (store_rows Demo.one_doc)
  /\ ollama_prompts (snd (chat (mkChatRequest "hello" []) Demo.one_doc))
     = ["You are an intelligent assistant. Use the following context documents to answer the user's question. If the context does not contain the answer, say you don't know based on the provided documents.

Context:
est

---

hello wo

---

world, t

---

 this is

---

is a tes

User Question: hello

Answer:"]
  /\ fst (chat (mkChatRequest "hello" []) Demo.one_doc) = inr "I don't know.".
Proof.
  split; [reflexivity|].
  destruct (@chat_posts_grounded_prompt Demo.runtime
              (mkChatRequest "hello" []) Demo.one_doc
              (store_rows Demo.one_doc)
              {| documents :=
                   Some [["est"; "hello wo"; "world, t"; " this is"; "is a tes"]] |}
              eq_refl eq_refl) as (Hpost & _ & _ & _ & _ & _ & _ & _ & Hret).
  split; [exact Hpost | exact Hret].
Defined.

(** A chat over an empty collection posts the template with an empty
    context. *)
Example chat_on_empty_store :
  ollama_prompts (snd (chat (mkChatRequest "hello" []) Demo.empty_store))
    = [prompt_of "" "hello"]
  /\ fst (chat (mkChatRequest "hello" []) Demo.empty_store) = inr "I don't know.".
Proof. split; reflexivity. Qed.

(** An identifier that the registry does not hold. *)
Lemma delete_source_unknown_id_run :
  (forall s, In s (added_sources Demo.one_doc) -> src_id s <> "uuid-9")
  /\ delete_source "uuid-9" Demo.one_doc = (inl not_found, Demo.one_doc).
Proof.
  assert (H : forall s, In s (added_sources Demo.one_doc) -> src_id s <> "uuid-9").
  { intros s [Hs|[]]. subst s. discriminate. }
  split; [exact H|].
  exact (proj1 (@delete_source_unknown_id Demo.runtime "uuid-9" Demo.one_doc H)).
Defined.


(** When a Chroma [delete] raises, [clear_all_sources] raises 500 and the
    registry keeps its entries. *)
Example clear_all_sources_cut_off :
  clear_all_sources Demo.cut_off
    = (inl (HTTPException 500 "Failed to clear vector db: connection refused"),
       Demo.cut_off).
Proof. reflexivity. Qed.



(** The same message with and without a history. *)
Lemma chat_ignores_history_run :
  message (mkChatRequest "hello" [])
    = message (mkChatRequest "hello" [mkChatMessage "user" "and before that?"])
  /\ chat (mkChatRequest "hello" []) Demo.one_doc
     = chat (mkChatRequest "hello" [mkChatMessage "user" "and before that?"])
         Demo.one_doc.
Proof.
  split; [reflexivity|].
  exact (proj1 (@chat_ignores_history Demo.runtime
                  (mkChatRequest "hello" [])
                  (mkChatRequest "hello" [mkChatMessage "user" "and before that?"])
                  Demo.one_doc eq_refl)).
Defined.

(** * More on the handlers *)

Section MoreDeletion.
Context `{RT : Runtime}.

Lemma filter_all {A} (f : A -> bool) (l : list A) :
  (forall x, In x l -> f x = true) -> filter f l = l.
Proof.
  induction l as [|a l IH]; simpl; intros H; [reflexivity|].
  rewrite (H a (or_introl eq_refl)). f_equal. apply IH.
  intros x Hx. apply H. right. exact Hx.
Qed.

Lemma filter_none {A} (f : A -> bool) (l : list A) :
  (forall x, In x l -> f x = false) -> filter f l = [].
Proof.
  induction l as [|a l IH]; simpl; intros H; [reflexivity|].
  rewrite (H a (or_introl eq_refl)). apply IH.
  intros x Hx. apply H. right. exact Hx.
Qed.

(** A [delete_source] that raises leaves everything but the collection as it
    was. *)
Lemma deletion_failure_frame (source_id : string) (w : World) (e : exn)
    (w' : World) :
  delete_source source_id w = (inl e, w') -> same_registry w w'.
Proof.
  unfold delete_source, bind, gets, raise.
  destruct (find (fun s => src_id s =? source_id) (added_sources w)) as [s|].
  - destruct (truthy_collection (collection w)); cbn.
    + unfold try_except.
      pose proof (collection_delete_frame (src_name s) w) as H.
      destruct (collection_delete (src_name s) w) as [[e0|[]] w1]; cbn in *;
        intros E; inversion E; subst; exact H.
    + discriminate.
  - intros E. inversion E; subst. apply same_registry_refl.
Qed.

Context {HC : ChromaContract}.

(** X1. A [delete_source] that returns takes nothing from the registry but
    the entries with the identifier, and nothing from the store but the
    records under the name of the deleted source: every other entry is still
    listed, in the same order, and every other record is still stored. The
    identifier counter and the prompts posted are untouched. *)
Theorem delete_source_keeps_others (source_id : string) (w : World)
    (body : StatusBody) (w' : World) :
  delete_source source_id w = (inr body, w') ->
  exists s,
    find (fun s => src_id s =? source_id) (added_sources w) = Some s
    /\ body = deleted (src_name s)
    /\ added_sources w' =
         filter (fun s' => negb (src_id s' =? source_id)) (added_sources w)
    /\ (forall s', In s' (added_sources w) -> src_id s' <> source_id ->
                   In s' (added_sources w'))
    /\ (forall r, In r (store_rows w) -> row_source r <> src_name s ->
                  In r (store_rows w'))
    /\ uuid_drawn w' = uuid_drawn w
    /\ ollama_prompts w' = ollama_prompts w.
Proof.
  intros H.
  destruct (delete_source_returns _ _ _ _ H)
    as (s & Hf & Hbody & Hreg & Hu & Hp & _).
  exists s. split; [exact Hf|]. split; [exact Hbody|]. split; [exact Hreg|].
  split.
  { intros s' Hin Hne. rewrite Hreg. apply filter_keeps_other_id; assumption. }
  split; [|split; assumption].
  intros r Hin Hne. rewrite (delete_source_store _ _ _ _ _ H Hf).
  apply filter_In. split; [exact Hin|].
  apply negb_true_iff. apply String.eqb_neq. exact Hne.
Qed.

(** X2. After a [delete_source] that returned, the same request again
    raises 404 "Source not found." and changes nothing. *)
Theorem delete_source_again (source_id : string) (w : World)
    (body : StatusBody) (w' : World) :
  delete_source source_id w = (inr body, w') ->
  delete_source source_id w' = (inl not_found, w').
Proof.
  intros H.
  destruct (delete_source_returns _ _ _ _ H) as (s & _ & _ & Hreg & _).
  unfold delete_source, bind, gets, raise.
  rewrite find_absent; [reflexivity|].
  intros s' Hin. rewrite Hreg in Hin. apply filter_not_id in Hin.
  apply String.eqb_neq. exact Hin.
Qed.

(** X3. A [delete_source] that raises removes no entry from the registry:
    the source stays listed, the identifier counter and the prompts posted
    are as before, and the store holds no record that it did not hold. The
    exception is the 404 of an unknown identifier or the 500 of a Chroma
    call that raised. *)
Theorem delete_source_raises (source_id : string) (w : World) (e : exn)
    (w' : World) :
  delete_source source_id w = (inl e, w') ->
  added_sources w' = added_sources w
  /\ uuid_drawn w' = uuid_drawn w
  /\ ollama_prompts w' = ollama_prompts w
  /\ (forall r, In r (store_rows w') -> In r (store_rows w))
  /\ (e = not_found
      \/ exists msg,
           e = HTTPException 500 ("Failed to delete from vector db: " ++ msg)).
Proof.
  intros H.
  destruct (deletion_failure_frame _ _ _ _ H) as (Hreg & Hu & Hp & _).
  split; [exact Hreg|]. split; [exact Hu|]. split; [exact Hp|]. split.
  - intros r Hin. apply (delete_source_within source_id w r).
    rewrite H. exact Hin.
  - destruct (delete_source_failures _ _ _ _ H) as [(He & _)|(Hmsg & _)];
      [left; exact He | right; exact Hmsg].
Qed.

End MoreDeletion.

Section MoreClearing.
Context `{RT : Runtime}.

(** X4. [clear_all_sources] ends in one of two ways. Either it returns the
    success body, with the registry empty; or it raises the 500 "Failed to
    clear vector db: ..." of a Chroma call that raised, with the registry as
    it was, and this only when there is a collection and at least one source
    is listed. Either way the identifier counter and the prompts posted are
    as before. *)
Theorem clear_all_sources_outcome (w : World) :
  uuid_drawn (snd (clear_all_sources w)) = uuid_drawn w
  /\ ollama_prompts (snd (clear_all_sources w)) = ollama_prompts w
  /\ ((fst (clear_all_sources w) = inr cleared
       /\ added_sources (snd (clear_all_sources w)) = [])
      \/ ((exists msg,
             fst (clear_all_sources w)
             = inl (HTTPException 500 ("Failed to clear vector db: " ++ msg)))
          /\ added_sources (snd (clear_all_sources w)) = added_sources w
          /\ collection w <> None
          /\ added_sources w <> [])).
Proof.
  unfold clear_all_sources, bind, gets, raise, try_except, ret,
    set_added_sources.
  destruct (collection w) as [c|] eqn:Ec; cbn [truthy_collection].
  - pose proof (for_each_delete_frame (added_sources w) w) as Hf.
    assert (Hc : collection w <> None) by (rewrite Ec; discriminate).
    pose proof (for_each_delete_raises (added_sources w) w) as Hr.
    destruct (for_each (added_sources w)
                (fun source => collection_delete (src_name source)) w)
      as [[e|[]] w1]; cbn in *; destruct Hf as (Hreg & Hu & Hp & Ht).
    + destruct (Hr e w1 Hc eq_refl) as (Hne & msg & He). subst e.
      split; [exact Hu|]. split; [exact Hp|].
      right. split; [exists msg; reflexivity|].
      split; [exact Hreg|]. split; [discriminate | exact Hne].
    + split; [exact Hu|]. split; [exact Hp|].
      left. split; reflexivity.
  - cbn. split; [reflexivity|]. split; [reflexivity|].
    left. split; reflexivity.
Qed.

Context {HC : ChromaContract}.

Lemma collection_delete_rows (name : string) (w w' : World) :
  collection_delete name w = (inr tt, w') ->
  store_rows w' = filter (fun r => negb (row_source r =? name)) (store_rows w).
Proof.
  unfold collection_delete, store_rows.
  destruct (collection w) as [c|]; [|discriminate].
  destruct (coll_delete name c) as [[e|] c'] eqn:Ed; [discriminate|].
  intros H. inversion H; subst w'. cbn. apply (delete_rows _ _ _ Ed).
Qed.

Lemma for_each_delete_rows (l : list Source) (w w' : World) :
  for_each l (fun source => collection_delete (src_name source)) w = (inr tt, w') ->
  store_rows w' = filter (of_no_source (map src_name l)) (store_rows w).
Proof.
  revert w. induction l as [|s l IH]; intros w H.
  - cbn in H. inversion H; subst w'.
    symmetry. apply filter_all. reflexivity.
  - rewrite for_each_delete_cons in H.
    destruct (collection_delete (src_name s) w) as [[e|[]] w1] eqn:Ed;
      [discriminate|].
    rewrite (IH _ H), (collection_delete_rows _ _ _ Ed).
    clear. induction (store_rows w) as [|r rows IHr]; [reflexivity|].
    cbn [filter map]. unfold of_no_source at 2. cbn [existsb].
    destruct (row_source r =? src_name s) eqn:E; cbn [negb orb].
    + exact IHr.
    + cbn [filter]. fold (of_no_source (map src_name l) r).
      destruct (of_no_source (map src_name l) r); [f_equal|]; exact IHr.
Qed.

(** X5. When [clear_all_sources] returns, the store holds exactly the
    records it held whose source is not the name of a listed source: the
    records of every listed source are gone, and a record under a name that
    the registry did not list is still there. *)
Theorem clear_all_sources_store (w : World) (body : StatusBody) (w1 : World) :
  clear_all_sources w = (inr body, w1) ->
  store_rows w1 =
    filter (of_no_source (map src_name (added_sources w))) (store_rows w)
  /\ (forall s r, In s (added_sources w) -> In r (store_rows w1) ->
                  row_source r <> src_name s)
  /\ (forall r, In r (store_rows w) ->
                ~ In (row_source r) (map src_name (added_sources w)) ->
                In r (store_rows w1)).
Proof.
  intros H.
  assert (Hrows : store_rows w1 =
                  filter (of_no_source (map src_name (added_sources w)))
                    (store_rows w)).
  { revert H. unfold clear_all_sources, bind, gets, raise, try_except, ret,
      set_added_sources.
    destruct (collection w) as [c|] eqn:Ec; cbn [truthy_collection].
    - destruct (for_each (added_sources w)
                  (fun source => collection_delete (src_name source)) w)
        as [[e|[]] w2] eqn:Ef; cbn; [discriminate|].
      intros H. inversion H; subst w1.
      rewrite <- (for_each_delete_rows _ _ _ Ef). reflexivity.
    - cbn. intros H. inversion H; subst w1. unfold store_rows. cbn.
      rewrite Ec. reflexivity. }
  split; [exact Hrows|]. split.
  - intros s r Hs Hr Heq. rewrite Hrows in Hr. apply filter_In in Hr.
    destruct Hr as [_ Hr]. unfold of_no_source in Hr.
    apply negb_true_iff in Hr.
    assert (Hex : existsb (String.eqb (row_source r))
                    (map src_name (added_sources w)) = true).
    { apply existsb_exists. exists (src_name s).
      split; [apply in_map; exact Hs | apply String.eqb_eq; exact Heq]. }
    congruence.
  - intros r Hr Hnot. rewrite Hrows. apply filter_In. split; [exact Hr|].
    unfold of_no_source. apply negb_true_iff.
    destruct (existsb (String.eqb (row_source r))
                (map src_name (added_sources w))) eqn:E; [|reflexivity].
    apply existsb_exists in E. destruct E as (n & Hn & Heq).
    apply String.eqb_eq in Heq. subst n. contradiction.
Qed.

End MoreClearing.

Section MoreIngestion.
Context `{RT : Runtime}.

(** Every way a call of [add_texts_to_chroma] ends. *)
Lemma add_texts_to_chroma_outcomes (text source_name source_type : string)
    (w : World) :
  (exists code detail,
     add_texts_to_chroma text source_name source_type w
     = (inl (HTTPException code detail), w))
  \/ exists c c' n,
       collection w = Some c /\ n = length (split_text text)
       /\ ((exists msg,
              add_texts_to_chroma text source_name source_type w
              = (inl (Exception msg),
                 {| collection := Some c'; added_sources := added_sources w;
                    uuid_drawn := uuid_drawn w + n;
                    ollama_prompts := ollama_prompts w |})
              /\ coll_add (next_ids w n) (encode (split_text text))
                   (split_text text)
                   (metadatas_of source_name source_type (split_text text)) c
                 = (Some msg, c'))
           \/ (add_texts_to_chroma text source_name source_type w
               = (inr n,
                  {| collection := Some c';
                     added_sources :=
                       added_sources w
                       ++ [{| src_id := uuid4 (uuid_drawn w + n);
                              src_name := source_name;
                              src_type := source_type |}];
                     uuid_drawn := S (uuid_drawn w + n);
                     ollama_prompts := ollama_prompts w |})
               /\ coll_add (next_ids w n) (encode (split_text text))
                    (split_text text)
                    (metadatas_of source_name source_type (split_text text)) c
                  = (None, c'))).
Proof.
  destruct (collection w) as [c|] eqn:Hc.
  - destruct (PyStr.truthy (PyStr.strip text)) eqn:Ht.
    + destruct (list_eq_dec string_dec (split_text text) []) as [Es|Hne].
      * left. exists 400, "Text couldn't be chunked.".
        apply add_texts_to_chroma_unchunkable with (c := c);
          [exact Hc | | exact Es].
        destruct (PyStr.all_space text) eqn:Ea; [|reflexivity].
        apply strip_falsy_iff in Ea. congruence.
      * right.
        pose proof (add_texts_to_chroma_run text source_name source_type
                      w c Hc Ht Hne) as Hrun.
        cbv zeta in Hrun.
        destruct (coll_add (next_ids w (length (split_text text)))
                    (encode (split_text text)) (split_text text)
                    (metadatas_of source_name source_type (split_text text)) c)
          as [[msg|] c'] eqn:Eadd.
        -- exists c, c', (length (split_text text)).
           split; [reflexivity|]. split; [reflexivity|].
           left. exists msg. split; [exact Hrun | exact Eadd].
        -- exists c, c', (length (split_text text)).
           split; [reflexivity|]. split; [reflexivity|].
           right. split; [exact Hrun | exact Eadd].
    + left. exists 400, "No extractable text found.".
      unfold add_texts_to_chroma. run_py.
      rewrite Hc. simpl. rewrite Ht. reflexivity.
  - left. exists 500, "Chroma DB collection is not initialized.".
    unfold add_texts_to_chroma. run_py. rewrite Hc. reflexivity.
Qed.

Context {HC : ChromaContract}.

(** X6. A call of [add_texts_to_chroma] that raises records no source: the
    registry and the prompts posted are as before. When what it raises is an
    HTTPException - no collection, blank text, no chunk - the whole world is
    as before; otherwise it is the exception of Chroma's [add], and the store
    then holds no record that was not there before or is not a record of this
    very source name. *)
Theorem add_texts_to_chroma_raises (text source_name source_type : string)
    (w : World) (e : exn) (w' : World) :
  add_texts_to_chroma text source_name source_type w = (inl e, w') ->
  added_sources w' = added_sources w
  /\ ollama_prompts w' = ollama_prompts w
  /\ uuid_drawn w <= uuid_drawn w'
  /\ ((exists code detail, e = HTTPException code detail) -> w' = w)
  /\ ((exists code detail, e = HTTPException code detail)
      \/ exists msg, e = Exception msg)
  /\ forall r, In r (store_rows w') ->
       In r (store_rows w) \/ row_source r = source_name.
Proof.
  intros H.
  assert (Hin : forall r, In r (store_rows w') ->
                  In r (store_rows w) \/ row_source r = source_name).
  { intros r Hr.
    apply (add_texts_to_chroma_within text source_name source_type w r).
    rewrite H. exact Hr. }
  destruct (add_texts_to_chroma_outcomes text source_name source_type w)
    as [(code & detail & E)|(c & c' & n & Hc & Hn & [(msg & E & _)|(E & _)])];
    rewrite E in H; inversion H; subst; cbn.
  - split; [reflexivity|]. split; [reflexivity|]. split; [lia|].
    split; [reflexivity|]. split; [left; eauto | exact Hin].
  - split; [reflexivity|]. split; [reflexivity|]. split; [lia|].
    split; [intros (code & detail & Hx); discriminate|].
    split; [right; eauto | exact Hin].
Qed.

(** X7. Ingestion undone by deletion. Let [add_texts_to_chroma] return in a
    world whose store has no record under the source name, with identifiers
    that are unused - those of the chunks in the store, that of the source in
    the registry. When [delete_source] then returns for the new source, the
    registry and the records of the store are what they were before the
    ingestion. *)
Theorem ingest_then_delete (text source_name source_type : string)
    (w : World) (n : nat) (w1 : World) (body : StatusBody) (w2 : World) :
  no_rows_of source_name w ->
  fresh_ids (next_ids w n) (store_rows w) = true ->
  (forall s, In s (added_sources w) -> src_id s <> uuid4 (uuid_drawn w + n)) ->
  add_texts_to_chroma text source_name source_type w = (inr n, w1) ->
  delete_source (uuid4 (uuid_drawn w + n)) w1 = (inr body, w2) ->
  added_sources w2 = added_sources w
  /\ store_rows w2 = store_rows w
  /\ body = deleted source_name.
Proof.
  intros Hnone Hfresh Hid Hadd Hdel.
  destruct (add_texts_to_chroma_registry _ _ _ _ _ _ Hadd)
    as (Hn & _ & Hreg & c & c' & Hc & Hc' & Eadd).
  set (new := {| src_id := uuid4 (uuid_drawn w + n); src_name := source_name;
                 src_type := source_type |}) in *.
  assert (Hfind : find (fun s => src_id s =? uuid4 (uuid_drawn w + n))
                    (added_sources w1) = Some new).
  { rewrite Hreg. clear - Hid.
    induction (added_sources w) as [|a l IH]; cbn.
    - rewrite String.eqb_refl. reflexivity.
    - assert (Ha : (src_id a =? uuid4 (uuid_drawn w + n)) = false).
      { apply String.eqb_neq. apply Hid. left. reflexivity. }
      rewrite Ha. apply IH. intros s Hs. apply Hid. right. exact Hs. }
  destruct (delete_source_returns _ _ _ _ Hdel)
    as (s & Hf & Hbody & Hreg2 & _).
  rewrite Hfind in Hf. inversion Hf; subst s. clear Hf.
  split.
  { rewrite Hreg2, Hreg, filter_app. cbn. rewrite String.eqb_refl. cbn.
    rewrite app_nil_r. apply filter_all. intros s Hs.
    apply negb_true_iff. apply String.eqb_neq. apply Hid. exact Hs. }
  split; [|exact Hbody].
  rewrite (delete_source_store _ _ _ _ _ Hdel Hfind). cbn [src_name new].
  assert (Hrows : store_rows w1
                  = store_rows w
                    ++ rows_of (next_ids w n) (encode (split_text text))
                         (split_text text)
                         (metadatas_of source_name source_type (split_text text))).
  { unfold store_rows in *. rewrite Hc in *. rewrite Hc'.
    apply (add_rows _ _ _ _ _ _ Hfresh). rewrite Hn at 1. rewrite <- Hn.
    exact Eadd. }
  rewrite Hrows, filter_app.
  rewrite (filter_all _ (store_rows w)).
  - rewrite filter_none; [apply app_nil_r|].
    intros r Hr. apply rows_of_metadata in Hr. apply metadatas_of_in in Hr.
    apply negb_false_iff. apply String.eqb_eq. unfold row_source.
    rewrite Hr. reflexivity.
  - intros r Hr. apply negb_true_iff. apply String.eqb_neq.
    apply Hnone. exact Hr.
Qed.

(** X8. No merging of equal names. When two calls of [add_texts_to_chroma]
    for the same source name return one after the other, the registry ends
    with two entries of that name, in the order of the calls, under the
    identifiers of two different draws. *)
Theorem ingest_same_name_twice (text1 text2 source_name type1 type2 : string)
    (w : World) (n1 : nat) (w1 : World) (n2 : nat) (w2 : World) :
  add_texts_to_chroma text1 source_name type1 w = (inr n1, w1) ->
  add_texts_to_chroma text2 source_name type2 w1 = (inr n2, w2) ->
  exists k1 k2,
    k1 < k2
    /\ added_sources w2 =
         added_sources w
         ++ [{| src_id := uuid4 k1; src_name := source_name; src_type := type1 |};
             {| src_id := uuid4 k2; src_name := source_name; src_type := type2 |}].
Proof.
  intros H1 H2.
  destruct (add_texts_to_chroma_registry _ _ _ _ _ _ H1) as (_ & _ & R1 & _).
  destruct (add_texts_to_chroma_registry _ _ _ _ _ _ H2) as (_ & _ & R2 & _).
  assert (Hu : uuid_drawn w1 = S (uuid_drawn w + n1)).
  { destruct (add_texts_to_chroma_outcomes text1 source_name type1 w)
      as [(code & detail & E)|(c & c' & n & _ & _ & [(msg & E & _)|(E & _)])];
      rewrite E in H1; inversion H1; subst; reflexivity. }
  exists (uuid_drawn w + n1), (uuid_drawn w1 + n2).
  split; [lia|].
  rewrite R2, R1, <- app_assoc. reflexivity.
Qed.

End MoreIngestion.

Section MoreChat.
Context `{RT : Runtime}.

(** With a collection whose query raises, [chat] raises 500 with the text of
    that exception and the world is as it was. *)
Lemma chat_query_raises (req : ChatRequest) (w : World) (c : Coll) (msg : string) :
  collection w = Some c ->
  coll_query (encode [message req]) 5 c = inl msg ->
  chat req w = (inl (HTTPException 500 msg), w).
Proof.
  intros Hc Hq.
  unfold chat, bind, gets, try_except, raise, collection_query.
  rewrite Hc. cbn. rewrite Hc, Hq. reflexivity.
Qed.

Lemma chat_no_collection (req : ChatRequest) (w : World) :
  collection w = None -> chat req w = (inl not_initialized, w).
Proof.
  intros Hc. unfold chat, bind, gets, raise. rewrite Hc. reflexivity.
Qed.

(** X9. [chat] only reads the registry and the store: after it, whatever
    its outcome, the collection, the records of the store, the registry and
    the identifier counter are as before, and at most one prompt has been
    posted. *)
Theorem chat_reads_only (req : ChatRequest) (w : World) :
  collection (snd (chat req w)) = collection w
  /\ store_rows (snd (chat req w)) = store_rows w
  /\ added_sources (snd (chat req w)) = added_sources w
  /\ uuid_drawn (snd (chat req w)) = uuid_drawn w
  /\ (ollama_prompts (snd (chat req w)) = ollama_prompts w
      \/ exists prompt,
           ollama_prompts (snd (chat req w)) = ollama_prompts w ++ [prompt]).
Proof.
  destruct (chat_frame req w) as (Hc & Hreg & Hu).
  split; [exact Hc|]. split; [unfold store_rows; rewrite Hc; reflexivity|].
  split; [exact Hreg|]. split; [exact Hu|].
  destruct (collection w) as [c|] eqn:Ec.
  - destruct (coll_query (encode [message req]) 5 c) as [msg|results] eqn:Eq.
    + left. rewrite (chat_query_raises req w c msg Ec Eq). reflexivity.
    + right. rewrite (chat_run req w c results Ec Eq). cbn. eauto.
  - left. rewrite (chat_no_collection req w Ec). reflexivity.
Qed.

(** X10. [chat] raises nothing but an HTTPException, in one of three ways:
    the 500 of the missing collection; the 500 that carries the text of the
    exception the store's query raised; or, once the prompt is posted, the
    503 of a failed request to Ollama or the 500 of any other failure of the
    reply. In the first two ways the world is as it was and nothing has been
    posted. *)
Theorem chat_raises (req : ChatRequest) (w : World) (e : exn) (w' : World) :
  chat req w = (inl e, w') ->
  (collection w = None /\ e = not_initialized /\ w' = w)
  \/ (exists c msg,
        collection w = Some c
        /\ coll_query (encode [message req]) 5 c = inl msg
        /\ e = HTTPException 500 msg /\ w' = w)
  \/ (exists prompt msg,
        ollama_prompts w' = ollama_prompts w ++ [prompt]
        /\ ((ollama_generate (length (ollama_prompts w)) prompt
             = OllamaRequestError msg
             /\ e = HTTPException 503
                      ("Failed to connect to local Ollama (ensure it is running on port 11434): "
                       ++ msg))
            \/ (ollama_generate (length (ollama_prompts w)) prompt
                = OllamaOtherError msg
                /\ e = HTTPException 500 msg))).
Proof.
  intros H.
  destruct (collection w) as [c|] eqn:Ec.
  - destruct (coll_query (encode [message req]) 5 c) as [msg|results] eqn:Eq.
    + right. left. rewrite (chat_query_raises req w c msg Ec Eq) in H.
      inversion H; subst. exists c, msg. auto.
    + right. right. rewrite (chat_run req w c results Ec Eq) in H.
      cbv zeta in H.
      exists (prompt_of (PyStr.join separator (doc_list_of results)) (message req)).
      destruct (ollama_generate (length (ollama_prompts w))
                  (prompt_of (PyStr.join separator (doc_list_of results))
                     (message req))) as [msg|msg|[r|]] eqn:Eg;
        inversion H; subst; exists msg; cbn; auto.
  - left. rewrite (chat_no_collection req w Ec) in H. inversion H; subst. auto.
Qed.

End MoreChat.

(** * The text that [scrape_url] ingests *)

Section Stripping.

Lemma rstrip_cons_ink (c : ascii) (r : string) :
  PyStr.isspace c = false ->
  PyStr.rstrip (String c r) = String c (PyStr.rstrip r).
Proof.
  intros Hc. cbn [PyStr.rstrip]. rewrite Hc.
  destruct (PyStr.rstrip r); reflexivity.
Qed.

Lemma rstrip_idempotent (s : string) :
  PyStr.rstrip (PyStr.rstrip s) = PyStr.rstrip s.
Proof.
  induction s as [|c r IH]; [reflexivity|].
  cbn [PyStr.rstrip].
  destruct (PyStr.rstrip r) as [|c' r'] eqn:E.
  - destruct (PyStr.isspace c) eqn:Ec; [reflexivity|].
    cbn. rewrite Ec. reflexivity.
  - cbn [PyStr.rstrip]. cbn [PyStr.rstrip] in IH.
    rewrite IH. reflexivity.
Qed.

Lemma lstrip_shape (s : string) :
  PyStr.lstrip s = ""
  \/ exists c r, PyStr.lstrip s = String c r /\ PyStr.isspace c = false.
Proof.
  induction s as [|c r IH]; [left; reflexivity|].
  cbn. destruct (PyStr.isspace c) eqn:Ec; [exact IH|].
  right. exists c, r. split; [reflexivity | exact Ec].
Qed.

Lemma strip_shape (s : string) :
  PyStr.strip s = ""
  \/ exists c r, PyStr.strip s = String c r /\ PyStr.isspace c = false.
Proof.
  unfold PyStr.strip.
  destruct (lstrip_shape s) as [E|(c & r & E & Hc)]; rewrite E.
  - left. reflexivity.
  - right. exists c, (PyStr.rstrip r).
    split; [apply rstrip_cons_ink; exact Hc | exact Hc].
Qed.

(** [strip] of a stripped string changes nothing. *)
Lemma strip_idempotent (s : string) : PyStr.strip (PyStr.strip s) = PyStr.strip s.
Proof.
  destruct (strip_shape s) as [E|(c & r & E & Hc)].
  - rewrite E. reflexivity.
  - unfold PyStr.strip at 1. rewrite E. cbn [PyStr.lstrip]. rewrite Hc.
    rewrite <- E. unfold PyStr.strip. apply rstrip_idempotent.
Qed.

Lemma rstrip_head (c : ascii) (r : string) :
  PyStr.rstrip (String c r) = ""
  \/ exists t, PyStr.rstrip (String c r) = String c t.
Proof.
  cbn [PyStr.rstrip].
  destruct (PyStr.rstrip r) as [|c' r'].
  - destruct (PyStr.isspace c); [left; reflexivity | right; eauto].
  - right. eauto.
Qed.

Lemma every_lstrip (P : ascii -> bool) (s : string) :
  every P s = true -> every P (PyStr.lstrip s) = true.
Proof.
  induction s as [|c r IH]; cbn; [trivial|].
  intros H. destruct (PyStr.isspace c); [|exact H].
  apply andb_prop in H. apply IH. apply H.
Qed.

Lemma every_rstrip (P : ascii -> bool) (s : string) :
  every P s = true -> every P (PyStr.rstrip s) = true.
Proof.
  induction s as [|c r IH]; cbn; [trivial|].
  intros H. apply andb_prop in H. destruct H as [Hc Hr].
  specialize (IH Hr).
  destruct (PyStr.rstrip r) as [|c' r'].
  - destruct (PyStr.isspace c); [reflexivity|]. cbn. rewrite Hc. reflexivity.
  - cbn [every]. rewrite Hc. exact IH.
Qed.

Lemma every_strip (P : ascii -> bool) (s : string) :
  every P s = true -> every P (PyStr.strip s) = true.
Proof.
  intros H. unfold PyStr.strip. apply every_rstrip, every_lstrip, H.
Qed.

Lemma no_linebreak_every (s : string) :
  no_linebreak s = every (fun c => negb (PyText.is_linebreak c)) s.
Proof. induction s as [|c r IH]; cbn; [reflexivity|]. rewrite IH. reflexivity. Qed.

Lemma all_space_every (s : string) : PyStr.all_space s = every PyStr.isspace s.
Proof. induction s as [|c r IH]; cbn; [reflexivity|]. rewrite IH. reflexivity. Qed.

Lemma no_double_space_tail (c : ascii) (r : string) :
  no_double_space (String c r) = true -> no_double_space r = true.
Proof. cbn [no_double_space]. intros H. apply andb_prop in H. apply H. Qed.

Lemma no_double_space_lstrip (s : string) :
  no_double_space s = true -> no_double_space (PyStr.lstrip s) = true.
Proof.
  induction s as [|c r IH]; [trivial|].
  intros H. cbn [PyStr.lstrip]. destruct (PyStr.isspace c); [|exact H].
  apply IH. eapply no_double_space_tail. exact H.
Qed.

Lemma no_double_space_rstrip (s : string) :
  no_double_space s = true -> no_double_space (PyStr.rstrip s) = true.
Proof.
  induction s as [|c r IH]; [trivial|].
  intros H. pose proof (no_double_space_tail _ _ H) as Hr. specialize (IH Hr).
  cbn [PyStr.rstrip].
  destruct (PyStr.rstrip r) as [|c' r'] eqn:E.
  - destruct (PyStr.isspace c); reflexivity.
  - destruct r as [|c2 r2]; [discriminate|].
    destruct (rstrip_head c2 r2) as [E'|(t & E')]; rewrite E' in E;
      [discriminate|].
    inversion E; subst c' r'.
    cbn [no_double_space] in H |- *. apply andb_prop in H.
    destruct H as [Hh _]. rewrite Hh. exact IH.
Qed.

Lemma no_double_space_strip (s : string) :
  no_double_space s = true -> no_double_space (PyStr.strip s) = true.
Proof.
  intros H. unfold PyStr.strip.
  apply no_double_space_rstrip, no_double_space_lstrip, H.
Qed.

End Stripping.

Section Splitting.

(** Induction on a string that also gives the case of the string two
    characters on. *)
Lemma string_ind_two (P : string -> Prop) :
  P "" ->
  (forall c r, P r -> (forall c2 r2, r = String c2 r2 -> P r2) -> P (String c r)) ->
  forall s, P s.
Proof.
  intros H0 Hstep s.
  assert (H : P s /\ forall c r, s = String c r -> P r).
  { induction s as [|c r [IH1 IH2]].
    - split; [exact H0 | discriminate].
    - split.
      + apply Hstep; assumption.
      + intros c' r' E. inversion E; subst. exact IH1. }
  apply H.
Qed.

Lemma Forall_push (Q : string -> Prop) (c : ascii) (l : list string) :
  Q (String c "") ->
  (forall x, Q x -> Q (String c x)) ->
  Forall Q l -> Forall Q (PyText.push c l).
Proof.
  intros H1 H2 Hl. destruct Hl as [|x rest Hx Hrest]; cbn.
  - constructor; [exact H1 | constructor].
  - constructor; [apply H2; exact Hx | exact Hrest].
Qed.

(** The characters of a line of [splitlines] are characters of the text. *)
Lemma every_splitlines (P : ascii -> bool) (s : string) :
  every P s = true ->
  Forall (fun l => every P l = true) (PyText.splitlines s).
Proof.
  induction s as [|c r IH IH2] using string_ind_two; intros H.
  - constructor.
  - cbn [every] in H. apply andb_prop in H. destruct H as [Hc Hr].
    cbn [PyText.splitlines].
    destruct (PyText.is_linebreak c).
    + destruct r as [|c2 r2]; [repeat constructor|].
      destruct (PyText.is_cr c && PyText.is_lf c2).
      * constructor; [reflexivity|]. apply (IH2 c2 r2 eq_refl).
        cbn [every] in Hr. apply andb_prop in Hr. apply Hr.
      * constructor; [reflexivity | apply IH; exact Hr].
    + apply Forall_push; [cbn; rewrite Hc; reflexivity | | apply IH; exact Hr].
      intros x Hx. cbn. rewrite Hc. exact Hx.
Qed.

(** No line of [splitlines] holds a line break. *)
Lemma splitlines_no_linebreak (s : string) :
  Forall (fun l => no_linebreak l = true) (PyText.splitlines s).
Proof.
  induction s as [|c r IH IH2] using string_ind_two.
  - constructor.
  - cbn [PyText.splitlines].
    destruct (PyText.is_linebreak c) eqn:Ec.
    + destruct r as [|c2 r2]; [repeat constructor|].
      destruct (PyText.is_cr c && PyText.is_lf c2).
      * constructor; [reflexivity | apply (IH2 c2 r2 eq_refl)].
      * constructor; [reflexivity | exact IH].
    + apply Forall_push; [cbn; rewrite Ec; reflexivity | | exact IH].
      intros x Hx. cbn. rewrite Ec. exact Hx.
Qed.

(** The characters of a piece of [split_double_space] are characters of the
    string. *)
Lemma every_split_double_space (P : ascii -> bool) (s : string) :
  every P s = true ->
  Forall (fun l => every P l = true) (PyText.split_double_space s).
Proof.
  induction s as [|c r IH IH2] using string_ind_two; intros H.
  - repeat constructor.
  - cbn [every] in H. apply andb_prop in H. destruct H as [Hc Hr].
    cbn [PyText.split_double_space].
    destruct r as [|c2 r2].
    + constructor; [cbn; rewrite Hc; reflexivity | constructor].
    + destruct (PyText.is_space c && PyText.is_space c2).
      * constructor; [reflexivity|]. apply (IH2 c2 r2 eq_refl).
        cbn [every] in Hr. apply andb_prop in Hr. apply Hr.
      * apply Forall_push; [cbn; rewrite Hc; reflexivity | | apply IH; exact Hr].
        intros x Hx. cbn. rewrite Hc. exact Hx.
Qed.

(** The first piece of [split_double_space] is empty or starts as the string
    does. *)
Lemma split_double_space_head (s : string) :
  exists p rest,
    PyText.split_double_space s = p :: rest
    /\ (p = "" \/ exists a r t, s = String a r /\ p = String a t).
Proof.
  destruct s as [|c r]; [exists "", []; auto|].
  cbn [PyText.split_double_space].
  destruct r as [|c2 r2].
  - exists (String c ""), []. split; [reflexivity|]. right. eauto.
  - destruct (PyText.is_space c && PyText.is_space c2).
    + eexists _, _. split; [reflexivity | left; reflexivity].
    + destruct (PyText.split_double_space (String c2 r2)) as [|x rest];
        cbn; eexists _, _; (split; [reflexivity|]); right; eauto.
Qed.

(** No piece of [split_double_space] holds a pair of spaces. *)
Lemma split_double_space_pieces (s : string) :
  Forall (fun l => no_double_space l = true) (PyText.split_double_space s).
Proof.
  induction s as [|c r IH IH2] using string_ind_two.
  - repeat constructor.
  - cbn [PyText.split_double_space].
    destruct r as [|c2 r2]; [repeat constructor|].
    destruct (PyText.is_space c && PyText.is_space c2) eqn:E.
    + constructor; [reflexivity | apply (IH2 c2 r2 eq_refl)].
    + destruct (split_double_space_head (String c2 r2))
        as (p & rest & Ep & Hp).
      rewrite Ep in IH |- *. cbn [PyText.push].
      inversion IH as [|? ? Hx Hrest]; subst.
      constructor; [|exact Hrest].
      destruct Hp as [Hp|(a & r & t & Hs & Hp)]; subst p; [reflexivity|].
      inversion Hs; subst a r.
      cbn [no_double_space] in Hx |- *. rewrite E. exact Hx.
Qed.

(** A string without a pair of spaces is its own single piece. *)
Lemma split_double_space_clean (s : string) :
  no_double_space s = true -> PyText.split_double_space s = [s].
Proof.
  induction s as [|c r IH]; [reflexivity|].
  intros H. cbn [PyText.split_double_space].
  destruct r as [|c2 r2]; [reflexivity|].
  cbn [no_double_space] in H. apply andb_prop in H. destruct H as [Hh Hr].
  apply negb_true_iff in Hh. rewrite Hh.
  rewrite IH; [reflexivity|]. exact Hr.
Qed.

Lemma splitlines_line (c rest : string) :
  no_linebreak c = true ->
  PyText.splitlines (c ++ PyStr.LF ++ rest) = c :: PyText.splitlines rest.
Proof.
  induction c as [|a c IH]; intros H.
  - cbn. destruct rest; reflexivity.
  - cbn [no_linebreak] in H. apply andb_prop in H. destruct H as [Ha Hc].
    apply negb_true_iff in Ha.
    cbn [append PyText.splitlines]. rewrite Ha.
    change (PyText.splitlines (c ++ PyStr.LF ++ rest))
      with (PyText.splitlines (c ++ PyStr.LF ++ rest)%string).
    rewrite (IH Hc). reflexivity.
Qed.

Lemma splitlines_single (c : string) :
  no_linebreak c = true -> PyStr.truthy c = true -> PyText.splitlines c = [c].
Proof.
  induction c as [|a c IH]; intros H Ht; [discriminate|].
  cbn [no_linebreak] in H. apply andb_prop in H. destruct H as [Ha Hc].
  apply negb_true_iff in Ha. cbn [PyText.splitlines]. rewrite Ha.
  destruct c as [|a2 c2]; [reflexivity|].
  rewrite (IH Hc eq_refl). reflexivity.
Qed.

(** Lines joined with line feeds and split again are the lines. *)
Lemma splitlines_join (cs : list string) :
  Forall (fun c => no_linebreak c = true /\ PyStr.truthy c = true) cs ->
  PyText.splitlines (PyStr.join PyStr.LF cs) = cs.
Proof.
  induction cs as [|c cs IH]; intros H; [reflexivity|].
  inversion H as [|? ? [Hc Ht] Hrest]; subst.
  destruct cs as [|c2 cs2].
  - cbn. apply splitlines_single; assumption.
  - rewrite join_cons. rewrite splitlines_line; [|exact Hc].
    rewrite (IH Hrest). reflexivity.
Qed.

End Splitting.

Section CleanText.

Lemma rstrip_all_space_eq (s : string) :
  PyStr.all_space (PyStr.rstrip s) = PyStr.all_space s.
Proof.
  induction s as [|c r IH]; [reflexivity|].
  cbn [PyStr.rstrip PyStr.all_space].
  destruct (PyStr.rstrip r) as [|c' r'] eqn:E.
  - rewrite (rstrip_empty r E).
    destruct (PyStr.isspace c) eqn:Ec; cbn; rewrite ?Ec; reflexivity.
  - cbn [PyStr.all_space] in IH |- *. rewrite IH. reflexivity.
Qed.

Lemma strip_all_space_eq (s : string) :
  PyStr.all_space (PyStr.strip s) = PyStr.all_space s.
Proof.
  unfold PyStr.strip. rewrite rstrip_all_space_eq. apply lstrip_all_space.
Qed.

Lemma linebreak_is_space (c : ascii) :
  PyText.is_linebreak c = true -> PyStr.isspace c = true.
Proof.
  unfold PyText.is_linebreak, PyStr.isspace.
  generalize (nat_of_ascii c). intros n H.
  repeat match goal with
         | H : (_ || _)%bool = true |- _ => apply orb_prop in H; destruct H as [H|H]
         | H : (_ && _)%bool = true |- _ => apply andb_prop in H; destruct H
         | H : (_ <=? _)%nat = true |- _ => apply Nat.leb_le in H
         | H : (_ =? _)%nat = true |- _ => apply Nat.eqb_eq in H
         end.
  - assert (E1 : (9 <=? n)%nat = true) by (apply Nat.leb_le; lia).
    assert (E2 : (n <=? 13)%nat = true) by (apply Nat.leb_le; lia).
    rewrite E1, E2. reflexivity.
  - assert (E1 : (28 <=? n)%nat = true) by (apply Nat.leb_le; lia).
    assert (E2 : (n <=? 31)%nat = true) by (apply Nat.leb_le; lia).
    rewrite E1, E2. cbn [andb]. rewrite orb_true_r. reflexivity.
  - subst n. reflexivity.
Qed.

Lemma single_space_is_space (c : ascii) :
  PyText.is_space c = true -> PyStr.isspace c = true.
Proof.
  unfold PyText.is_space, PyStr.isspace. intros H.
  apply Nat.eqb_eq in H. rewrite H. reflexivity.
Qed.

(** A text is white space when its lines are. *)
Lemma splitlines_all_space (s : string) :
  Forall (fun l => PyStr.all_space l = true) (PyText.splitlines s) ->
  PyStr.all_space s = true.
Proof.
  induction s as [|c r IH IH2] using string_ind_two; intros H; [reflexivity|].
  cbn [PyText.splitlines] in H. cbn [PyStr.all_space].
  destruct (PyText.is_linebreak c) eqn:Ec.
  - rewrite (linebreak_is_space c Ec). cbn [andb].
    destruct r as [|c2 r2]; [reflexivity|].
    destruct (PyText.is_cr c && PyText.is_lf c2) eqn:E.
    + inversion H as [|? ? _ Hrest]; subst.
      cbn [PyStr.all_space]. rewrite (IH2 c2 r2 eq_refl Hrest).
      apply andb_prop in E. destruct E as [_ E].
      assert (Hl : PyText.is_linebreak c2 = true).
      { unfold PyText.is_lf in E. apply Nat.eqb_eq in E.
        unfold PyText.is_linebreak. rewrite E. reflexivity. }
      rewrite (linebreak_is_space c2 Hl). reflexivity.
    + inversion H as [|? ? _ Hrest]; subst. apply IH. exact Hrest.
  - destruct (PyText.splitlines r) as [|x rest] eqn:Er; cbn [PyText.push] in H.
    + inversion H as [|? ? Hx _]; subst. cbn in Hx.
      apply andb_prop in Hx. destruct Hx as [Hc _]. rewrite Hc.
      apply IH. constructor.
    + inversion H as [|? ? Hx Hrest]; subst. cbn [PyStr.all_space] in Hx.
      apply andb_prop in Hx. destruct Hx as [Hc Hx]. rewrite Hc.
      apply IH. constructor; assumption.
Qed.

(** A string is white space when its pieces are. *)
Lemma split_double_space_all_space (s : string) :
  Forall (fun l => PyStr.all_space l = true) (PyText.split_double_space s) ->
  PyStr.all_space s = true.
Proof.
  induction s as [|c r IH IH2] using string_ind_two; intros H; [reflexivity|].
  cbn [PyText.split_double_space] in H. cbn [PyStr.all_space].
  destruct r as [|c2 r2].
  - inversion H as [|? ? Hx _]; subst. exact Hx.
  - destruct (PyText.is_space c && PyText.is_space c2) eqn:E.
    + apply andb_prop in E. destruct E as [E1 E2].
      inversion H as [|? ? _ Hrest]; subst.
      cbn [PyStr.all_space].
      rewrite (single_space_is_space c E1), (single_space_is_space c2 E2).
      apply (IH2 c2 r2 eq_refl Hrest).
    + destruct (PyText.split_double_space (String c2 r2)) as [|x rest] eqn:Er;
        cbn [PyText.push] in H.
      * inversion H as [|? ? Hx _]; subst. cbn in Hx.
        apply andb_prop in Hx. destruct Hx as [Hc _]. rewrite Hc.
        apply IH. constructor.
      * inversion H as [|? ? Hx Hrest]; subst. cbn [PyStr.all_space] in Hx.
        apply andb_prop in Hx. destruct Hx as [Hc Hx]. rewrite Hc.
        apply IH. constructor; assumption.
Qed.

Lemma truthy_false_empty (s : string) : PyStr.truthy s = false -> s = "".
Proof. destruct s; [reflexivity | discriminate]. Qed.

Lemma in_clean_chunks (text x : string) :
  In x (clean_chunks text) <->
  PyStr.truthy x = true
  /\ exists l piece,
       In l (PyText.splitlines text)
       /\ In piece (PyText.split_double_space (PyStr.strip l))
       /\ x = PyStr.strip piece.
Proof.
  unfold clean_chunks. rewrite filter_In, in_flat_map. split.
  - intros [(line & Hline & Hx) Ht]. split; [exact Ht|].
    apply in_map_iff in Hline. destruct Hline as (l & El & Hl). subst line.
    apply in_map_iff in Hx. destruct Hx as (piece & Ep & Hp).
    exists l, piece. auto.
  - intros [Ht (l & piece & Hl & Hp & Ex)]. split; [|exact Ht].
    exists (PyStr.strip l). split; [apply in_map; exact Hl|].
    subst x. apply in_map. exact Hp.
Qed.

Lemma join_truthy (sep c : string) (cs : list string) :
  PyStr.truthy c = true -> PyStr.truthy (PyStr.join sep (c :: cs)) = true.
Proof.
  intros H. destruct c as [|a c]; [discriminate|].
  destruct cs; reflexivity.
Qed.

End CleanText.

Section CleanTextTheorems.

(** What is kept of a piece of a line is a clean chunk. *)
Lemma strip_piece_clean (text l piece : string) :
  In l (PyText.splitlines text) ->
  In piece (PyText.split_double_space (PyStr.strip l)) ->
  PyStr.truthy (PyStr.strip piece) = true ->
  clean_chunk (PyStr.strip piece).
Proof.
  intros Hl Hp Ht.
  split; [exact Ht|]. split; [apply strip_idempotent|].
  assert (Hline : no_linebreak l = true).
  { pose proof (splitlines_no_linebreak text) as H.
    rewrite Forall_forall in H. apply H. exact Hl. }
  split.
  - rewrite no_linebreak_every in *.
    apply every_strip.
    pose proof (every_split_double_space _ _ (every_strip _ _ Hline)) as H.
    rewrite Forall_forall in H. apply H. exact Hp.
  - apply no_double_space_strip.
    pose proof (split_double_space_pieces (PyStr.strip l)) as H.
    rewrite Forall_forall in H. apply H. exact Hp.
Qed.

(** X11. The chunks that [scrape_url] joins are clean: none is empty, none
    has white space at either end, none holds a line break and none holds a
    pair of spaces. *)
Theorem clean_chunks_clean (text : string) :
  Forall clean_chunk (clean_chunks text).
Proof.
  apply Forall_forall. intros x Hx.
  apply in_clean_chunks in Hx.
  destruct Hx as (Ht & l & piece & Hl & Hp & Ex). subst x.
  eapply strip_piece_clean; eassumption.
Qed.

(** Clean chunks joined with line feeds come back as they are. *)
Lemma clean_chunks_join (cs : list string) :
  Forall clean_chunk cs -> clean_chunks (PyStr.join PyStr.LF cs) = cs.
Proof.
  intros H. unfold clean_chunks.
  rewrite splitlines_join.
  2:{ eapply Forall_impl; [|exact H]. intros c (Ht & _ & Hl & _). auto. }
  assert (Hmap : map PyStr.strip cs = cs).
  { clear - H. induction H as [|c cs (_ & Hs & _) _ IH]; [reflexivity|].
    cbn. rewrite IH. unfold stripped in Hs. rewrite Hs. reflexivity. }
  rewrite Hmap.
  assert (Hflat : flat_map (fun line : string =>
                              map PyStr.strip (PyText.split_double_space line))
                    cs = cs).
  { clear - H. induction H as [|c cs (_ & Hs & _ & Hd) _ IH]; [reflexivity|].
    cbn [flat_map]. rewrite IH, (split_double_space_clean c Hd).
    cbn. unfold stripped in Hs. rewrite Hs. reflexivity. }
  rewrite Hflat. apply filter_all.
  intros c Hc. rewrite Forall_forall in H. apply (H c Hc).
Qed.

(** X12. Cleaning a text that [scrape_url] has cleaned changes nothing: it
    gives the same chunks and the same text. *)
Theorem clean_text_idempotent (text : string) :
  clean_chunks (clean_text_of text) = clean_chunks text
  /\ clean_text_of (clean_text_of text) = clean_text_of text.
Proof.
  assert (H : clean_chunks (clean_text_of text) = clean_chunks text).
  { unfold clean_text_of at 1. apply clean_chunks_join.
    apply Forall_forall. intros x Hx. apply in_clean_chunks in Hx.
    destruct Hx as (Ht & l & piece & Hl & Hp & Ex). subst x.
    eapply strip_piece_clean; eassumption. }
  split; [exact H|]. unfold clean_text_of at 1. rewrite H. reflexivity.
Qed.

End CleanTextTheorems.

Section BlankText.

Lemma no_members_nil {A} (l : list A) : (forall x, ~ In x l) -> l = [].
Proof.
  destruct l as [|a l]; [reflexivity|].
  intros H. exfalso. apply (H a). left. reflexivity.
Qed.

Lemma clean_chunks_blank (text : string) :
  PyStr.all_space text = true -> clean_chunks text = [].
Proof.
  intros H. apply no_members_nil. intros x Hx.
  apply in_clean_chunks in Hx.
  destruct Hx as (Ht & l & piece & Hl & Hp & Ex). subst x.
  assert (Hline : PyStr.all_space l = true).
  { rewrite all_space_every in *.
    pose proof (every_splitlines _ _ H) as Hall.
    rewrite Forall_forall in Hall. apply Hall. exact Hl. }
  apply strip_empty_iff in Hline. rewrite Hline in Hp.
  destruct Hp as [Hp|[]]. subst piece. discriminate.
Qed.

Lemma clean_chunks_none (text : string) :
  clean_chunks text = [] -> PyStr.all_space text = true.
Proof.
  intros H. apply splitlines_all_space.
  apply Forall_forall. intros l Hl.
  rewrite <- strip_all_space_eq. apply split_double_space_all_space.
  apply Forall_forall. intros piece Hp.
  rewrite <- strip_all_space_eq.
  destruct (PyStr.truthy (PyStr.strip piece)) eqn:Ht.
  - assert (Hin : In (PyStr.strip piece) (clean_chunks text)).
    { apply in_clean_chunks. split; [exact Ht|]. exists l, piece. auto. }
    rewrite H in Hin. contradiction.
  - rewrite (truthy_false_empty _ Ht). reflexivity.
Qed.

(** X13. The cleaned text is empty exactly when the text is white space
    only, and the blank test of [add_texts_to_chroma] lets the cleaned text
    through exactly when the text has a character that is not white space. *)
Theorem clean_text_empty_iff (text : string) :
  (clean_text_of text = "" <-> PyStr.all_space text = true)
  /\ PyStr.truthy (PyStr.strip (clean_text_of text))
     = negb (PyStr.all_space text).
Proof.
  assert (Hiff : clean_text_of text = "" <-> PyStr.all_space text = true).
  { split.
    - intros H. apply clean_chunks_none. unfold clean_text_of in H.
      destruct (clean_chunks text) as [|c cs] eqn:E; [reflexivity|].
      assert (Hin : In c (clean_chunks text)) by (rewrite E; left; reflexivity).
      apply in_clean_chunks in Hin. destruct Hin as [Ht _].
      pose proof (join_truthy PyStr.LF c cs Ht) as Hj. rewrite H in Hj.
      discriminate.
    - intros H. unfold clean_text_of. rewrite (clean_chunks_blank text H).
      reflexivity. }
  split; [exact Hiff|].
  destruct (PyStr.all_space text) eqn:Hink; cbn [negb].
  - rewrite (proj2 Hiff eq_refl). reflexivity.
  - destruct (PyStr.truthy (PyStr.strip (clean_text_of text))) eqn:Ht;
      [reflexivity|].
    apply strip_falsy_iff in Ht.
    assert (Hb : clean_chunks (clean_text_of text) = [])
      by (apply clean_chunks_blank; exact Ht).
    assert (Hsame : clean_chunks (clean_text_of text) = clean_chunks text).
    { unfold clean_text_of at 1. apply clean_chunks_join.
      apply Forall_forall. intros x Hx. apply in_clean_chunks in Hx.
      destruct Hx as (Hx & l & piece & Hl & Hp & Ex). subst x.
      eapply strip_piece_clean; eassumption. }
    rewrite Hsame in Hb. apply clean_chunks_none in Hb. congruence.
Qed.

End BlankText.

(** * The two ingestion routes *)

Section RouteLemmas.
Context `{RT : Runtime} {EX : Extractors}.

Lemma rerouted_http (prefix : string) (e : exn) :
  exists code detail, rerouted prefix e = HTTPException code detail.
Proof. destruct e; cbn; eauto. Qed.

Lemma scrape_url_fetch_raises (url msg : string) (w : World) :
  http_get url = inl msg ->
  scrape_url url w
  = (inl (HTTPException 500 ("Failed to scrape URL: " ++ msg)), w).
Proof.
  intros H. unfold scrape_url, try_except, bind, outside. rewrite H.
  reflexivity.
Qed.

Lemma scrape_url_fetched (url html : string) (w : World) :
  http_get url = inr html ->
  scrape_url url w
  = routed "Failed to scrape URL: " (scraped url)
      (clean_text_of (soup_text html)) url "url" w.
Proof.
  intros H. unfold scrape_url, routed, try_except, bind, outside, ret, raise.
  rewrite H.
  destruct (add_texts_to_chroma (clean_text_of (soup_text html)) url "url" w)
    as [[e|n] w']; [destruct e|]; reflexivity.
Qed.

(** [upload_file] is the extraction and then the ingestion. *)
Lemma upload_file_run (filename content : string) (w : World) :
  upload_file filename content w =
    match extracted (extension filename) content with
    | inl e => (inl (rerouted "Failed to process file: " e), w)
    | inr text =>
        routed "Failed to process file: " (processed filename)
          text filename "file" w
    end.
Proof.
  unfold upload_file, extracted, extension, routed.
  set (ext := PyText.lower (snd (PosixPath.splitext filename))).
  unfold try_except, bind, outside, ret, raise.
  destruct (ext =? ".pdf").
  { destruct (pdf_pages content) as [e|pages]; [reflexivity|].
    destruct (add_texts_to_chroma (pdf_text pages) filename "file" w)
      as [[e|n] w']; [destruct e|]; reflexivity. }
  destruct (ext =? ".docx").
  { destruct (docx_paragraphs content) as [e|paragraphs]; [reflexivity|].
    destruct (add_texts_to_chroma (docx_text paragraphs) filename "file" w)
      as [[e|n] w']; [destruct e|]; reflexivity. }
  destruct (ext =? ".csv").
  { destruct (csv_rows (decode_utf8 content)) as [e|rows]; [reflexivity|].
    destruct (add_texts_to_chroma (csv_text rows) filename "file" w)
      as [[e|n] w']; [destruct e|]; reflexivity. }
  destruct ((ext =? ".txt") || (ext =? ".md")).
  { destruct (add_texts_to_chroma (decode_utf8 content) filename "file" w)
      as [[e|n] w']; [destruct e|]; reflexivity. }
  reflexivity.
Qed.

Lemma extracted_raises (ext content : string) (e : exn) :
  extracted ext content = inl e ->
  (exists msg, e = Exception msg)
  \/ (e = HTTPException 400 ("Unsupported file type: " ++ ext)
      /\ ~ In ext [".pdf"; ".docx"; ".csv"; ".txt"; ".md"]).
Proof.
  unfold extracted.
  destruct (ext =? ".pdf") eqn:E1.
  { destruct (pdf_pages content); intros H; inversion H. left. eauto. }
  destruct (ext =? ".docx") eqn:E2.
  { destruct (docx_paragraphs content); intros H; inversion H. left. eauto. }
  destruct (ext =? ".csv") eqn:E3.
  { destruct (csv_rows (decode_utf8 content)); intros H; inversion H.
    left. eauto. }
  destruct (ext =? ".txt") eqn:E4; [discriminate|].
  destruct (ext =? ".md") eqn:E5; [discriminate|].
  cbn. intros H. inversion H. right. split; [reflexivity|].
  apply String.eqb_neq in E1, E2, E3, E4, E5.
  intros [?|[?|[?|[?|[?|[]]]]]]; congruence.
Qed.

(** The registry and the prompts after an ingestion that raises. *)
Lemma ingestion_failure_frame (text source_name source_type : string)
    (w : World) (e : exn) (w' : World) :
  add_texts_to_chroma text source_name source_type w = (inl e, w') ->
  added_sources w' = added_sources w
  /\ ollama_prompts w' = ollama_prompts w
  /\ uuid_drawn w <= uuid_drawn w'.
Proof.
  intros H.
  destruct (add_texts_to_chroma_outcomes text source_name source_type w)
    as [(code & detail & E)|(c & c' & n & Hc & Hn & [(msg & E & _)|(E & _)])];
    rewrite E in H; inversion H; subst; cbn; repeat split; lia.
Qed.

Lemma blank_text_turned_down (text source_name source_type : string)
    (w : World) :
  PyStr.all_space text = true ->
  add_texts_to_chroma text source_name source_type w =
    (inl (if truthy_collection (collection w)
          then empty_content else not_initialized), w).
Proof.
  intros Hs. apply strip_falsy_iff in Hs.
  unfold add_texts_to_chroma, bind, gets, raise.
  destruct (truthy_collection (collection w)); cbn; [|reflexivity].
  rewrite Hs. reflexivity.
Qed.

Lemma routed_raises (prefix : string) (body : nat -> StatusBody)
    (text source_name source_type : string) (w : World) (e : exn) (w' : World) :
  routed prefix body text source_name source_type w = (inl e, w') ->
  exists e0,
    add_texts_to_chroma text source_name source_type w = (inl e0, w')
    /\ e = rerouted prefix e0.
Proof.
  unfold routed.
  destruct (add_texts_to_chroma text source_name source_type w) as [[e0|n] w0];
    intros H; inversion H; subst. eauto.
Qed.

Lemma routed_returns (prefix : string) (body : nat -> StatusBody)
    (text source_name source_type : string) (w : World) (b : StatusBody)
    (w' : World) :
  routed prefix body text source_name source_type w = (inr b, w') ->
  exists n,
    add_texts_to_chroma text source_name source_type w = (inr n, w')
    /\ b = body n.
Proof.
  unfold routed.
  destruct (add_texts_to_chroma text source_name source_type w) as [[e0|n] w0];
    intros H; inversion H; subst. eauto.
Qed.

(** X14. [scrape_url] raises nothing but an HTTPException, and when it
    raises, no source is recorded and nothing is posted to Ollama. When the
    fetch of the page is what raised, the exception is the 500 "Failed to
    scrape URL: ..." with the text of that exception, and the world is as it
    was. *)
Theorem scrape_url_raises (url : string) (w : World) (e : exn) (w' : World) :
  scrape_url url w = (inl e, w') ->
  (exists code detail, e = HTTPException code detail)
  /\ added_sources w' = added_sources w
  /\ ollama_prompts w' = ollama_prompts w
  /\ forall msg, http_get url = inl msg ->
       e = HTTPException 500 ("Failed to scrape URL: " ++ msg) /\ w' = w.
Proof.
  intros H.
  destruct (http_get url) as [msg|html] eqn:Eg.
  - rewrite (scrape_url_fetch_raises url msg w Eg) in H.
    inversion H; subst. split; [eauto|]. split; [reflexivity|].
    split; [reflexivity|]. intros msg' E. inversion E; subst. auto.
  - rewrite (scrape_url_fetched url html w Eg) in H.
    apply routed_raises in H. destruct H as (e0 & Hadd & He). subst e.
    destruct (ingestion_failure_frame _ _ _ _ _ _ Hadd)
      as (Hreg & Hp & _).
    split; [apply rerouted_http|]. split; [exact Hreg|]. split; [exact Hp|].
    intros msg E. discriminate.
Qed.

(** X15. When [scrape_url] returns, the page was fetched and had a
    character that is not white space; the registry has grown at its end by
    one entry whose name is the URL and whose type is "url"; and the body
    names the count of chunks, which is the number of chunks the splitter
    made of the cleaned text of the page. *)
Theorem scrape_url_returns (url : string) (w : World) (body : StatusBody)
    (w' : World) :
  scrape_url url w = (inr body, w') ->
  exists html n,
    http_get url = inr html
    /\ PyStr.all_space (soup_text html) = false
    /\ n = length (split_text (clean_text_of (soup_text html)))
    /\ 1 <= n
    /\ body = scraped url n
    /\ added_sources w' =
         added_sources w
         ++ [{| src_id := uuid4 (uuid_drawn w + n); src_name := url;
                src_type := "url" |}].
Proof.
  intros H.
  destruct (http_get url) as [msg|html] eqn:Eg.
  - rewrite (scrape_url_fetch_raises url msg w Eg) in H. discriminate.
  - rewrite (scrape_url_fetched url html w Eg) in H.
    apply routed_returns in H. destruct H as (n & Hadd & Hb).
    destruct (add_texts_to_chroma_registry _ _ _ _ _ _ Hadd)
      as (Hn & Hne & Hreg & _).
    exists html, n. split; [reflexivity|]. split.
    { destruct (PyStr.all_space (soup_text html)) eqn:Eb; [|reflexivity].
      unfold clean_text_of in Hadd. rewrite (clean_chunks_blank _ Eb) in Hadd.
      rewrite (blank_text_turned_down _ url "url" w) in Hadd;
        [discriminate | reflexivity]. }
    split; [exact Hn|]. split.
    { rewrite Hn. destruct (split_text _); [contradiction | cbn; lia]. }
    split; [exact Hb | exact Hreg].
Qed.

(** X16. A page that was fetched and shows white space only is turned down
    by [scrape_url] with the 400 "No extractable text found." - with the 500
    of the missing collection when there is none - and the world is as it
    was. *)
Theorem scrape_url_blank_page (url html : string) (w : World) :
  http_get url = inr html ->
  PyStr.all_space (soup_text html) = true ->
  scrape_url url w =
    (inl (if truthy_collection (collection w)
          then empty_content else not_initialized), w).
Proof.
  intros Hg Hb. rewrite (scrape_url_fetched url html w Hg).
  unfold routed, clean_text_of. rewrite (clean_chunks_blank _ Hb).
  rewrite blank_text_turned_down; [|reflexivity].
  destruct (truthy_collection (collection w)); reflexivity.
Qed.

(** X17. A file whose extension, in lower case, is none of .pdf, .docx,
    .csv, .txt and .md is turned down by [upload_file] with the 400
    "Unsupported file type: ..." that names the extension; no extractor is
    consulted and the world is as it was, with or without a collection. *)
Theorem upload_file_unsupported (filename content : string) (w : World) :
  ~ In (extension filename) [".pdf"; ".docx"; ".csv"; ".txt"; ".md"] ->
  upload_file filename content w =
    (inl (HTTPException 400 ("Unsupported file type: " ++ extension filename)),
     w).
Proof.
  intros H. rewrite upload_file_run. unfold extracted.
  assert (E : forall x, In x [".pdf"; ".docx"; ".csv"; ".txt"; ".md"] ->
                (extension filename =? x) = false).
  { intros x Hx. apply String.eqb_neq. intros Heq. apply H.
    rewrite Heq. exact Hx. }
  rewrite !E; cbn; auto 10.
Qed.

(** X19. [upload_file] raises nothing but an HTTPException, and when it
    raises, no source is recorded and nothing is posted to Ollama. When an
    extractor is what raised, the exception is the 500 "Failed to process
    file: ..." with the text of that exception, and the world is as it
    was. *)
Theorem upload_file_raises (filename content : string) (w : World) (e : exn)
    (w' : World) :
  upload_file filename content w = (inl e, w') ->
  (exists code detail, e = HTTPException code detail)
  /\ added_sources w' = added_sources w
  /\ ollama_prompts w' = ollama_prompts w
  /\ forall msg, extracted (extension filename) content = inl (Exception msg) ->
       e = HTTPException 500 ("Failed to process file: " ++ msg) /\ w' = w.
Proof.
  intros H. rewrite upload_file_run in H.
  destruct (extracted (extension filename) content) as [e0|text] eqn:Ex.
  - inversion H; subst. split; [apply rerouted_http|].
    split; [reflexivity|]. split; [reflexivity|].
    intros msg E. inversion E; subst. auto.
  - apply routed_raises in H. destruct H as (e0 & Hadd & He). subst e.
    destruct (ingestion_failure_frame _ _ _ _ _ _ Hadd)
      as (Hreg & Hp & _).
    split; [apply rerouted_http|]. split; [exact Hreg|]. split; [exact Hp|].
    intros msg E. discriminate.
Qed.

(** X20. When [upload_file] returns, the extension of the file was one of
    the five, the extraction gave a text, and the registry has grown at its
    end by one entry whose name is the file name as given and whose type is
    "file"; the body names the count of chunks, which is the number of chunks
    the splitter made of the extracted text. *)
Theorem upload_file_returns (filename content : string) (w : World)
    (body : StatusBody) (w' : World) :
  upload_file filename content w = (inr body, w') ->
  exists text n,
    extracted (extension filename) content = inr text
    /\ In (extension filename) [".pdf"; ".docx"; ".csv"; ".txt"; ".md"]
    /\ n = length (split_text text)
    /\ 1 <= n
    /\ body = processed filename n
    /\ added_sources w' =
         added_sources w
         ++ [{| src_id := uuid4 (uuid_drawn w + n); src_name := filename;
                src_type := "file" |}].
Proof.
  intros H. rewrite upload_file_run in H.
  destruct (extracted (extension filename) content) as [e0|text] eqn:Ex;
    [discriminate|].
  apply routed_returns in H. destruct H as (n & Hadd & Hb).
  destruct (add_texts_to_chroma_registry _ _ _ _ _ _ Hadd)
    as (Hn & Hne & Hreg & _).
  exists text, n. split; [reflexivity|]. split.
  { revert Ex. unfold extracted.
    destruct (extension filename =? ".pdf") eqn:E1;
      [apply String.eqb_eq in E1; rewrite E1; cbn; auto|].
    destruct (extension filename =? ".docx") eqn:E2;
      [apply String.eqb_eq in E2; rewrite E2; cbn; auto|].
    destruct (extension filename =? ".csv") eqn:E3;
      [apply String.eqb_eq in E3; rewrite E3; cbn; auto|].
    destruct (extension filename =? ".txt") eqn:E4;
      [apply String.eqb_eq in E4; rewrite E4; cbn; auto 10|].
    destruct (extension filename =? ".md") eqn:E5;
      [apply String.eqb_eq in E5; rewrite E5; cbn; auto 10|].
    discriminate. }
  split; [exact Hn|]. split.
  { rewrite Hn. destruct (split_text _); [contradiction | cbn; lia]. }
  split; [exact Hb | exact Hreg].
Qed.

End RouteLemmas.

Section UploadEdges.
Context `{RT : Runtime} {EX : Extractors}.

Lemma rfind_from_absent (c : ascii) (s : string) (i : nat) :
  every (fun a => negb (Ascii.eqb a c)) s = true ->
  PosixPath.rfind_from c s i = None.
Proof.
  revert i. induction s as [|a r IH]; intros i H; [reflexivity|].
  cbn [every] in H. apply andb_prop in H. destruct H as [Ha Hr].
  cbn [PosixPath.rfind_from]. rewrite (IH (S i) Hr).
  apply negb_true_iff in Ha. rewrite Ha. reflexivity.
Qed.

(** A name without a dot has no extension, and neither has such a name with
    one dot put in front. *)
Lemma splitext_no_dot (name : string) :
  every (fun a => negb (Ascii.eqb a "."%char)) name = true ->
  PosixPath.splitext name = (name, "")
  /\ PosixPath.splitext (String "."%char name) = (String "."%char name, "").
Proof.
  intros H. unfold PosixPath.splitext, PosixPath.rfind. split.
  - rewrite (rfind_from_absent _ _ 0 H). reflexivity.
  - cbn [PosixPath.rfind_from]. rewrite (rfind_from_absent _ _ 1 H).
    cbn [Ascii.eqb Bool.eqb]. unfold PosixPath.other_than_dot.
    rewrite Nat.sub_0_l. cbn [seq existsb]. rewrite andb_false_r.
    reflexivity.
Qed.

(** X18. A file name without a dot is turned down by [upload_file] as an
    unsupported type with an empty extension, and so is such a name with one
    dot put in front of it: ".txt" and ".md" are names without an extension,
    not text files. *)
Theorem upload_file_no_extension (name content : string) (w : World) :
  every (fun a => negb (Ascii.eqb a "."%char)) name = true ->
  upload_file name content w
    = (inl (HTTPException 400 "Unsupported file type: "), w)
  /\ upload_file (String "."%char name) content w
     = (inl (HTTPException 400 "Unsupported file type: "), w).
Proof.
  intros H. destruct (splitext_no_dot name H) as [E1 E2].
  split; rewrite upload_file_run; unfold extension; rewrite ?E1, ?E2;
    reflexivity.
Qed.

Lemma all_space_app (a b : string) :
  PyStr.all_space (a ++ b) = PyStr.all_space a && PyStr.all_space b.
Proof.
  induction a as [|c a IH]; [reflexivity|].
  cbn. rewrite IH. apply andb_assoc.
Qed.

Lemma fold_left_blank {A} (f : string -> A -> string) (Q : A -> Prop)
    (l : list A) :
  (forall acc x, PyStr.all_space acc = true -> Q x ->
                 PyStr.all_space (f acc x) = true) ->
  Forall Q l ->
  forall acc, PyStr.all_space acc = true ->
              PyStr.all_space (fold_left f l acc) = true.
Proof.
  intros Hf H. induction H as [|x l Hx _ IH]; intros acc Hacc; [exact Hacc|].
  cbn [fold_left]. apply IH. apply Hf; assumption.
Qed.

Lemma pdf_text_blank (pages : list string) :
  Forall (fun p => PyStr.all_space p = true) pages ->
  PyStr.all_space (pdf_text pages) = true.
Proof.
  intros H. unfold pdf_text.
  apply (fold_left_blank _ (fun p => PyStr.all_space p = true) pages);
    [|exact H|reflexivity].
  intros acc p Hacc Hp. destruct (PyStr.truthy p); [|exact Hacc].
  rewrite !all_space_app, Hacc, Hp. reflexivity.
Qed.

Lemma docx_text_blank (paragraphs : list string) :
  Forall (fun p => PyStr.all_space p = true) paragraphs ->
  PyStr.all_space (docx_text paragraphs) = true.
Proof.
  intros H. unfold docx_text.
  apply (fold_left_blank _ (fun p => PyStr.all_space p = true) paragraphs);
    [|exact H|reflexivity].
  intros acc p Hacc Hp. rewrite !all_space_app, Hacc, Hp. reflexivity.
Qed.

Lemma join_space_blank (row : list string) :
  Forall (fun cell => PyStr.all_space cell = true) row ->
  PyStr.all_space (PyStr.join " " row) = true.
Proof.
  induction 1 as [|cell row Hc Hrow IH]; [reflexivity|].
  destruct row as [|cell2 row2]; [exact Hc|].
  rewrite join_cons, !all_space_app, Hc, IH. reflexivity.
Qed.

Lemma csv_text_blank (rows : list (list string)) :
  Forall (Forall (fun cell => PyStr.all_space cell = true)) rows ->
  PyStr.all_space (csv_text rows) = true.
Proof.
  intros H. unfold csv_text.
  apply (fold_left_blank _
           (Forall (fun cell => PyStr.all_space cell = true)) rows);
    [|exact H|reflexivity].
  intros acc row Hacc Hr.
  rewrite !all_space_app, Hacc, (join_space_blank row Hr). reflexivity.
Qed.

(** X21. A file of a supported type with nothing to read in it - a PDF whose
    pages give no text or white space only, a Word file whose paragraphs are
    white space, a CSV whose cells are white space, a text file of white
    space - is turned down by [upload_file] with the 400 "No extractable
    text found." (the 500 of the missing collection when there is none), and
    the world is as it was. *)
Theorem upload_file_blank (filename content : string) (w : World) :
  (extension filename = ".pdf"
   /\ exists pages, pdf_pages content = inr pages
        /\ Forall (fun p => PyStr.all_space p = true) pages)
  \/ (extension filename = ".docx"
      /\ exists paragraphs, docx_paragraphs content = inr paragraphs
           /\ Forall (fun p => PyStr.all_space p = true) paragraphs)
  \/ (extension filename = ".csv"
      /\ exists rows, csv_rows (decode_utf8 content) = inr rows
           /\ Forall (Forall (fun cell => PyStr.all_space cell = true)) rows)
  \/ ((extension filename = ".txt" \/ extension filename = ".md")
      /\ PyStr.all_space (decode_utf8 content) = true) ->
  upload_file filename content w =
    (inl (if truthy_collection (collection w)
          then empty_content else not_initialized), w).
Proof.
  intros H. rewrite upload_file_run.
  assert (Hx : exists text, extracted (extension filename) content = inr text
                            /\ PyStr.all_space text = true).
  { unfold extracted.
    destruct H as [(E & pages & Hp & Hb)|[(E & ps & Hp & Hb)
                  |[(E & rows & Hp & Hb)|([E|E] & Hb)]]]; rewrite E; cbn.
    - rewrite Hp. eexists. split; [reflexivity | apply pdf_text_blank, Hb].
    - rewrite Hp. eexists. split; [reflexivity | apply docx_text_blank, Hb].
    - rewrite Hp. eexists. split; [reflexivity | apply csv_text_blank, Hb].
    - eexists. split; [reflexivity | exact Hb].
    - eexists. split; [reflexivity | exact Hb]. }
  destruct Hx as (text & Ex & Hb). rewrite Ex. unfold routed.
  rewrite (blank_text_turned_down text filename "file" w Hb).
  destruct (truthy_collection (collection w)); reflexivity.
Qed.

End UploadEdges.

(** * What every sequence of requests keeps *)

Section Served.
Context `{RT : Runtime}.

Lemma registry_step_refl (w : World) : registry_step w w.
Proof. split; [lia | left; reflexivity]. Qed.

Lemma add_texts_to_chroma_step (text source_name source_type : string)
    (w : World) :
  source_type = "url" \/ source_type = "file" ->
  registry_step w (snd (add_texts_to_chroma text source_name source_type w)).
Proof.
  intros Ht.
  destruct (add_texts_to_chroma_outcomes text source_name source_type w)
    as [(code & detail & E)|(c & c' & n & Hc & Hn & [(msg & E & _)|(E & _)])];
    rewrite E; cbn [snd].
  - apply registry_step_refl.
  - split; [cbn; lia | left; reflexivity].
  - split; [cbn; lia|]. right. right. right.
    exists (uuid_drawn w + n), source_name, source_type.
    split; [cbn; lia|]. split; [exact Ht | reflexivity].
Qed.

Lemma routed_world (prefix : string) (body : nat -> StatusBody)
    (text source_name source_type : string) (w : World) :
  snd (routed prefix body text source_name source_type w)
  = snd (add_texts_to_chroma text source_name source_type w).
Proof.
  unfold routed.
  destruct (add_texts_to_chroma text source_name source_type w) as [[e|n] w'];
    reflexivity.
Qed.

Lemma clear_all_sources_step (w : World) :
  registry_step w (snd (clear_all_sources w)).
Proof.
  unfold clear_all_sources, bind, gets, raise, try_except, ret,
    set_added_sources.
  destruct (truthy_collection (collection w)).
  - pose proof (for_each_delete_frame (added_sources w) w) as Hf.
    destruct (for_each (added_sources w)
                (fun source => collection_delete (src_name source)) w)
      as [[e|[]] w1]; cbn in *; destruct Hf as (Hreg & Hu & _).
    + split; [lia | left; exact Hreg].
    + split; [cbn; lia | right; left; reflexivity].
  - cbn. split; [cbn; lia | right; left; reflexivity].
Qed.

Lemma delete_source_step (source_id : string) (w : World) :
  registry_step w (snd (delete_source source_id w)).
Proof.
  destruct (delete_source source_id w) as [[e|body] w'] eqn:E; cbn [snd].
  - destruct (deletion_failure_frame _ _ _ _ E) as (Hreg & Hu & _).
    split; [lia | left; exact Hreg].
  - destruct (delete_source_returns _ _ _ _ E) as (s & _ & _ & Hreg & Hu & _).
    split; [lia|]. right. right. left. exists source_id. auto.
Qed.

Lemma served_step (X : Extractors) (r : Request) (w : World) :
  registry_step w (served X r w).
Proof.
  destruct r as [url|filename content|req|source_id| |]; cbn [served].
  - destruct (@http_get X url) as [msg|html] eqn:Eg.
    + rewrite (scrape_url_fetch_raises url msg w Eg). apply registry_step_refl.
    + rewrite (scrape_url_fetched url html w Eg), routed_world.
      apply add_texts_to_chroma_step. left. reflexivity.
  - rewrite upload_file_run.
    destruct (extracted (extension filename) content) as [e|text].
    + apply registry_step_refl.
    + rewrite routed_world. apply add_texts_to_chroma_step. right. reflexivity.
  - destruct (chat_frame req w) as (_ & Hreg & Hu).
    split; [lia | left; exact Hreg].
  - apply delete_source_step.
  - apply clear_all_sources_step.
  - apply registry_step_refl.
Qed.

Lemma served_all_snoc (rs : list (Extractors * Request)) (X : Extractors)
    (r : Request) (w : World) :
  served_all (rs ++ [(X, r)]) w = served X r (served_all rs w).
Proof. unfold served_all. rewrite fold_left_app. reflexivity. Qed.

(** X22. Whatever requests are served, in whatever outside world, every
    source of the registry has the type "url" or the type "file", once this
    holds of the registry at the start - as it does when the module is
    loaded. *)
Theorem served_source_types (rs : list (Extractors * Request)) (w : World) :
  (forall s, In s (added_sources w) ->
             src_type s = "url" \/ src_type s = "file") ->
  forall s, In s (added_sources (served_all rs w)) ->
            src_type s = "url" \/ src_type s = "file".
Proof.
  intros Hw. induction rs as [|[X r] rs IH] using rev_ind; [exact Hw|].
  rewrite served_all_snoc. intros s Hs.
  destruct (served_step X r (served_all rs w))
    as (_ & [E|[E|[(source_id & _ & E)|(k & n & t & _ & Ht & E)]]]);
    rewrite E in Hs.
  - apply IH. exact Hs.
  - contradiction.
  - apply filter_In in Hs. apply IH. apply Hs.
  - apply in_app_or in Hs. destruct Hs as [Hs|[Hs|[]]]; [apply IH; exact Hs|].
    subst s. exact Ht.
Qed.

(** Dropping entries keeps the identifiers pairwise different. *)
Lemma filter_ids_distinct (keep : Source -> bool) (sources : list Source) :
  NoDup (map src_id sources) -> NoDup (map src_id (filter keep sources)).
Proof.
  induction sources as [|s sources IH]; cbn; intros H; [constructor|].
  inversion H as [|x xs Hnot Hnd]; subst.
  destruct (keep s); [|apply IH; exact Hnd].
  cbn. constructor; [|apply IH; exact Hnd].
  intros Hin. apply Hnot. apply in_map_iff in Hin.
  destruct Hin as (y & Hy & Hin). apply filter_In in Hin.
  rewrite <- Hy. apply in_map. apply Hin.
Qed.

Lemma NoDup_snoc {A} (l : list A) (x : A) :
  NoDup l -> ~ In x l -> NoDup (l ++ [x]).
Proof.
  induction l as [|a l IH]; cbn; intros Hnd Hx.
  - constructor; [intros [] | constructor].
  - inversion Hnd as [|y ys Hnot Hnd']; subst. constructor.
    + intros Hin. apply in_app_or in Hin. destruct Hin as [Hin|[Hin|[]]].
      * contradiction.
      * apply Hx. left. symmetry. exact Hin.
    + apply IH; [exact Hnd'|]. intros Hin. apply Hx. right. exact Hin.
Qed.

Lemma registry_step_ids (w w' : World) :
  (forall a b, uuid4 a = uuid4 b -> a = b) ->
  registry_step w w' -> ids_drawn w -> ids_drawn w'.
Proof.
  intros Hinj (Hu & Hstep) (Hnd & Hdrawn). unfold ids_drawn.
  destruct Hstep as [E|[E|[(source_id & Hu' & E)|(k & n & t & Hk & _ & E)]]];
    rewrite E.
  - split; [exact Hnd|]. intros s Hs. destruct (Hdrawn s Hs) as (k & Hk & Ek).
    exists k. split; [lia | exact Ek].
  - split; [constructor | contradiction].
  - split; [apply filter_ids_distinct; exact Hnd|].
    intros s Hs. apply filter_In in Hs. destruct Hs as [Hs _].
    destruct (Hdrawn s Hs) as (k & Hk & Ek). exists k. split; [lia | exact Ek].
  - split.
    + rewrite map_app. cbn [map src_id].
      apply NoDup_snoc; [exact Hnd|].
      intros Hin. apply in_map_iff in Hin. destruct Hin as (s & Es & Hs).
      destruct (Hdrawn s Hs) as (k' & Hk' & Ek'). rewrite Ek' in Es.
      apply Hinj in Es. lia.
    + intros s Hs. apply in_app_or in Hs. destruct Hs as [Hs|[Hs|[]]].
      * destruct (Hdrawn s Hs) as (k' & Hk' & Ek').
        exists k'. split; [lia | exact Ek'].
      * subst s. exists k. split; [lia | reflexivity].
Qed.

(** X23. When [uuid4] never gives the same identifier twice, the registry
    never holds two sources under one identifier: whatever requests are
    served, its identifiers stay pairwise different, each one drawn before.
    So an identifier names at most one source. *)
Theorem served_ids_distinct (rs : list (Extractors * Request)) (w : World) :
  (forall a b, uuid4 a = uuid4 b -> a = b) ->
  ids_drawn w ->
  ids_drawn (served_all rs w)
  /\ forall s1 s2,
       In s1 (added_sources (served_all rs w)) ->
       In s2 (added_sources (served_all rs w)) ->
       src_id s1 = src_id s2 -> s1 = s2.
Proof.
  intros Hinj Hw.
  assert (H : ids_drawn (served_all rs w)).
  { induction rs as [|[X r] rs IH] using rev_ind; [exact Hw|].
    rewrite served_all_snoc.
    apply (registry_step_ids _ _ Hinj (served_step X r _) IH). }
  split; [exact H|].
  destruct H as [Hnd _]. revert Hnd.
  induction (added_sources (served_all rs w)) as [|a l IHl]; cbn;
    intros Hnd s1 s2 H1 H2 E; [contradiction|].
  inversion Hnd as [|x xs Hnot Hnd']; subst.
  destruct H1 as [H1|H1], H2 as [H2|H2]; subst.
  - reflexivity.
  - exfalso. apply Hnot. rewrite E. apply in_map. exact H2.
  - exfalso. apply Hnot. rewrite <- E. apply in_map. exact H1.
  - apply IHl; assumption.
Qed.

End Served.

(** * The start of the module, and the viewer *)

Section Startup.
Context `{RT : Runtime}.

(** X24. When one of the three environment variables is empty, or the
    connection to Chroma raises, the module still loads: [collection] is
    [None], one line is printed, and from then on every ingestion and every
    chat raises the 500 "Chroma DB collection is not initialized." and
    leaves the loaded world as it is. *)
Theorem startup_without_collection
    (cloud : string -> string -> string -> string -> string + Coll)
    (CHROMA_TENANT CHROMA_DATABASE CHROMA_API_KEY : string)
    (text source_name source_type : string) (req : ChatRequest) :
  CHROMA_TENANT = "" \/ CHROMA_DATABASE = "" \/ CHROMA_API_KEY = ""
  \/ (exists e,
        cloud CHROMA_TENANT CHROMA_DATABASE CHROMA_API_KEY "rag_collection_v2"
        = inl e) ->
  let started := startup cloud CHROMA_TENANT CHROMA_DATABASE CHROMA_API_KEY in
  fst started = None
  /\ length (snd started) = 1
  /\ add_texts_to_chroma text source_name source_type (loaded (fst started))
     = (inl not_initialized, loaded None)
  /\ chat req (loaded (fst started)) = (inl not_initialized, loaded None).
Proof.
  intros H started.
  assert (Hs : fst started = None /\ length (snd started) = 1).
  { unfold started, startup.
    destruct H as [H|[H|[H|(e & H)]]]; try (subst; cbn).
    - auto.
    - rewrite andb_false_r. auto.
    - rewrite andb_false_r. auto.
    - destruct (PyStr.truthy CHROMA_TENANT && PyStr.truthy CHROMA_DATABASE
                && PyStr.truthy CHROMA_API_KEY); [rewrite H|]; auto. }
  destruct Hs as [Hc Hl]. rewrite Hc.
  split; [reflexivity|]. split; [exact Hl|]. split.
  - unfold add_texts_to_chroma, bind, gets, raise. reflexivity.
  - apply chat_no_collection. reflexivity.
Qed.

End Startup.

Section ViewerTheorems.
Context `{V : Viewer}.

(** X25. With the three variables set but one of them white space only, the
    module and the viewer part ways: the module takes the variables as they
    are and goes to the cloud with them, the viewer strips them first, finds
    one empty and reads the local database "chroma_db", collection
    "default". *)
Theorem blank_variable_parts_viewer_from_module {C}
    (cloud : string -> string -> string -> string -> string + C)
    (CHROMA_TENANT CHROMA_DATABASE CHROMA_API_KEY : string) :
  CHROMA_TENANT <> "" -> CHROMA_DATABASE <> "" -> CHROMA_API_KEY <> "" ->
  PyStr.all_space CHROMA_TENANT = true
  \/ PyStr.all_space CHROMA_DATABASE = true
  \/ PyStr.all_space CHROMA_API_KEY = true ->
  startup cloud CHROMA_TENANT CHROMA_DATABASE CHROMA_API_KEY
  = match cloud CHROMA_TENANT CHROMA_DATABASE CHROMA_API_KEY
            "rag_collection_v2" with
    | inr c => (Some c, [])
    | inl e =>
        (None, [("Failed to initialize Chroma Cloud Client: " ++ e)%string])
    end
  /\ view_chroma_contents CHROMA_TENANT CHROMA_DATABASE CHROMA_API_KEY
     = report "Connecting to local Persistent Chroma DB ('chroma_db')..."
         (local_get "chroma_db" "default").
Proof.
  intros HT HD HK Hblank. split.
  - unfold startup.
    destruct CHROMA_TENANT; [contradiction|].
    destruct CHROMA_DATABASE; [contradiction|].
    destruct CHROMA_API_KEY; [contradiction|]. reflexivity.
  - unfold view_chroma_contents.
    destruct Hblank as [H|[H|H]]; apply strip_falsy_iff in H; rewrite H;
      rewrite ?andb_false_r; reflexivity.
Qed.

Lemma nth_error_skipn {A} (l : list A) (k : nat) :
  k < length l ->
  exists x, nth_error l k = Some x /\ skipn k l = x :: skipn (S k) l.
Proof.
  revert k. induction l as [|a l IH]; intros k Hk; [cbn in Hk; lia|].
  destruct k as [|k]; [exists a; auto|].
  cbn in Hk. destruct (IH k) as (x & E1 & E2); [lia|].
  exists x. split; [exact E1 | exact E2].
Qed.

Lemma documents_lines_complete (results : GetResult) (n m k : nat) :
  k + m = length (got_ids results) ->
  length (got_metadatas results) = length (got_ids results) ->
  length (got_documents results) = length (got_ids results) ->
  documents_lines (seq k m) n results
  = (blocks_from n k (skipn k (got_ids results))
       (skipn k (got_metadatas results)) (skipn k (got_documents results)),
     None).
Proof.
  revert k. induction m as [|m IH]; intros k Hk Hm Hd.
  - cbn. rewrite skipn_all2; [reflexivity | lia].
  - cbn [seq documents_lines]. unfold document_lines.
    destruct (nth_error_skipn (got_ids results) k) as (id & E1 & S1); [lia|].
    destruct (nth_error_skipn (got_metadatas results) k) as (md & E2 & S2);
      [lia|].
    destruct (nth_error_skipn (got_documents results) k) as (d & E3 & S3);
      [lia|].
    rewrite E1, E2, E3, S1, S2, S3. rewrite (IH (S k)); [|lia|exact Hm|exact Hd].
    cbn [blocks_from]. unfold document_block.
    rewrite <- !app_assoc. reflexivity.
Qed.

Lemma blocks_from_length (n i : nat) (ids metadatas docs : list string) :
  length metadatas = length ids -> length docs = length ids ->
  length (blocks_from n i ids metadatas docs) = 6 * length ids.
Proof.
  revert i metadatas docs.
  induction ids as [|id ids IH]; intros i mds docs Hm Hd; [reflexivity|].
  destruct mds as [|md mds]; [discriminate|].
  destruct docs as [|d docs]; [discriminate|].
  cbn [blocks_from]. rewrite length_app, (IH (S i) mds docs); cbn in *; lia.
Qed.

(** X26. When the three lists of the result are equally long, the viewer
    prints, after the line that names the database and the line with the
    total, one block of six lines for every record, in order, with its
    identifier, its metadata and its document, and no error line. When the
    way to the records raised, it prints the line that names the database
    and one error line with the text of the exception. *)
Theorem report_lists_every_record (first : string) (results : GetResult) :
  length (got_metadatas results) = length (got_ids results) ->
  length (got_documents results) = length (got_ids results) ->
  let n := length (got_ids results) in
  report first (inr results)
  = [first;
     (PyStr.LF ++ "Total documents found: " ++ PyStr.of_nat n ++ PyStr.LF)%string]
    ++ blocks_from n 0 (got_ids results) (got_metadatas results)
         (got_documents results)
  /\ length (report first (inr results)) = 2 + 6 * n
  /\ forall e, report first (inl e) = [first; error_line e].
Proof.
  intros Hm Hd n.
  assert (E : report first (inr results)
              = [first;
                 (PyStr.LF ++ "Total documents found: " ++ PyStr.of_nat n
                  ++ PyStr.LF)%string]
                ++ blocks_from n 0 (got_ids results) (got_metadatas results)
                     (got_documents results)).
  { unfold report. fold n.
    rewrite (documents_lines_complete results n n 0); [|unfold n; lia|exact Hm|exact Hd].
    cbn [skipn]. rewrite app_nil_r. reflexivity. }
  split; [exact E|]. split; [|reflexivity].
  rewrite E. cbn [app length].
  rewrite (blocks_from_length n 0 _ _ _ Hm Hd). reflexivity.
Qed.

End ViewerTheorems.

(** * The further theorems at work *)

#[local] Instance read_only_contract : @ChromaContract DemoFaults.read_only.
Proof.
  constructor; cbn.
  - intros ids es ds ms c raised c' r H Hin. inversion H; subst. left. exact Hin.
  - intros name c raised c' r H Hin. inversion H; subst. exact Hin.
  - intros ids es ds ms c c' H. discriminate.
  - intros ids es ds ms c c' _ H. discriminate.
  - intros name c c' H. discriminate.
  - intros qs k c results docs d H Hdocs Hd. unfold Demo.query in H.
    inversion H; subst results. cbn in Hdocs. inversion Hdocs; subst docs.
    eapply demo_query_rows. exact Hd.
Qed.

Lemma of_nat_injective (a b : nat) : PyStr.of_nat a = PyStr.of_nat b -> a = b.
Proof.
  unfold PyStr.of_nat. intros H.
  apply (f_equal NilEmpty.uint_of_string) in H.
  rewrite !NilEmpty.usu in H. inversion H as [E].
  apply (f_equal Nat.of_uint) in E.
  rewrite !Unsigned.of_to in E. exact E.
Qed.

Lemma demo_uuid4_injective (a b : nat) :
  @uuid4 Demo.runtime a = @uuid4 Demo.runtime b -> a = b.
Proof. cbn. intros H. inversion H as [E]. apply of_nat_injective. exact E. Qed.

(** "doc.txt" deleted, "notes.md" untouched. *)
Lemma delete_source_keeps_others_run :
  delete_source "uuid-5" Demo.two_names
    = (inr (deleted "doc.txt"), snd (delete_source "uuid-5" Demo.two_names))
  /\ added_sources (snd (delete_source "uuid-5" Demo.two_names))
     = [mkSource "uuid-8" "notes.md" "file"]
  /\ uuid_drawn (snd (delete_source "uuid-5" Demo.two_names)) = 9.
Proof.
  assert (Hrun : delete_source "uuid-5" Demo.two_names
                 = (inr (deleted "doc.txt"),
                    snd (delete_source "uuid-5" Demo.two_names))).
  { vm_compute. reflexivity. }
  split; [exact Hrun|].
  destruct (@delete_source_keeps_others Demo.runtime demo_contract _ _ _ _ Hrun)
    as (s & _ & _ & Hreg & _ & _ & Hu & _).
  split; [rewrite Hreg; reflexivity | rewrite Hu; reflexivity].
Defined.

Lemma delete_source_again_run :
  delete_source "uuid-5" Demo.two_names
    = (inr (deleted "doc.txt"), snd (delete_source "uuid-5" Demo.two_names))
  /\ delete_source "uuid-5" (snd (delete_source "uuid-5" Demo.two_names))
     = (inl not_found, snd (delete_source "uuid-5" Demo.two_names)).
Proof.
  assert (Hrun : delete_source "uuid-5" Demo.two_names
                 = (inr (deleted "doc.txt"),
                    snd (delete_source "uuid-5" Demo.two_names))).
  { vm_compute. reflexivity. }
  split; [exact Hrun|].
  exact (@delete_source_again Demo.runtime _ _ _ _ Hrun).
Defined.

(** The collection refuses the delete: the source stays listed. *)
Lemma delete_source_raises_run :
  delete_source "uuid-1" DemoFaults.frozen
    = (inl (HTTPException 500 "Failed to delete from vector db: Quota exceeded"),
       DemoFaults.frozen)
  /\ added_sources (snd (delete_source "uuid-1" DemoFaults.frozen))
     = [mkSource "uuid-1" "doc.txt" "file"].
Proof.
  assert (Hrun : delete_source "uuid-1" DemoFaults.frozen
                 = (inl (HTTPException 500
                           "Failed to delete from vector db: Quota exceeded"),
                    DemoFaults.frozen)).
  { reflexivity. }
  split; [exact Hrun|].
  destruct (@delete_source_raises DemoFaults.read_only read_only_contract
              _ _ _ _ Hrun) as (Hreg & _).
  rewrite Hrun. exact Hreg.
Defined.

Lemma clear_all_sources_store_run :
  clear_all_sources Demo.two_names
    = (inr cleared, snd (clear_all_sources Demo.two_names))
  /\ store_rows (snd (clear_all_sources Demo.two_names)) = [].
Proof.
  assert (Hrun : clear_all_sources Demo.two_names
                 = (inr cleared, snd (clear_all_sources Demo.two_names))).
  { vm_compute. reflexivity. }
  split; [exact Hrun|].
  destruct (@clear_all_sources_store Demo.runtime demo_contract _ _ _ Hrun)
    as (Hrows & _).
  rewrite Hrows. reflexivity.
Defined.

(** The collection refuses the add: no source is recorded. *)
Lemma add_texts_to_chroma_raises_run :
  fst (add_texts_to_chroma "more" "notes.md" "file" DemoFaults.frozen)
    = inl (Exception "Quota exceeded")
  /\ added_sources
       (snd (add_texts_to_chroma "more" "notes.md" "file" DemoFaults.frozen))
     = [mkSource "uuid-1" "doc.txt" "file"].
Proof.
  split; [reflexivity|].
  destruct (@add_texts_to_chroma_raises DemoFaults.read_only read_only_contract
              "more" "notes.md" "file" DemoFaults.frozen
              (Exception "Quota exceeded")
              (snd (add_texts_to_chroma "more" "notes.md" "file"
                      DemoFaults.frozen)) eq_refl) as (Hreg & _).
  exact Hreg.
Defined.

(** "notes.md" ingested next to "doc.txt" and deleted again. *)
Lemma ingest_then_delete_run :
  added_sources
    (snd (delete_source "uuid-4"
            (snd (add_texts_to_chroma "other text" "notes.md" "file"
                    Demo.hello_doc))))
  = added_sources Demo.hello_doc
  /\ store_rows
       (snd (delete_source "uuid-4"
               (snd (add_texts_to_chroma "other text" "notes.md" "file"
                       Demo.hello_doc))))
     = store_rows Demo.hello_doc.
Proof.
  destruct (@ingest_then_delete Demo.runtime demo_contract
              "other text" "notes.md" "file" Demo.hello_doc 2
              (snd (add_texts_to_chroma "other text" "notes.md" "file"
                      Demo.hello_doc))
              (deleted "notes.md")
              (snd (delete_source "uuid-4"
                      (snd (add_texts_to_chroma "other text" "notes.md" "file"
                              Demo.hello_doc)))))
    as (H1 & H2 & _).
  - intros r [Hr|[]]. subst r. discriminate.
  - reflexivity.
  - intros s [Hs|[]]. subst s. discriminate.
  - vm_compute. reflexivity.
  - vm_compute. reflexivity.
  - split; [exact H1 | exact H2].
Defined.

Lemma ingest_same_name_twice_run :
  exists k1 k2,
    k1 < k2
    /\ added_sources Demo.same_name_twice =
         added_sources Demo.empty_store
         ++ [mkSource (@uuid4 Demo.runtime k1) "doc.txt" "file";
             mkSource (@uuid4 Demo.runtime k2) "doc.txt" "file"].
Proof.
  apply (@ingest_same_name_twice Demo.runtime "first version" "second"
           "doc.txt" "file" "file" Demo.empty_store 2
           (@after Demo.runtime (Ingest "first version" "doc.txt" "file")
              Demo.empty_store)
           1 Demo.same_name_twice).
  - vm_compute. reflexivity.
  - vm_compute. reflexivity.
Defined.

Lemma chat_raises_run :
  chat (mkChatRequest "hello" []) DemoFaults.frozen
    = (inl (HTTPException 503
              "Failed to connect to local Ollama (ensure it is running on port 11434): Connection refused"),
       snd (chat (mkChatRequest "hello" []) DemoFaults.frozen))
  /\ exists prompt,
       ollama_prompts (snd (chat (mkChatRequest "hello" []) DemoFaults.frozen))
       = [prompt].
Proof.
  assert (Hrun : chat (mkChatRequest "hello" []) DemoFaults.frozen
                 = (inl (HTTPException 503
                           "Failed to connect to local Ollama (ensure it is running on port 11434): Connection refused"),
                    snd (chat (mkChatRequest "hello" []) DemoFaults.frozen))).
  { vm_compute. reflexivity. }
  split; [exact Hrun|].
  destruct (@chat_raises DemoFaults.read_only _ _ _ _ Hrun)
    as [(Hc & _)|[(c & msg & _ & Hq & _)|(prompt & msg & Hp & _)]].
  - discriminate.
  - discriminate.
  - exists prompt. exact Hp.
Defined.

(** A page that cannot be fetched. *)
Lemma scrape_url_raises_run :
  @scrape_url Demo.runtime DemoRoutes.extractors "http://example.org/gone"
    Demo.one_doc
    = (inl (HTTPException 500
              "Failed to scrape URL: 404 Client Error: Not Found for url"),
       Demo.one_doc)
  /\ exists code detail,
       HTTPException 500
         "Failed to scrape URL: 404 Client Error: Not Found for url"
       = HTTPException code detail.
Proof.
  assert (Hrun : @scrape_url Demo.runtime DemoRoutes.extractors
                   "http://example.org/gone" Demo.one_doc
                 = (inl (HTTPException 500
                           "Failed to scrape URL: 404 Client Error: Not Found for url"),
                    Demo.one_doc)).
  { reflexivity. }
  split; [exact Hrun|].
  exact (proj1 (@scrape_url_raises Demo.runtime DemoRoutes.extractors
                  _ _ _ _ Hrun)).
Defined.

(** A page of three chunks. *)
Lemma scrape_url_returns_run :
  exists html n,
    @http_get DemoRoutes.extractors "http://example.org/" = inr html
    /\ 1 <= n
    /\ added_sources
         (snd (@scrape_url Demo.runtime DemoRoutes.extractors
                 "http://example.org/" Demo.empty_store))
       = [mkSource (@uuid4 Demo.runtime (0 + n)) "http://example.org/" "url"].
Proof.
  destruct (@scrape_url_returns Demo.runtime DemoRoutes.extractors
              "http://example.org/" Demo.empty_store
              (scraped "http://example.org/" 3)
              (snd (@scrape_url Demo.runtime DemoRoutes.extractors
                      "http://example.org/" Demo.empty_store)))
    as (html & n & Hg & _ & _ & Hn & _ & Hreg).
  - vm_compute. reflexivity.
  - exists html, n. split; [exact Hg|]. split; [exact Hn | exact Hreg].
Defined.

Lemma scrape_url_blank_page_run :
  @scrape_url Demo.runtime DemoRoutes.extractors "http://example.org/blank"
    Demo.one_doc
  = (inl empty_content, Demo.one_doc).
Proof.
  exact (@scrape_url_blank_page Demo.runtime DemoRoutes.extractors
           "http://example.org/blank" _ Demo.one_doc eq_refl eq_refl).
Defined.

Lemma upload_file_unsupported_run :
  @upload_file Demo.runtime DemoRoutes.extractors "setup.EXE" "MZ" Demo.no_store
  = (inl (HTTPException 400 "Unsupported file type: .exe"), Demo.no_store).
Proof.
  apply (@upload_file_unsupported Demo.runtime DemoRoutes.extractors
           "setup.EXE" "MZ" Demo.no_store).
  cbv. intros [H|[H|[H|[H|[H|[]]]]]]; discriminate.
Defined.

Lemma upload_file_no_extension_run :
  @upload_file Demo.runtime DemoRoutes.extractors "README" "hello"
    Demo.empty_store
  = (inl (HTTPException 400 "Unsupported file type: "), Demo.empty_store)
  /\ @upload_file Demo.runtime DemoRoutes.extractors ".txt" "hello"
       Demo.empty_store
     = (inl (HTTPException 400 "Unsupported file type: "), Demo.empty_store).
Proof.
  split.
  - exact (proj1 (@upload_file_no_extension Demo.runtime DemoRoutes.extractors
                    "README" "hello" Demo.empty_store eq_refl)).
  - exact (proj2 (@upload_file_no_extension Demo.runtime DemoRoutes.extractors
                    "txt" "hello" Demo.empty_store eq_refl)).
Defined.

(** A PDF that cannot be read. *)
Lemma upload_file_raises_run :
  @upload_file Demo.runtime DemoRoutes.extractors "scan.pdf" "junk" Demo.one_doc
    = (inl (HTTPException 500 "Failed to process file: EOF marker not found"),
       Demo.one_doc)
  /\ added_sources
       (snd (@upload_file Demo.runtime DemoRoutes.extractors "scan.pdf" "junk"
               Demo.one_doc))
     = added_sources Demo.one_doc.
Proof.
  assert (Hrun : @upload_file Demo.runtime DemoRoutes.extractors "scan.pdf"
                   "junk" Demo.one_doc
                 = (inl (HTTPException 500
                           "Failed to process file: EOF marker not found"),
                    Demo.one_doc)).
  { reflexivity. }
  split; [exact Hrun|].
  destruct (@upload_file_raises Demo.runtime DemoRoutes.extractors
              _ _ _ _ _ Hrun) as (_ & Hreg & _).
  rewrite Hrun. exact Hreg.
Defined.

Lemma upload_file_returns_run :
  exists text n,
    @extracted DemoRoutes.extractors ".txt" "hello" = inr text
    /\ 1 <= n
    /\ added_sources
         (snd (@upload_file Demo.runtime DemoRoutes.extractors "A.TXT" "hello"
                 Demo.empty_store))
       = [mkSource (@uuid4 Demo.runtime (0 + n)) "A.TXT" "file"].
Proof.
  destruct (@upload_file_returns Demo.runtime DemoRoutes.extractors
              "A.TXT" "hello" Demo.empty_store
              (processed "A.TXT" 1)
              (snd (@upload_file Demo.runtime DemoRoutes.extractors "A.TXT"
                      "hello" Demo.empty_store)))
    as (text & n & Hx & _ & _ & Hn & _ & Hreg).
  - vm_compute. reflexivity.
  - exists text, n. split; [exact Hx|]. split; [exact Hn | exact Hreg].
Defined.

(** A PDF of two pages without text. *)
Lemma upload_file_blank_run :
  @upload_file Demo.runtime DemoRoutes.extractors "scan.PDF" "%PDF" Demo.one_doc
  = (inl empty_content, Demo.one_doc).
Proof.
  apply (@upload_file_blank Demo.runtime DemoRoutes.extractors
           "scan.PDF" "%PDF" Demo.one_doc).
  left. split; [reflexivity|].
  exists [""; ""]. split; [reflexivity|]. repeat constructor.
Defined.

Lemma served_source_types_run :
  src_type (mkSource "uuid-5" "A.TXT" "file") = "url"
  \/ src_type (mkSource "uuid-5" "A.TXT" "file") = "file".
Proof.
  apply (@served_source_types Demo.runtime three_requests Demo.empty_store).
  - intros s [].
  - vm_compute. left. reflexivity.
Defined.

Lemma served_ids_distinct_run :
  ids_drawn (@served_all Demo.runtime three_requests Demo.empty_store).
Proof.
  apply (@served_ids_distinct Demo.runtime three_requests Demo.empty_store).
  - exact demo_uuid4_injective.
  - split; [constructor | intros s []].
Defined.

(** No API key. *)
Lemma startup_without_collection_run :
  fst (@startup (@Coll Demo.runtime) (fun _ _ _ _ => inr []) "acme" "docs" "")
    = None
  /\ add_texts_to_chroma "hello" "doc.txt" "file" Demo.no_store
     = (inl not_initialized, Demo.no_store).
Proof.
  destruct (@startup_without_collection Demo.runtime (fun _ _ _ _ => inr [])
              "acme" "docs" "" "hello" "doc.txt" "file"
              (mkChatRequest "hello" []))
    as (Hc & _ & Hadd & _).
  - right. right. left. reflexivity.
  - split; [exact Hc | exact Hadd].
Defined.

(** A tenant of one space. *)
Lemma blank_variable_parts_viewer_from_module_run :
  @startup nat (fun _ _ _ _ => inr 0) " " "docs" "key" = (Some 0, [])
  /\ @view_chroma_contents DemoRoutes.viewer " " "docs" "key"
     = ["Connecting to local Persistent Chroma DB ('chroma_db')...";
        "Error accessing Chroma database: Collection default does not exist."].
Proof.
  destruct (@blank_variable_parts_viewer_from_module DemoRoutes.viewer nat
              (fun _ _ _ _ => inr 0) " " "docs" "key") as (H1 & H2).
  - discriminate.
  - discriminate.
  - discriminate.
  - left. reflexivity.
  - split; [exact H1 | exact H2].
Defined.

Lemma report_lists_every_record_run :
  length (report "Connecting to Chroma Cloud Database (as per main.py)..."
            (inr {| got_ids := ["uuid-0"; "uuid-1"];
                    got_documents := ["hello wo"; "world"];
                    got_metadatas := ["{'source': 'doc.txt', 'type': 'file'}";
                                      "{'source': 'doc.txt', 'type': 'file'}"] |}))
  = 2 + 6 * 2.
Proof.
  exact (proj1 (proj2 (report_lists_every_record
                         "Connecting to Chroma Cloud Database (as per main.py)..."
                         {| got_ids := ["uuid-0"; "uuid-1"];
                            got_documents := ["hello wo"; "world"];
                            got_metadatas :=
                              ["{'source': 'doc.txt', 'type': 'file'}";
                               "{'source': 'doc.txt', 'type': 'file'}"] |}
                         eq_refl eq_refl))).
Defined.
